(** * SafeTalk_AI: moderation decision engine, result cache and
      transcription orchestrator

    A shallow embedding of

    - [com/mhire/app/services/moderation/moderation.py],
    - [com/mhire/app/services/transcription/transcription.py],
    - [com/mhire/app/services/fast_transcription/fast_transcription.py],
    - [com/mhire/app/services/transcription_with_moderation/transcription_with_moderation.py]

    Python floats (scores, timestamps, log-probabilities) are modelled by
    rationals [Q]; dictionaries by [gmap]; the process-global caches, the
    wall clock and the two remote services live in one explicit [World]
    that every stateful function threads through. *)

From Stdlib Require Import Ascii String QArith Qabs Qround Lqa ZArith Lia.
From stdpp Require Import gmap strings list pretty.

Local Open Scope string_scope.

(** ** Python string helpers *)

Module PyStr.

(** [str.isspace] on one character.  Characters are code points below 256;
    these are exactly the ones Python classifies as whitespace there. *)
Definition isspace (c : ascii) : bool :=
  let n := nat_of_ascii c in
  (((9 <=? n) && (n <=? 13)) || ((28 <=? n) && (n <=? 32))
   || (n =? 133) || (n =? 160))%nat.

(** [c.lower()] for the ASCII letters. *)
Definition lower_ascii (c : ascii) : ascii :=
  let n := nat_of_ascii c in
  if ((65 <=? n) && (n <=? 90))%nat then ascii_of_nat (n + 32) else c.

(** [text.lower()] *)
Fixpoint lower (s : string) : string :=
  match s with
  | EmptyString => EmptyString
  | String c s' => String (lower_ascii c) (lower s')
  end.

(** [s.lstrip()], [s.rstrip()] and [s.strip()] on character lists *)
Fixpoint lstrip (s : list ascii) : list ascii :=
  match s with
  | [] => []
  | c :: s' => if isspace c then lstrip s' else s
  end.

Definition rstrip (s : list ascii) : list ascii := rev (lstrip (rev s)).

Definition strip (s : string) : string :=
  string_of_list_ascii (rstrip (lstrip (list_ascii_of_string s))).

(** Truth value of a string: non-empty. *)
Definition truthy (s : string) : bool :=
  match s with EmptyString => false | String _ _ => true end.

(** Truth value of an optional string ([None] is false). *)
Definition truthy_opt (s : option string) : bool :=
  match s with Some x => truthy x | None => false end.

(** Every character is whitespace (the empty string included). *)
Fixpoint whitespace_only (s : string) : bool :=
  match s with
  | EmptyString => true
  | String c s' => isspace c && whitespace_only s'
  end.

(** [sep.join(items)] *)
Fixpoint join (sep : string) (items : list string) : string :=
  match items with
  | [] => ""
  | [x] => x
  | x :: rest => x +:+ sep +:+ join sep rest
  end.

(** [needle in haystack] as a proposition. *)
Definition contains (haystack needle : string) : Prop :=
  exists pre post, haystack = pre +:+ needle +:+ post.

End PyStr.

(** ** The fragment of Python's [re] syntax used by the in-source tables

    Literals, [.], [\s], [\b], escaped literals, groups, [|], [*] and [+].
    [search] decides whether some substring matches, which is all that
    [any(re.search(p, text_lower, re.IGNORECASE) for p in TABLE)] needs. *)

Module Regex.

Inductive regex : Type :=
| Eps
| Chr (c : ascii)
| Dot
| Space
| WordB
| Seq (a b : regex)
| Alt (a b : regex)
| Star (a : regex).

(** [\w] on ASCII *)
Definition isword (c : ascii) : bool :=
  let n := nat_of_ascii c in
  (((48 <=? n) && (n <=? 57)) || ((65 <=? n) && (n <=? 90))
   || ((97 <=? n) && (n <=? 122)) || (n =? 95))%nat.

Definition word_opt (c : option ascii) : bool :=
  match c with Some x => isword x | None => false end.

(** [\b]: the characters on the two sides differ in word-ness. *)
Definition at_boundary (prev : option ascii) (rest : list ascii) : bool :=
  xorb (word_opt prev) (word_opt (head rest)).

(** Continuation-passing matcher: [prev] is the character just before the
    current position, [k] receives the position after the match. *)
Fixpoint rmatch (r : regex) (prev : option ascii) (s : list ascii)
         (k : option ascii -> list ascii -> bool) {struct r} : bool :=
  match r with
  | Eps => k prev s
  | Chr c =>
      match s with
      | x :: s' => Ascii.eqb (PyStr.lower_ascii x) (PyStr.lower_ascii c) && k (Some x) s'
      | [] => false
      end
  | Dot =>
      match s with
      | x :: s' => negb (Ascii.eqb x "010"%char) && k (Some x) s'
      | [] => false
      end
  | Space =>
      match s with
      | x :: s' => PyStr.isspace x && k (Some x) s'
      | [] => false
      end
  | WordB => at_boundary prev s && k prev s
  | Seq a b => rmatch a prev s (fun p' s' => rmatch b p' s' k)
  | Alt a b => rmatch a prev s k || rmatch b prev s k
  | Star a =>
      (fix loop (n : nat) (p : option ascii) (t : list ascii) : bool :=
         k p t ||
         match n with
         | O => false
         | S n' =>
             rmatch a p t
               (fun p' t' => (length t' <? length t)%nat && loop n' p' t')
         end) (length s) prev s
  end.

(** Try every start position, left to right. *)
Fixpoint search_from (r : regex) (prev : option ascii) (s : list ascii) : bool :=
  rmatch r prev s (fun _ _ => true) ||
  match s with
  | [] => false
  | x :: s' => search_from r (Some x) s'
  end.

(** *** Pattern strings *)

(** A group under construction: finished alternatives (latest first) and
    the atoms of the current alternative (latest first). *)
Definition frame : Type := list regex * list regex.

Definition seq_of (atoms_rev : list regex) : regex :=
  fold_left (fun acc a => Seq a acc) atoms_rev Eps.

Definition close (f : frame) : regex :=
  fold_left (fun acc a => Alt a acc) (fst f) (seq_of (snd f)).

Definition push_atom (r : regex) (f : frame) : frame := (fst f, r :: snd f).

Definition next_alt (f : frame) : frame := (seq_of (snd f) :: fst f, []).

Definition repeat_last (plus : bool) (f : frame) : option frame :=
  match snd f with
  | [] => None
  | a :: atoms => Some (fst f, (if plus then Seq a (Star a) else Star a) :: atoms)
  end.

Definition escaped (c : ascii) : option regex :=
  if Ascii.eqb c "b" then Some WordB
  else if Ascii.eqb c "s" then Some Space
  else if isword c then None
  else Some (Chr c).

Definition unsupported (c : ascii) : bool :=
  existsb (Ascii.eqb c) (list_ascii_of_string "?[]{}^$").

Fixpoint parse (s : list ascii) (esc : bool) (cur : frame) (stack : list frame)
  : option regex :=
  match s with
  | [] =>
      if esc then None
      else match stack with [] => Some (close cur) | _ :: _ => None end
  | c :: s' =>
      if esc then
        match escaped c with
        | Some r => parse s' false (push_atom r cur) stack
        | None => None
        end
      else if Ascii.eqb c "\" then parse s' true cur stack
      else if Ascii.eqb c "(" then parse s' false ([], []) (cur :: stack)
      else if Ascii.eqb c ")" then
        match stack with
        | [] => None
        | f :: st => parse s' false (push_atom (close cur) f) st
        end
      else if Ascii.eqb c "|" then parse s' false (next_alt cur) stack
      else if Ascii.eqb c "*" then
        match repeat_last false cur with
        | Some cur' => parse s' false cur' stack
        | None => None
        end
      else if Ascii.eqb c "+" then
        match repeat_last true cur with
        | Some cur' => parse s' false cur' stack
        | None => None
        end
      else if Ascii.eqb c "." then parse s' false (push_atom Dot cur) stack
      else if unsupported c then None
      else parse s' false (push_atom (Chr c) cur) stack
  end.

Definition compile (pattern : string) : option regex :=
  parse (list_ascii_of_string pattern) false ([], []) [].

(** [bool(re.search(pattern, text, re.IGNORECASE))] on the fragment; a
    pattern outside the fragment matches nothing here. *)
Definition search (pattern text : string) : bool :=
  match compile pattern with
  | Some r => search_from r None (list_ascii_of_string text)
  | None => false
  end.

End Regex.


(** ** The world outside the pure code *)

(** What [clientModereration.moderations.create(input=text).results[0]]
    carries: the provider's own decision and its per-category maps (the
    [model_dump()] of [categories] and [category_scores]). *)
Record moderation_result : Type := {
  mr_flagged : bool;
  mr_categories : gmap string bool;
  mr_category_scores : gmap string Q;
}.

(** One segment of a verbose Whisper response; [None] when the segment
    carries no [avg_logprob]. *)
Record segment : Type := { avg_logprob : option Q }.

(** The object returned by [client.audio.transcriptions.create]:
    [wr_text] is [None] when it has no [text] attribute, [wr_segments] is
    [None] when it has no [segments] attribute, [wr_str] is [str(obj)]. *)
Record whisper_response : Type := {
  wr_text : option string;
  wr_language : option string;
  wr_segments : option (list segment);
  wr_str : string;
}.

(** Exception classes told apart by the handlers of this repository. *)
Inductive exn_class : Type :=
| RateLimitError      (* openai.RateLimitError *)
| APITimeoutError     (* openai.APITimeoutError *)
| OpenAIError         (* any other openai.OpenAIError *)
| FileNotFoundError
| ValueError
| OtherException.

Inductive outcome (A : Type) : Type :=
| Returned (a : A)
| Raised (c : exn_class) (msg : string).
Arguments Returned {A} a.
Arguments Raised {A} c msg.

(** [Path(file_path).stat()] and friends *)
Record file_stat : Type := { st_size : Z; st_mtime : Q }.

(** A Python number that is an [int] or a [float]; the two print
    differently ([str(0)] is ["0"], [str(0.0)] is ["0.0"]). *)
Inductive pynum : Type :=
| PyInt (z : Z)
| PyFloat (q : Q).

(** The keyword arguments of [client.audio.transcriptions.create];
    an absent key is [None]. *)
Record transcription_params : Type := {
  tp_model : string;
  tp_response_format : string;
  tp_temperature : pynum;
  tp_language : option string;
  tp_prompt : option string;
}.

(** Everything the code reaches but does not define: Python library
    functions, the tables of the module [com.mhire.app.utils.pattern_utils]
    (absent from the sources) and the two remote services.  A remote call
    is indexed by the number of calls made before it, so that two calls
    with the same arguments may answer differently. *)
Record Env : Type := {
  (* bool(re.search(pattern, text, re.IGNORECASE)) *)
  re_search : string -> string -> bool;
  (* f"{score:.2%}" *)
  format_percent : Q -> string;
  (* f"{x:.1f}" *)
  format_fixed1 : Q -> string;
  (* str(x) of a float *)
  str_float : Q -> string;
  (* hashlib.md5(s.encode()).hexdigest() *)
  md5_hexdigest : string -> string;
  (* pattern_utils *)
  BODY_SHAMING_PATTERNS : list string;
  EMOTIONAL_ABUSE_PATTERNS : list string;
  RACISM_HATE_SPEECH_PATTERNS : list string;
  TRANSACTIONAL_DATING_PATTERNS : list string;
  SEXISM_MISOGYNY_TRANSPHOBIA_PATTERNS : list string;
  (* clientModereration.moderations.create(input=text).results[0] *)
  moderations_create : nat -> string -> outcome moderation_result;
  (* config.WHISPER_MODEL_NAME *)
  WHISPER_MODEL_NAME : string;
  (* TranscriptionService._preprocess_audio: pydub normalisation, filters
     and resampling; it catches every exception and always returns
     (processed_file_path, duration_in_seconds) *)
  preprocess_audio : string -> string * Q;
  (* with open(path, "rb") as f: client.audio.transcriptions.create(file=f, **params),
     and the seconds it takes *)
  transcriptions_create :
    nat -> string -> transcription_params -> outcome whisper_response * Q;
}.

(** [TranscriptionRequest], [TranscriptionResponse] and [TranscriptionError]
    of the transcription schemas. *)
Record TranscriptionRequest : Type := {
  audio_file_path : string;
  language : option string;
  prompt : option string;
  response_format : string;
  temperature : pynum;
}.

Record TranscriptionResponse : Type := {
  rs_success : bool;
  rs_transcript : option string;
  rs_file_path : string;
  rs_language_detected : option string;
  rs_duration : option Q;
  rs_response_format : string;
}.

Record TranscriptionError : Type := {
  error_type : string;
  error_message : string;
  er_file_path : option string;
  er_stage : option string;
}.

(** [str(x)] of a number *)
Definition str_num (E : Env) (x : pynum) : string :=
  match x with
  | PyInt z => pretty z
  | PyFloat q => str_float E q
  end.

(** Cached transcription: the [transcription_dict] of the two fast services. *)
Record transcription_dict : Type := {
  td_transcript : option string;
  td_file_path : string;
  td_language_detected : option string;
  td_duration : option Q;
  td_response_format : string;
}.

(** The dictionaries returned by [moderate_text] and [_fast_moderate_text];
    an optional field is [None] when the key is absent. *)
Record verdict : Type := {
  v_text : string;
  v_flagged : bool;
  v_detection_method : option string;
  v_openai_flagged : option bool;
  v_custom_flagged : option bool;
  v_custom_flags : gmap string bool;
  v_reason : option string;
  v_api_call_made : option bool;
  v_categories : option (gmap string bool);
  v_category_scores : option (gmap string Q);
}.

(** What the program does to the outside, in order. *)
Inductive event : Type :=
| EvTranscription (processed_file_path : string)   (* one provider attempt *)
| EvSleep (seconds : Q)                            (* time.sleep(seconds) *)
| EvModeration (text : string).                    (* one classifier call *)

(** Mutable state: the clock, the files on disk, the call counters of the
    remote services, the log of outside events (oldest first) and the
    module-level caches of [fast_transcription] ([ft_]) and
    [transcription_with_moderation] ([twm_]). *)
Record World : Type := {
  now : Q;
  files : gmap string file_stat;
  moderation_calls : nat;
  stt_calls : nat;
  trace : list event;
  ft_transcription_cache : gmap string transcription_dict;
  ft_cache_timestamps : gmap string Q;
  twm_transcription_cache : gmap string transcription_dict;
  twm_moderation_cache : gmap string verdict;
  twm_cache_timestamps : gmap string Q;
}.

Definition elapse (dt : Q) (w : World) : World :=
  {| now := now w + dt; files := files w;
     moderation_calls := moderation_calls w; stt_calls := stt_calls w;
     trace := trace w;
     ft_transcription_cache := ft_transcription_cache w;
     ft_cache_timestamps := ft_cache_timestamps w;
     twm_transcription_cache := twm_transcription_cache w;
     twm_moderation_cache := twm_moderation_cache w;
     twm_cache_timestamps := twm_cache_timestamps w |}.

Definition log_event (e : event) (w : World) : World :=
  {| now := now w; files := files w;
     moderation_calls :=
       (match e with EvModeration _ => S (moderation_calls w) | _ => moderation_calls w end);
     stt_calls :=
       (match e with EvTranscription _ => S (stt_calls w) | _ => stt_calls w end);
     trace := (trace w ++ [e])%list;
     ft_transcription_cache := ft_transcription_cache w;
     ft_cache_timestamps := ft_cache_timestamps w;
     twm_transcription_cache := twm_transcription_cache w;
     twm_moderation_cache := twm_moderation_cache w;
     twm_cache_timestamps := twm_cache_timestamps w |}.

Definition set_ft (cache : gmap string transcription_dict) (stamps : gmap string Q)
           (w : World) : World :=
  {| now := now w; files := files w;
     moderation_calls := moderation_calls w; stt_calls := stt_calls w;
     trace := trace w;
     ft_transcription_cache := cache;
     ft_cache_timestamps := stamps;
     twm_transcription_cache := twm_transcription_cache w;
     twm_moderation_cache := twm_moderation_cache w;
     twm_cache_timestamps := twm_cache_timestamps w |}.

Definition set_twm (tcache : gmap string transcription_dict)
           (mcache : gmap string verdict) (stamps : gmap string Q)
           (w : World) : World :=
  {| now := now w; files := files w;
     moderation_calls := moderation_calls w; stt_calls := stt_calls w;
     trace := trace w;
     ft_transcription_cache := ft_transcription_cache w;
     ft_cache_timestamps := ft_cache_timestamps w;
     twm_transcription_cache := tcache;
     twm_moderation_cache := mcache;
     twm_cache_timestamps := stamps |}.

(** A small state monad over [World]. *)
Definition M (A : Type) : Type := World -> A * World.

Definition ret {A} (a : A) : M A := fun w => (a, w).

Definition bind {A B} (c : M A) (k : A -> M B) : M B :=
  fun w => let (a, w') := c w in k a w'.

Notation "'let*' x ':=' c 'in' k" := (bind c (fun x => k))
  (at level 10, x pattern, c at level 100, k at level 200).

(** Read the current world (clock, files, caches). *)
Definition get_world : M World := fun w => (w, w).

(** [time.sleep(seconds)] *)
Definition time_sleep (seconds : Q) : M unit :=
  fun w => (tt, elapse seconds (log_event (EvSleep seconds) w)).

(** [x > y] and [x < y] on the modelled floats *)
Definition Qgtb (x y : Q) : bool := negb (Qle_bool x y).
Definition Qltb (x y : Q) : bool := negb (Qle_bool y x).

(** [for key in keys: d.pop(key, None)] *)
Definition pop_all {V} (keys : list string) (d : gmap string V) : gmap string V :=
  fold_left (fun d key => delete key d) keys d.

(** [str(x)] of an optional string ([None] prints as [None]) *)
Definition str_opt (x : option string) : string := default "None" x.

(** ** moderation.py *)

Module Moderation.

(** Custom thresholds for dating app (stricter than OpenAI defaults) *)
Definition CUSTOM_THRESHOLDS : list (string * Q) :=
  [ ("sexual", 5 # 100);
    ("harassment", 5 # 100);
    ("hate", 5 # 100);
    ("violence", 1 # 10);
    ("sexual_minors", 1 # 100);
    ("sexual/minors", 1 # 100) ]%Q.

(** Explicit inappropriate words/phrases for dating context *)
Definition INAPPROPRIATE_PATTERNS : list string :=
  [ "\b(fuck|fucking|fucked)\b";
    "\b(pussy|dick|cock|penis|vagina)\b";
    "\b(cum|cumming|orgasm)\b";
    "\b(horny|wet|hard|erect)\b";
    "\b(suck|lick|taste|swallow)\b.*\b(you|me|it)\b";
    "\b(naked|nude|undress|strip)\b";
    "\b(bedroom|bed|shower|bath)\b.*\b(together|with me|with you)\b";
    "\b(kiss|touch|feel|grab)\b.*\b(body|skin|lips|neck)\b";
    "\bhow far.*\b(down|up|deep)\b";
    "\bslowly.*\b(kiss|touch|lick)\b";
    "\bmake.*\b(love|out|you moan)\b";
    "\b(desire|want|need).*\b(you|your body)\b";
    "\b(turn.*on|turned on|aroused)\b";
    "\b(dirty|naughty|bad).*\b(things|thoughts|ideas)\b";
    "\b(69)\b";
    "\bwithout\s+(them|clothes|clothing)\b";
    "\bcan\'t\s+imagine\s+how\s+(good|sexy|hot)\s+you\b";
    "\bhow\s+(good|sexy|hot)\s+you\'ll\s+look\s+without\b";
    "\blook\s+(good|sexy|hot)\s+without\b";
    "\bwhat\s+you\'re\s+wearing\s+under\b";
    "\bunderneath\s+(those|your)\s+(clothes|clothing)\b" ].

Definition suggestive_indicators : list string :=
  [ "\btonight.*\bwant\b";
    "\bquestion.*\bhow far\b";
    "\bslowly.*\bkiss.*\bdown\b";
    "\bfrom.*\blips.*\bdown\b" ].

(** The [openai_data] dictionary of [openai_context_analysis]. *)
Record openai_data : Type := {
  od_categories : gmap string bool;
  od_category_scores : gmap string Q;
  od_openai_flagged : bool;
  od_custom_threshold_violations : list string;
}.

Section WithEnv.
Context (E : Env).

(** [any(re.search(pattern, text_lower, re.IGNORECASE) for pattern in table)] *)
Definition any_match (table : list string) (text_lower : string) : bool :=
  existsb (fun pattern => re_search E pattern text_lower) table.

(** One [if matches: ... else: ...] block: set the flag and, on a match,
    append the description to [reasons]. *)
Definition record_group (key description : string) (matches : bool)
           (acc : gmap string bool * list string)
  : gmap string bool * list string :=
  let '(custom_flags, reasons) := acc in
  if matches
  then (<[key := true]> custom_flags, (reasons ++ [description])%list)
  else (<[key := false]> custom_flags, reasons).

(** [custom_flags.get(key, False)] *)
Definition get_flag (custom_flags : gmap string bool) (key : string) : bool :=
  default false (custom_flags !! key).

(** Fast custom pattern detection without OpenAI API call.
    Returns: (is_flagged, custom_flags_dict, reason) *)
Definition check_custom_patterns_only (text : string)
  : bool * gmap string bool * string :=
  let acc : gmap string bool * list string := (∅, []) in
  let text_lower := PyStr.lower text in
  (* Check for explicit inappropriate patterns *)
  let explicit_matches := any_match INAPPROPRIATE_PATTERNS text_lower in
  let acc := record_group "explicit_content"
      "Explicit sexual/inappropriate language detected" explicit_matches acc in
  (* Check for suggestive context patterns *)
  let suggestive_matches := any_match suggestive_indicators text_lower in
  let acc := record_group "suggestive_context"
      "Suggestive/sexual context detected" suggestive_matches acc in
  (* Check for body shaming and appearance-based harassment *)
  let body_shaming_matches := any_match (BODY_SHAMING_PATTERNS E) text_lower in
  let acc := record_group "body_shaming"
      "Body shaming/appearance-based harassment detected" body_shaming_matches acc in
  (* Check for emotional abuse and manipulation *)
  let emotional_abuse_matches := any_match (EMOTIONAL_ABUSE_PATTERNS E) text_lower in
  let acc := record_group "emotional_abuse"
      "Emotional abuse/manipulation detected" emotional_abuse_matches acc in
  (* Check for racism and hate speech *)
  let racism_hate_matches := any_match (RACISM_HATE_SPEECH_PATTERNS E) text_lower in
  let acc := record_group "racism_hate_speech"
      "Racism/hate speech detected" racism_hate_matches acc in
  (* Check for transactional and sugar-dating language *)
  let transactional_matches :=
    any_match (TRANSACTIONAL_DATING_PATTERNS E) text_lower in
  let acc := record_group "transactional_dating"
      "Transactional/sugar-dating language detected" transactional_matches acc in
  (* Check for sexism, misogyny, and transphobia *)
  let sexism_matches :=
    any_match (SEXISM_MISOGYNY_TRANSPHOBIA_PATTERNS E) text_lower in
  let acc := record_group "sexism_misogyny_transphobia"
      "Sexism/misogyny/transphobia detected" sexism_matches acc in
  let '(custom_flags, reasons) := acc in
  (* Overall flagging decision for custom patterns *)
  let is_flagged :=
    existsb id
      [ get_flag custom_flags "explicit_content";
        get_flag custom_flags "suggestive_context";
        get_flag custom_flags "body_shaming";
        get_flag custom_flags "emotional_abuse";
        get_flag custom_flags "racism_hate_speech";
        get_flag custom_flags "transactional_dating";
        get_flag custom_flags "sexism_misogyny_transphobia" ] in
  let reason :=
    match reasons with
    | [] => "No custom pattern violations detected"
    | _ :: _ => PyStr.join "; " reasons
    end in
  (is_flagged, custom_flags, reason).

(** The loop over [CUSTOM_THRESHOLDS.items()]. *)
Definition flagged_categories_of (scores : gmap string Q) : list string :=
  omap (fun '(category, threshold) =>
          let score := default 0%Q (scores !! category) in
          if Qgtb score threshold
          then Some (category +:+ " (" +:+ format_percent E score +:+ ")")
          else None)
       CUSTOM_THRESHOLDS.

(** OpenAI context analysis for subtle/borderline cases.
    Returns: (is_flagged, openai_result_dict, reason); the dictionary is
    [None] for the empty dictionary of the [except] branch. *)
Definition openai_context_analysis (text : string)
  : M (bool * option openai_data * string) :=
  fun w =>
    let w' := log_event (EvModeration text) w in
    match moderations_create E (moderation_calls w) text with
    | Returned openai_result =>
        let flagged_categories :=
          flagged_categories_of (mr_category_scores openai_result) in
        let is_flagged :=
          mr_flagged openai_result || (0 <? length flagged_categories)%nat in
        let reason := "OpenAI detected harmful context/intent" in
        let reason :=
          match flagged_categories with
          | [] => reason
          | _ :: _ => reason +:+ ": " +:+ PyStr.join ", " flagged_categories
          end in
        let data :=
          {| od_categories := mr_categories openai_result;
             od_category_scores := mr_category_scores openai_result;
             od_openai_flagged := mr_flagged openai_result;
             od_custom_threshold_violations := flagged_categories |} in
        ((is_flagged, Some data, reason), w')
    | Raised _ msg =>
        (* Fallback: don't flag if API fails *)
        ((false, None, "Context analysis failed: " +:+ msg), w')
    end.

(** Optimized hybrid moderation: Custom patterns first, then OpenAI
    context analysis if needed *)
Definition moderate_text (transcribed_text : string) : M verdict :=
  (* Step 1: Quick custom pattern check *)
  let '(custom_flagged, custom_flags, custom_reason) :=
    check_custom_patterns_only transcribed_text in
  if custom_flagged then
    ret {| v_text := transcribed_text;
           v_flagged := true;
           v_detection_method := None;
           v_openai_flagged := None;
           v_custom_flagged := None;
           v_custom_flags := custom_flags;
           v_reason := None;
           v_api_call_made := None;
           v_categories := None;
           v_category_scores := None |}
  else
    (* Step 2: OpenAI context analysis for borderline cases *)
    let* (openai_flagged, data, openai_reason) :=
      openai_context_analysis transcribed_text in
    ret {| v_text := transcribed_text;
           v_flagged := openai_flagged;
           v_detection_method :=
             Some (if openai_flagged then "openai_context_analysis" else "clean");
           v_openai_flagged :=
             Some (match data with Some d => od_openai_flagged d | None => false end);
           v_custom_flagged := Some false;
           v_custom_flags := custom_flags;
           v_reason :=
             Some (if openai_flagged then openai_reason
                   else "Content appears safe after full analysis");
           v_api_call_made := Some true;
           v_categories :=
             Some (match data with Some d => od_categories d | None => ∅ end);
           v_category_scores :=
             Some (match data with Some d => od_category_scores d | None => ∅ end) |}.

End WithEnv.

End Moderation.

(** ** transcription.py *)

Module Transcription.

(** Supported audio formats for OpenAI Whisper (a Python set; the order
    only shows in an error message). *)
Definition SUPPORTED_FORMATS : list string :=
  [".mp3"; ".mp4"; ".mpeg"; ".mpga"; ".m4a"; ".wav"; ".webm"].

(** 25MB limit for OpenAI API *)
Definition MAX_FILE_SIZE : Z := 25 * 1024 * 1024.

Definition max_retries : nat := 2.

Definition dating_context_prompts : list string :=
  [ "This is a conversation from a dating app. Include proper punctuation and capitalization.";
    "Dating app voice message with casual conversation.";
    "Personal conversation between two people getting to know each other." ].

(** [Path(p).name]: what follows the last slash. *)
Definition path_name (p : list ascii) : list ascii :=
  fold_left (fun acc c => if Ascii.eqb c "/" then [] else (acc ++ [c])%list) p [].

(** [name.rfind(".")] *)
Fixpoint rfind_dot (name : list ascii) (i : nat) (found : option nat) : option nat :=
  match name with
  | [] => found
  | c :: rest => rfind_dot rest (S i) (if Ascii.eqb c "." then Some i else found)
  end.

(** [Path(p).suffix]: from the last dot of the name, unless that dot is
    the first or the last character. *)
Definition path_suffix (p : string) : string :=
  let name := path_name (list_ascii_of_string p) in
  match rfind_dot name 0 None with
  | Some i =>
      if ((0 <? i) && (i <? length name - 1))%nat
      then string_of_list_ascii (drop i name)
      else ""
  | None => ""
  end.

(** [min(a, b)] and [max(a, b)] of Python: the first argument wins ties. *)
Definition py_min (a b : Q) : Q := if Qlt_le_dec b a then b else a.
Definition py_max (a b : Q) : Q := if Qlt_le_dec a b then b else a.

(** One turn of the loop over [transcript_response.segments]. *)
Definition accumulate_step (acc : Q * nat) (seg : segment) : Q * nat :=
  let '(total_confidence, segment_count) := acc in
  match avg_logprob seg with
  | Some p => ((total_confidence + p)%Q, S segment_count)
  | None => (total_confidence, segment_count)
  end.

(** The accumulation loop of [_calculate_confidence_score]:
    [(total_confidence, segment_count)] after the segments. *)
Definition accumulate (segments : list segment) : Q * nat :=
  fold_left accumulate_step segments (0%Q, O).

(** Calculate confidence score from Whisper response segments.
    Returns: Confidence score between 0.0 and 1.0 *)
Definition _calculate_confidence_score (transcript_response : whisper_response) : Q :=
  (* Default confidence for Whisper *)
  let default_confidence := (85 # 100)%Q in
  match wr_segments transcript_response with
  | Some ((_ :: _) as segments) =>
      let '(total_confidence, segment_count) := accumulate segments in
      if (0 <? segment_count)%nat then
        let avg_confidence :=
          (total_confidence / inject_Z (Z.of_nat segment_count))%Q in
        (* Convert log probability to confidence score (0-1) *)
        py_max 0 (py_min 1 (avg_confidence + 1))%Q
      else default_confidence
  | _ => default_confidence
  end.

Section WithEnv.
Context (E : Env).

(** Validate audio file exists, format is supported, and size is within
    limits; [Some (class, message)] is the exception raised. *)
Definition _validate_audio_file (file_path : string) (w : World)
  : option (exn_class * string) :=
  match files w !! file_path with
  | None => Some (FileNotFoundError, "Audio file not found: " +:+ file_path)
  | Some st =>
      let file_extension := PyStr.lower (path_suffix file_path) in
      if negb (bool_decide (file_extension ∈ SUPPORTED_FORMATS)) then
        Some (ValueError,
              "Unsupported audio format: " +:+ file_extension
              +:+ ". Supported formats: " +:+ PyStr.join ", " SUPPORTED_FORMATS)
      else if (MAX_FILE_SIZE <? st_size st)%Z then
        Some (ValueError,
              "File size ("
              +:+ format_fixed1 E (inject_Z (st_size st) / inject_Z (1024 * 1024))%Q
              +:+ "MB) exceeds maximum allowed size (25MB)")
      else None
  end.

(** One provider attempt: [open(processed_file_path, "rb")] and
    [self.client.audio.transcriptions.create(file=audio_file, **params)]. *)
Definition create_transcription (processed_file_path : string)
           (params : transcription_params) : M (outcome whisper_response) :=
  fun w =>
    let '(r, seconds) :=
      transcriptions_create E (stt_calls w) processed_file_path params in
    (r, elapse seconds (log_event (EvTranscription processed_file_path) w)).

(** Step 3: [for attempt in range(max_retries + 1)].  [Returned None] is
    the loop running out with [transcript] still [None]. *)
Fixpoint retry_loop (processed_file_path : string) (params : transcription_params)
         (attempts : list nat) : M (outcome (option whisper_response)) :=
  match attempts with
  | [] => ret (Returned None)
  | attempt :: rest =>
      let* r := create_transcription processed_file_path params in
      match r with
      | Returned transcript => ret (Returned (Some transcript))  (* break *)
      | Raised RateLimitError msg =>
          if (attempt <? max_retries)%nat then
            let wait_time := inject_Z ((Z.of_nat attempt + 1) * 2) in
            let* _ := time_sleep wait_time in
            retry_loop processed_file_path params rest
          else ret (Raised RateLimitError msg)
      | Raised APITimeoutError msg =>
          if (attempt <? max_retries)%nat then
            retry_loop processed_file_path params rest
          else ret (Raised APITimeoutError msg)
      | Raised c msg => ret (Raised c msg)
      end
  end.

(** The [except] clauses of [transcribe_audio], by exception class. *)
Definition handle_exception (request : TranscriptionRequest)
           (c : exn_class) (msg : string) : TranscriptionError :=
  match c with
  | FileNotFoundError =>
      {| error_type := "FileNotFoundError"; error_message := msg;
         er_file_path := Some (audio_file_path request); er_stage := None |}
  | ValueError =>
      {| error_type := "ValidationError"; error_message := msg;
         er_file_path := Some (audio_file_path request); er_stage := None |}
  | RateLimitError | APITimeoutError | OpenAIError =>
      {| error_type := "OpenAIError"; error_message := "API error: " +:+ msg;
         er_file_path := Some (audio_file_path request); er_stage := None |}
  | OtherException =>
      {| error_type := "UnexpectedError";
         error_message := "An unexpected error occurred: " +:+ msg;
         er_file_path := Some (audio_file_path request); er_stage := None |}
  end.

(** [str(transcript)] *)
Definition str_transcript (transcript : option whisper_response) : string :=
  match transcript with Some t => wr_str t | None => "None" end.

(** Step 4: Extract results and calculate confidence:
    [(transcript_text, detected_language, confidence_score)]. *)
Definition extract_results (request : TranscriptionRequest) (actual_format : string)
           (transcript : option whisper_response) : string * option string * Q :=
  let confidence_score := (85 # 100)%Q in
  (* hasattr(transcript, 'text') *)
  let text_attr := transcript ≫= wr_text in
  let from_object :=
    match transcript, text_attr with
    | Some t, Some text => (text, wr_language t, _calculate_confidence_score t)
    | _, _ => (str_transcript transcript, None, confidence_score)
    end in
  if String.eqb actual_format "verbose_json" then from_object
  else if String.eqb (response_format request) "text" then
    (default (str_transcript transcript) text_attr, None, confidence_score)
  else if bool_decide (response_format request ∈ ["json"; "verbose_json"]) then
    from_object
  else if bool_decide (response_format request ∈ ["srt"; "vtt"]) then
    (str_transcript transcript, None, confidence_score)
  else
    (default (str_transcript transcript) text_attr, None, confidence_score).

(** Step 2: Prepare transcription parameters. *)
Definition prepare_params (request : TranscriptionRequest) (actual_format : string)
  : transcription_params :=
  {| tp_model := WHISPER_MODEL_NAME E;
     tp_response_format := actual_format;
     tp_temperature := temperature request;
     tp_language :=
       if PyStr.truthy_opt (language request) then language request else None;
     tp_prompt :=
       if PyStr.truthy_opt (prompt request) then
         let cleaned_prompt := PyStr.strip (default "" (prompt request)) in
         if (0 <? String.length cleaned_prompt)%nat then Some cleaned_prompt else None
       else head dating_context_prompts |}.

(** Transcribe audio file using OpenAI Whisper API.  (The [finally]
    clause deletes the preprocessed copy; the files of the model hold
    only what the cache keys read, so it leaves the world as it is.) *)
Definition transcribe_audio (request : TranscriptionRequest)
  : M (TranscriptionResponse + TranscriptionError) :=
  let* w := get_world in
  match _validate_audio_file (audio_file_path request) w with
  | Some (c, msg) => ret (inr (handle_exception request c msg))
  | None =>
      (* Step 1: Preprocess audio for better accuracy *)
      let '(processed_file_path, duration) :=
        preprocess_audio E (audio_file_path request) in
      let use_verbose :=
        bool_decide (response_format request ∈ ["json"; "verbose_json"])
        || String.eqb (response_format request) "text" in
      let actual_format :=
        if use_verbose then "verbose_json" else response_format request in
      let transcription_params := prepare_params request actual_format in
      (* Step 3: Perform transcription with retry logic *)
      let* r := retry_loop processed_file_path transcription_params
                           (seq 0 (max_retries + 1)) in
      match r with
      | Raised c msg => ret (inr (handle_exception request c msg))
      | Returned transcript =>
          let '(transcript_text, detected_language, _) :=
            extract_results request actual_format transcript in
          ret (inl {| rs_success := true;
                      rs_transcript := Some transcript_text;
                      rs_file_path := audio_file_path request;
                      rs_language_detected := detected_language;
                      rs_duration := Some duration;
                      rs_response_format := response_format request |})
      end
  end.

(** Convenience function for transcribing audio files. *)
Definition transcribe_audio_file (request : TranscriptionRequest)
  : M (TranscriptionResponse + TranscriptionError) :=
  transcribe_audio request.

End WithEnv.

End Transcription.

(** The [request_params] dictionary of the two fast services. *)
Record request_params : Type := {
  rp_language : option string;
  rp_response_format : string;
  rp_temperature : pynum;
  rp_prompt : option string;
}.

(** [TranscriptionError] of the fast schemas ([stage] is required there). *)
Record StageError : Type := {
  se_error_type : string;
  se_error_message : string;
  se_file_path : option string;
  se_stage : string;
}.

(** ** fast_transcription.py *)

Module FastTranscription.

(* Performance optimizations *)
Definition ENABLE_CACHING : bool := true.
Definition CACHE_MAX_AGE : Q := 3600.   (* 1 hour cache TTL *)
Definition MAX_CACHE_SIZE : nat := 1000.

Section WithEnv.
Context (E : Env).

(** Generate a hash for file caching based on path, size, and
    modification time *)
Definition _get_file_hash (file_path : string) (file_size : Z) (file_mtime : pynum)
  : string :=
  md5_hexdigest E (file_path +:+ ":" +:+ pretty file_size +:+ ":" +:+ str_num E file_mtime).

(** Get file info for caching; [(0, 0)] when [stat] raises. *)
Definition _get_file_info (file_path : string) (w : World) : Z * pynum :=
  match files w !! file_path with
  | Some st => (st_size st, PyFloat (st_mtime st))
  | None => (0%Z, PyInt 0)
  end.

(** The [cache_key] computed alike by lookup and store. *)
Definition cache_key (file_path : string) (params : request_params) (w : World)
  : string :=
  let '(file_size, file_mtime) := _get_file_info file_path w in
  let file_hash := _get_file_hash file_path file_size file_mtime in
  (* Create cache key including request parameters *)
  let params_str :=
    str_opt (rp_language params) +:+ ":" +:+ rp_response_format params
    +:+ ":" +:+ str_num E (rp_temperature params) in
  "transcription:" +:+ file_hash +:+ ":" +:+ params_str.

(** Check if cache entry is still valid *)
Definition _is_cache_valid (cache_key : string) (w : World) : bool :=
  if negb ENABLE_CACHING then false
  else
    match ft_cache_timestamps w !! cache_key with
    | None => false
    | Some timestamp => Qltb (now w - timestamp) CACHE_MAX_AGE
    end.

(** Get cached transcription result if available *)
Definition _get_cached_transcription (file_path : string) (params : request_params)
  : M (option transcription_dict) :=
  fun w =>
    if negb ENABLE_CACHING then (None, w)
    else
      let cache_key := cache_key file_path params w in
      if _is_cache_valid cache_key w
         && bool_decide (is_Some (ft_transcription_cache w !! cache_key))
      then (ft_transcription_cache w !! cache_key, w)
      else (None, w).

(** Remove old cache entries to prevent memory bloat *)
Definition _cleanup_old_cache_entries : M unit :=
  fun w =>
    let current_time := now w in
    (* Clean transcription cache *)
    let expired_keys :=
      omap (fun '(key, timestamp) =>
              if Qgtb (current_time - timestamp) CACHE_MAX_AGE
                 && String.prefix "transcription:" key
              then Some key else None)
           (map_to_list (ft_cache_timestamps w)) in
    (tt, set_ft (pop_all expired_keys (ft_transcription_cache w))
                (pop_all expired_keys (ft_cache_timestamps w)) w).

(** Cache transcription result *)
Definition _cache_transcription (file_path : string) (params : request_params)
           (result : transcription_dict) : M unit :=
  fun w =>
    if negb ENABLE_CACHING then (tt, w)
    else
      let cache_key := cache_key file_path params w in
      let w := set_ft (<[cache_key := result]> (ft_transcription_cache w))
                      (<[cache_key := now w]> (ft_cache_timestamps w)) w in
      (* Clean old cache entries if cache is getting too large *)
      if (MAX_CACHE_SIZE <? size (ft_transcription_cache w))%nat
      then _cleanup_old_cache_entries w
      else (tt, w).

(** Ultra-fast transcribe audio file.  Uses caching for maximum speed. *)
Definition transcribe (request : TranscriptionRequest)
  : M (TranscriptionResponse + StageError) :=
  (* Prepare request parameters for caching *)
  let params :=
    {| rp_language := language request;
       rp_response_format := response_format request;
       rp_temperature := temperature request;
       rp_prompt := prompt request |} in
  (* Check transcription cache first *)
  let* cached_transcription :=
    _get_cached_transcription (audio_file_path request) params in
  match cached_transcription with
  | Some transcription_result =>
      ret (inl {| rs_success := true;
                  rs_transcript := td_transcript transcription_result;
                  rs_file_path := td_file_path transcription_result;
                  rs_language_detected := td_language_detected transcription_result;
                  rs_duration := td_duration transcription_result;
                  rs_response_format := td_response_format transcription_result |})
  | None =>
      (* Transcribe the audio *)
      let transcription_request :=
        {| audio_file_path := audio_file_path request;
           language := language request;
           prompt := prompt request;
           response_format := response_format request;
           temperature := temperature request |} in
      let* transcription_result :=
        Transcription.transcribe_audio_file E transcription_request in
      match transcription_result with
      | inr err =>
          (* Check if transcription failed *)
          ret (inr {| se_error_type := error_type err;
                      se_error_message := "Transcription failed: " +:+ error_message err;
                      se_file_path := Some (audio_file_path request);
                      se_stage := "transcription" |})
      | inl transcription_result =>
          (* Cache successful transcription *)
          let transcription_dict :=
            {| td_transcript := rs_transcript transcription_result;
               td_file_path := rs_file_path transcription_result;
               td_language_detected := rs_language_detected transcription_result;
               td_duration := rs_duration transcription_result;
               td_response_format := rs_response_format transcription_result |} in
          let* _ := _cache_transcription (audio_file_path request) params
                                         transcription_dict in
          ret (inl {| rs_success := true;
                      rs_transcript := rs_transcript transcription_result;
                      rs_file_path := rs_file_path transcription_result;
                      rs_language_detected := rs_language_detected transcription_result;
                      rs_duration := rs_duration transcription_result;
                      rs_response_format := rs_response_format transcription_result |})
      end
  end.

End WithEnv.

End FastTranscription.

(** [TranscriptionWithModerationResponse] as built by
    [transcribe_and_moderate]. *)
Record TranscriptionWithModerationResponse : Type := {
  mr_success : bool;
  mr_transcript : option string;
  mr_file_path : string;
  mr_language_detected : option string;
  mr_duration : option Q;
  mr_response_format : string;
  moderation_flagged : bool;
  moderation_reason : string;
  is_safe : bool;
}.

(** ** transcription_with_moderation.py *)

Module TranscriptionWithModeration.

(* Performance optimizations *)
Definition ENABLE_CACHING : bool := true.
(* Use custom patterns first, skip OpenAI if flagged *)
Definition ENABLE_FAST_MODERATION : bool := true.
Definition CACHE_MAX_AGE : Q := 3600.   (* 1 hour cache TTL *)
Definition MAX_CACHE_SIZE : nat := 1000.

Section WithEnv.
Context (E : Env).

(** Generate a hash for file caching based on path, size, and
    modification time *)
Definition _get_file_hash (file_path : string) (file_size : Z) (file_mtime : pynum)
  : string :=
  md5_hexdigest E (file_path +:+ ":" +:+ pretty file_size +:+ ":" +:+ str_num E file_mtime).

(** Get file info for caching; [(0, 0)] when [stat] raises. *)
Definition _get_file_info (file_path : string) (w : World) : Z * pynum :=
  match files w !! file_path with
  | Some st => (st_size st, PyFloat (st_mtime st))
  | None => (0%Z, PyInt 0)
  end.

(** The transcription [cache_key] computed alike by lookup and store. *)
Definition cache_key (file_path : string) (params : request_params) (w : World)
  : string :=
  let '(file_size, file_mtime) := _get_file_info file_path w in
  let file_hash := _get_file_hash file_path file_size file_mtime in
  (* Create cache key including request parameters *)
  let params_str :=
    str_opt (rp_language params) +:+ ":" +:+ rp_response_format params
    +:+ ":" +:+ str_num E (rp_temperature params) in
  "transcription:" +:+ file_hash +:+ ":" +:+ params_str.

(** The moderation [cache_key]. *)
Definition moderation_key (text : string) : string :=
  let text_hash := md5_hexdigest E text in
  "moderation:" +:+ text_hash.

(** Check if cache entry is still valid *)
Definition _is_cache_valid (cache_key : string) (w : World) : bool :=
  if negb ENABLE_CACHING then false
  else
    match twm_cache_timestamps w !! cache_key with
    | None => false
    | Some timestamp => Qltb (now w - timestamp) CACHE_MAX_AGE
    end.

(** Get cached transcription result if available *)
Definition _get_cached_transcription (file_path : string) (params : request_params)
  : M (option transcription_dict) :=
  fun w =>
    if negb ENABLE_CACHING then (None, w)
    else
      let cache_key := cache_key file_path params w in
      if _is_cache_valid cache_key w
         && bool_decide (is_Some (twm_transcription_cache w !! cache_key))
      then (twm_transcription_cache w !! cache_key, w)
      else (None, w).

(** Remove old cache entries to prevent memory bloat *)
Definition _cleanup_old_cache_entries : M unit :=
  fun w =>
    let current_time := now w in
    let expired_keys :=
      omap (fun '(key, timestamp) =>
              if Qgtb (current_time - timestamp) CACHE_MAX_AGE
              then Some key else None)
           (map_to_list (twm_cache_timestamps w)) in
    let transcription_keys := filter (fun key => String.prefix "transcription:" key = true) expired_keys in
    let moderation_keys :=
      filter (fun key => String.prefix "transcription:" key = false
                         ∧ String.prefix "moderation:" key = true) expired_keys in
    (tt, set_twm (pop_all transcription_keys (twm_transcription_cache w))
                 (pop_all moderation_keys (twm_moderation_cache w))
                 (pop_all expired_keys (twm_cache_timestamps w)) w).

(** Cache transcription result *)
Definition _cache_transcription (file_path : string) (params : request_params)
           (result : transcription_dict) : M unit :=
  fun w =>
    if negb ENABLE_CACHING then (tt, w)
    else
      let cache_key := cache_key file_path params w in
      let w := set_twm (<[cache_key := result]> (twm_transcription_cache w))
                       (twm_moderation_cache w)
                       (<[cache_key := now w]> (twm_cache_timestamps w)) w in
      (* Clean old cache entries if cache is getting too large *)
      if (MAX_CACHE_SIZE <? size (twm_transcription_cache w))%nat
      then _cleanup_old_cache_entries w
      else (tt, w).

(** Get cached moderation result if available *)
Definition _get_cached_moderation (text : string) : M (option verdict) :=
  fun w =>
    if negb ENABLE_CACHING then (None, w)
    else
      let cache_key := moderation_key text in
      if _is_cache_valid cache_key w
         && bool_decide (is_Some (twm_moderation_cache w !! cache_key))
      then (twm_moderation_cache w !! cache_key, w)
      else (None, w).

(** Cache moderation result *)
Definition _cache_moderation (text : string) (result : verdict) : M unit :=
  fun w =>
    if negb ENABLE_CACHING then (tt, w)
    else
      let cache_key := moderation_key text in
      let w := set_twm (twm_transcription_cache w)
                       (<[cache_key := result]> (twm_moderation_cache w))
                       (<[cache_key := now w]> (twm_cache_timestamps w)) w in
      (* Clean old cache entries if cache is getting too large *)
      if (MAX_CACHE_SIZE <? size (twm_moderation_cache w))%nat
      then _cleanup_old_cache_entries w
      else (tt, w).

(** Ultra-fast moderation using custom patterns first *)
Definition _fast_moderate_text (text : string) : M verdict :=
  if negb (PyStr.truthy text) || negb (PyStr.truthy (PyStr.strip text)) then
    ret {| v_text := text;
           v_flagged := false;
           v_detection_method := None;
           v_openai_flagged := None;
           v_custom_flagged := Some false;
           v_custom_flags := ∅;
           v_reason := Some "Empty text";
           v_api_call_made := None;
           v_categories := None;
           v_category_scores := None |}
  else
    (* Check cache first *)
    let* cached_result := _get_cached_moderation text in
    match cached_result with
    | Some cached_result => ret cached_result
    | None =>
        let fast :=
          if ENABLE_FAST_MODERATION then
            (* Step 1: Lightning-fast custom pattern check *)
            let '(custom_flagged, custom_flags, custom_reason) :=
              Moderation.check_custom_patterns_only E text in
            if custom_flagged then
              (* If custom patterns flag it, no need for OpenAI API call *)
              Some {| v_text := text;
                      v_flagged := true;
                      v_detection_method := None;
                      v_openai_flagged := None;
                      v_custom_flagged := Some true;
                      v_custom_flags := custom_flags;
                      v_reason := Some custom_reason;
                      v_api_call_made := None;
                      v_categories := None;
                      v_category_scores := None |}
            else None
          else None in
        match fast with
        | Some result =>
            let* _ := _cache_moderation text result in
            ret result
        | None =>
            (* Step 2: Full moderation only if custom patterns didn't flag it *)
            let* result := Moderation.moderate_text E text in
            let* _ := _cache_moderation text result in
            ret result
        end
    end.

(** Ultra-fast transcribe audio file and moderate the resulting text. *)
Definition transcribe_and_moderate (request : TranscriptionRequest)
  : M (TranscriptionWithModerationResponse + StageError) :=
  (* Prepare request parameters for caching *)
  let params :=
    {| rp_language := language request;
       rp_response_format := response_format request;
       rp_temperature := temperature request;
       rp_prompt := prompt request |} in
  (* Check transcription cache first *)
  let* cached_transcription :=
    _get_cached_transcription (audio_file_path request) params in
  (* [transcription_result] is the cached dictionary ([inl]) or the
     fresh [TranscriptionResponse] object ([inr]). *)
  let* transcription_result :=
    match cached_transcription with
    | Some cached_transcription => ret (inl (inl cached_transcription))
    | None =>
        (* Step 1: Transcribe the audio *)
        let transcription_request :=
          {| audio_file_path := audio_file_path request;
             language := language request;
             prompt := prompt request;
             response_format := response_format request;
             temperature := temperature request |} in
        let* transcription_result :=
          Transcription.transcribe_audio_file E transcription_request in
        match transcription_result with
        | inr err =>
            ret (inr {| se_error_type := error_type err;
                        se_error_message :=
                          "Transcription failed: " +:+ error_message err;
                        se_file_path := Some (audio_file_path request);
                        se_stage := "transcription" |})
        | inl transcription_result =>
            (* Cache successful transcription *)
            let transcription_dict :=
              {| td_transcript := rs_transcript transcription_result;
                 td_file_path := rs_file_path transcription_result;
                 td_language_detected := rs_language_detected transcription_result;
                 td_duration := rs_duration transcription_result;
                 td_response_format := rs_response_format transcription_result |} in
            let* _ := _cache_transcription (audio_file_path request) params
                                           transcription_dict in
            ret (inl (inr transcription_result))
        end
    end in
  match transcription_result with
  | inr err => ret (inr err)
  | inl transcription_result =>
      (* Extract transcript text *)
      let transcript_text :=
        match transcription_result with
        | inl d => td_transcript d
        | inr r => rs_transcript r
        end in
      (* Step 2: Ultra-fast moderation ([None] is falsy like the empty
         string and takes the same branch) *)
      let* moderation_result := _fast_moderate_text (default "" transcript_text) in
      (* Extract moderation information *)
      let is_flagged := v_flagged moderation_result in
      let moderation_reason :=
        default "No issues detected" (v_reason moderation_result) in
      (* Create successful response *)
      match transcription_result with
      | inl d =>
          ret (inl {| mr_success := true;
                      mr_transcript := td_transcript d;
                      mr_file_path := td_file_path d;
                      mr_language_detected := td_language_detected d;
                      mr_duration := td_duration d;
                      mr_response_format := td_response_format d;
                      moderation_flagged := is_flagged;
                      moderation_reason := moderation_reason;
                      is_safe := negb is_flagged |})
      | inr r =>
          ret (inl {| mr_success := true;
                      mr_transcript := rs_transcript r;
                      mr_file_path := rs_file_path r;
                      mr_language_detected := rs_language_detected r;
                      mr_duration := rs_duration r;
                      mr_response_format := rs_response_format r;
                      moderation_flagged := is_flagged;
                      moderation_reason := moderation_reason;
                      is_safe := negb is_flagged |})
      end
  end.

End WithEnv.

End TranscriptionWithModeration.

(** ** A concrete environment for worked examples

    The pattern engine is [Regex.search]; the number formats follow
    Python's fixed-point formatting (round half to even); the digest is a
    stand-in (the identity), and the tables of [pattern_utils] are empty. *)

Module Demo.

Definition round_half_even (q : Q) : Z :=
  let f := Qfloor q in
  let r := (q - inject_Z f)%Q in
  if Qltb r (1 # 2) then f
  else if Qgtb r (1 # 2) then (f + 1)%Z
  else if Z.even f then f else (f + 1)%Z.

Fixpoint zero_pad (width : nat) (digits : string) : string :=
  match width with
  | O => digits
  | S width' =>
      if (String.length digits <? width)%nat
      then zero_pad width' ("0" +:+ digits) else digits
  end.

(** [f"{q:.{places}f}"] *)
Definition fixed_point (places : nat) (q : Q) : string :=
  let scale := (10 ^ Z.of_nat places)%Z in
  let n := round_half_even (Qabs q * inject_Z scale)%Q in
  (if Qltb q 0 then "-" else "")
  +:+ pretty (n / scale)%Z
  +:+ (if (0 <? places)%nat then "." +:+ zero_pad places (pretty (n mod scale)%Z) else "").

(** [f"{q:.2%}"] *)
Definition percent (q : Q) : string := fixed_point 2 (q * 100)%Q +:+ "%".

Definition env
           (moderation : nat -> string -> outcome moderation_result)
           (transcription :
              nat -> string -> transcription_params -> outcome whisper_response * Q)
  : Env :=
  {| re_search := Regex.search;
     format_percent := percent;
     format_fixed1 := fixed_point 1;
     str_float := fixed_point 1;
     md5_hexdigest := fun s => s;
     BODY_SHAMING_PATTERNS := [];
     EMOTIONAL_ABUSE_PATTERNS := [];
     RACISM_HATE_SPEECH_PATTERNS := [];
     TRANSACTIONAL_DATING_PATTERNS := [];
     SEXISM_MISOGYNY_TRANSPHOBIA_PATTERNS := [];
     moderations_create := moderation;
     WHISPER_MODEL_NAME := "whisper-1";
     preprocess_audio := fun file_path => (file_path, 5%Q);
     transcriptions_create := transcription |}.

(** A fresh process at time 1000 with one five-second clip on disk. *)
Definition world : World :=
  {| now := 1000;
     files := {[ "/tmp/clip.wav" := {| st_size := 80000; st_mtime := 900 |} ]};
     moderation_calls := 0;
     stt_calls := 0;
     trace := [];
     ft_transcription_cache := ∅;
     ft_cache_timestamps := ∅;
     twm_transcription_cache := ∅;
     twm_moderation_cache := ∅;
     twm_cache_timestamps := ∅ |}.

Definition request : TranscriptionRequest :=
  {| audio_file_path := "/tmp/clip.wav";
     language := None;
     prompt := None;
     response_format := "text";
     temperature := PyInt 0 |}.

Definition heard (text : string) : whisper_response :=
  {| wr_text := Some text;
     wr_language := Some "english";
     wr_segments := Some [ {| avg_logprob := Some (-(1 # 4))%Q |} ];
     wr_str := text |}.

(** A provider that is down. *)
Definition moderation_down : nat -> string -> outcome moderation_result :=
  fun _ _ => Raised OtherException "Connection error.".

(** A provider that finds nothing. *)
Definition moderation_clean : nat -> string -> outcome moderation_result :=
  fun _ _ => Returned {| mr_flagged := false; mr_categories := ∅;
                         mr_category_scores := ∅ |}.

(** A provider that scores harassment at 7.34%, below its own cut-off. *)
Definition moderation_harassment : nat -> string -> outcome moderation_result :=
  fun _ _ => Returned {| mr_flagged := false;
                         mr_categories := {[ "harassment" := false ]};
                         mr_category_scores := {[ "harassment" := (734 # 10000)%Q ]} |}.

(** Speech-to-text that answers at once, every time. *)
Definition stt_ok (text : string)
  : nat -> string -> transcription_params -> outcome whisper_response * Q :=
  fun _ _ _ => (Returned (heard text), 1%Q).

(** Speech-to-text that follows a script of outcomes, one per attempt,
    and answers once the script is over. *)
Definition stt_script (script : list exn_class) (text : string)
  : nat -> string -> transcription_params -> outcome whisper_response * Q :=
  fun n _ _ =>
    match script !! n with
    | Some c => (Raised c "provider error", 1%Q)
    | None => (Returned (heard text), 1%Q)
    end.

End Demo.

(** ** The specification's wording, for comparison with the code *)

Module Spec.

(** The seven rule groups of section 4.1, in source order: flag name,
    human-readable description, pattern table. *)
Definition rule_groups (E : Env) : list (string * string * list string) :=
  [ ("explicit_content", "Explicit sexual/inappropriate language detected",
      Moderation.INAPPROPRIATE_PATTERNS);
    ("suggestive_context", "Suggestive/sexual context detected",
      Moderation.suggestive_indicators);
    ("body_shaming", "Body shaming/appearance-based harassment detected",
      BODY_SHAMING_PATTERNS E);
    ("emotional_abuse", "Emotional abuse/manipulation detected",
      EMOTIONAL_ABUSE_PATTERNS E);
    ("racism_hate_speech", "Racism/hate speech detected",
      RACISM_HATE_SPEECH_PATTERNS E);
    ("transactional_dating", "Transactional/sugar-dating language detected",
      TRANSACTIONAL_DATING_PATTERNS E);
    ("sexism_misogyny_transphobia", "Sexism/misogyny/transphobia detected",
      SEXISM_MISOGYNY_TRANSPHOBIA_PATTERNS E) ].

(** Each group judged on its own: (flag name, description, matched). *)
Definition group_results (E : Env) (text : string) : list (string * string * bool) :=
  map (fun '(name, description, table) =>
         (name, description, Moderation.any_match E table (PyStr.lower text)))
      (rule_groups E).

(** [match(text) -> (flagged, categoryFlags, reason)] of section 4.1:
    the OR of the group results, every group's flag, and the joined
    descriptions of the groups that matched. *)
Definition pattern_match (E : Env) (text : string) : bool * gmap string bool * string :=
  let results := group_results E text in
  let descriptions :=
    map (fun r => r.1.2) (filter (fun r => r.2 = true) results) in
  (existsb (fun r => r.2) results,
   list_to_map (map (fun r => (r.1.1, r.2)) results),
   match descriptions with
   | [] => "No custom pattern violations detected"
   | _ :: _ => PyStr.join "; " descriptions
   end).



(** The custom threshold table of section 4.2. *)
Definition threshold_table : list (string * Q) :=
  [ ("sexual", 0.05); ("harassment", 0.05); ("hate", 0.05);
    ("violence", 0.1); ("sexual_minors", 0.01) ]%Q.

(** The arguments [transcribe_audio] passes to the provider: the
    preprocessed file and the prepared parameters. *)
Definition provider_arguments (E : Env) (request : TranscriptionRequest)
  : string * transcription_params :=
  let use_verbose :=
    bool_decide (response_format request ∈ ["json"; "verbose_json"])
    || String.eqb (response_format request) "text" in
  let actual_format :=
    if use_verbose then "verbose_json" else response_format request in
  ((preprocess_audio E (audio_file_path request)).1,
   Transcription.prepare_params E request actual_format).

(** The failure classes section 4.5 retries: rate limit and timeout. *)
Definition retried {A} (o : outcome A) : bool :=
  match o with
  | Raised RateLimitError _ | Raised APITimeoutError _ => true
  | _ => false
  end.

(** The pause after failed attempt number [attempt] (counted from 0):
    2 s then 4 s after a rate limit, none otherwise. *)
Definition backoff {A} (o : outcome A) (attempt : nat) : list event :=
  match o with
  | Raised RateLimitError _ => [EvSleep (inject_Z (2 * (Z.of_nat attempt + 1)))]
  | _ => []
  end.

(** "Linearly increasing backoff between attempts", as section 4.5 words
    it for both retried classes: in a log of outside events, no provider
    attempt directly follows another. *)
Fixpoint backoff_between_attempts (events : list event) : bool :=
  match events with
  | EvTranscription _ :: (EvTranscription _ :: _) => false
  | _ :: rest => backoff_between_attempts rest
  | [] => true
  end.

(** [clamp(x, lo, hi)] and the mean of section 4.5. *)
Definition clamp (x lo hi : Q) : Q :=
  if Qlt_le_dec x lo then lo else if Qlt_le_dec hi x then hi else x.

Definition mean (xs : list Q) : Q :=
  (fold_right Qplus 0 xs / inject_Z (Z.of_nat (length xs)))%Q.

(** The segment-level log-probabilities a response carries. *)
Definition logprobs (r : whisper_response) : list Q :=
  omap avg_logprob (default [] (wr_segments r)).

End Spec.

(** ** Auxiliary notions for the proofs *)

(** Two worlds with the same files, caches and classifier count. *)
Definition same_store (w w' : World) : Prop :=
  files w' = files w
  /\ moderation_calls w' = moderation_calls w
  /\ ft_transcription_cache w' = ft_transcription_cache w
  /\ ft_cache_timestamps w' = ft_cache_timestamps w
  /\ twm_transcription_cache w' = twm_transcription_cache w
  /\ twm_moderation_cache w' = twm_moderation_cache w
  /\ twm_cache_timestamps w' = twm_cache_timestamps w.


(** The response built from a cached dictionary. *)
Definition response_of_dict (d : transcription_dict) : TranscriptionResponse :=
  {| rs_success := true;
     rs_transcript := td_transcript d;
     rs_file_path := td_file_path d;
     rs_language_detected := td_language_detected d;
     rs_duration := td_duration d;
     rs_response_format := td_response_format d |}.


(** What the demo provider makes of the demo clip. *)
Definition demo_response : TranscriptionResponse :=
  {| rs_success := true;
     rs_transcript := Some "hi";
     rs_file_path := "/tmp/clip.wav";
     rs_language_detected := Some "english";
     rs_duration := Some 5%Q;
     rs_response_format := "text" |}.


(** Rewrite with the recorded provider answers. *)
Ltac use_calls :=
  repeat match goal with
    | H : transcriptions_create _ _ _ _ = _ |- _ => rewrite H
    end.

(** Close a run of [n] provider attempts. *)
Ltac finish_run n :=
  exists n;
  cbn [seq flat_map Nat.sub Nat.add app];
  use_calls;
  cbn [fst Spec.backoff Spec.retried];
  split; [lia|];
  split; [reflexivity|];
  split; [cbn [trace elapse log_event]; rewrite <- ?app_assoc; reflexivity|];
  split; [repeat (constructor; [cbn [Nat.add]; use_calls; reflexivity|]);
          constructor|];
  first [ eexists; reflexivity
        | split; [reflexivity | first [reflexivity | intros; lia]] ].

(** Case analysis on the next provider attempt. *)
Ltac attempt E p params :=
  cbn [stt_calls elapse log_event Nat.ltb Nat.leb];
  match goal with
  | |- context [transcriptions_create E ?i p params] =>
      let H := fresh "Hcall" in
      destruct (transcriptions_create E i p params) as [[?|[] ?] ?] eqn:H
  end.


(** ** moderation_utils.py *)

Module ModerationUtils.

(** Configuration for different moderation levels *)
Definition MODERATION_LEVELS : gmap string (gmap string Q) :=
  {[ "strict" :=
       {[ "sexual" := 0.05%Q; "harassment" := 0.03%Q;
          "hate" := 0.03%Q; "violence" := 0.05%Q ]};
     "moderate" :=
       {[ "sexual" := 0.1%Q; "harassment" := 0.05%Q;
          "hate" := 0.05%Q; "violence" := 0.1%Q ]};
     "lenient" :=
       {[ "sexual" := 0.2%Q; "harassment" := 0.1%Q;
          "hate" := 0.1%Q; "violence" := 0.15%Q ]} ]}.

(** Default moderation level *)
Definition DEFAULT_MODERATION_LEVEL : string := "moderate".

(** Get moderation thresholds for specified level ([None] is the default
    argument). *)
Definition get_thresholds (level : option string) : gmap string Q :=
  let level := default DEFAULT_MODERATION_LEVEL level in
  default (MODERATION_LEVELS !!! DEFAULT_MODERATION_LEVEL) (MODERATION_LEVELS !! level).

End ModerationUtils.

(** ** fast_transcription_schema.py *)

Module FastTranscriptionSchema.

(** [@validator('audio_file_path')] *)
Definition validate_audio_file_path (v : string) : outcome string :=
  if negb (PyStr.truthy v) || negb (PyStr.truthy (PyStr.strip v))
  then Raised ValueError "Audio file path cannot be empty"
  else Returned (PyStr.strip v).


(** [@validator('prompt')] *)
Definition validate_prompt (v : option string) : outcome (option string) :=
  match v with
  | None => Returned None
  | Some v =>
      let v := PyStr.strip v in
      if (224 <? String.length v)%nat
      then Raised ValueError "Prompt must be less than 224 characters"
      else Returned (Some v)
  end.

(** [TranscriptionRequest(audio_file_path=...)]: the given field is
    validated, the others take their defaults.  (pydantic reports the
    validator's [ValueError] as its [ValidationError], a subclass of
    [ValueError]; the message kept here is the validator's.) *)
Definition request_for_path (path : string) : outcome TranscriptionRequest :=
  match validate_audio_file_path path with
  | Raised c msg => Raised c msg
  | Returned path =>
      Returned {| audio_file_path := path;
                  language := None;
                  prompt := None;
                  response_format := "text";
                  temperature := PyInt 0 |}
  end.

End FastTranscriptionSchema.

(** ** fast_transcription.py, the convenience functions *)

(** The dictionary returned by [transcribe_simple]. *)
Record simple_result : Type := {
  sr_transcript : option string;
  sr_language_detected : option string;
  sr_duration : option Q;
  sr_file_path : string;
}.

(** The dictionary returned by [get_cache_stats] of [fast_transcription]. *)
Record ft_cache_stats : Type := {
  fs_transcription_cache_size : nat;
  fs_total_cache_entries : nat;
  fs_cache_enabled : bool;
}.

Module FastTranscriptionApi.

(** Ultra-fast convenience function for transcribing audio files. *)
Definition transcribe_audio (E : Env) (request : TranscriptionRequest)
  : M (TranscriptionResponse + StageError) :=
  FastTranscription.transcribe E request.

(** Ultra-fast simple transcription function; [Raised] is the exception
    that leaves the function. *)
Definition transcribe_simple (E : Env) (audio_file_path : string)
  : M (outcome simple_result) :=
  match FastTranscriptionSchema.request_for_path audio_file_path with
  | Raised c msg => ret (Raised c msg)
  | Returned request =>
      let* result := FastTranscription.transcribe E request in
      match result with
      | inr err =>
          ret (Raised OtherException
                      (se_error_type err +:+ ": " +:+ se_error_message err))
      | inl result =>
          ret (Returned {| sr_transcript := rs_transcript result;
                           sr_language_detected := rs_language_detected result;
                           sr_duration := rs_duration result;
                           sr_file_path := rs_file_path result |})
      end
  end.

(** Clear all caches *)
Definition clear_cache : M unit :=
  fun w => (tt, set_ft ∅ ∅ w).

(** Get cache statistics *)
Definition get_cache_stats : M ft_cache_stats :=
  fun w =>
    ({| fs_transcription_cache_size := size (ft_transcription_cache w);
        fs_total_cache_entries := size (ft_cache_timestamps w);
        fs_cache_enabled := FastTranscription.ENABLE_CACHING |}, w).

End FastTranscriptionApi.

(** ** transcription_with_moderation.py, the cache utilities *)

(** The dictionary returned by [get_cache_stats] of
    [transcription_with_moderation]. *)
Record twm_cache_stats : Type := {
  ts_transcription_cache_size : nat;
  ts_moderation_cache_size : nat;
  ts_total_cache_entries : nat;
  ts_cache_enabled : bool;
  ts_fast_moderation_enabled : bool;
}.

Module TranscriptionWithModerationApi.

(** Ultra-fast convenience function for transcribing and moderating audio
    files. *)
Definition transcribe_and_moderate_audio (E : Env) (request : TranscriptionRequest)
  : M (TranscriptionWithModerationResponse + StageError) :=
  TranscriptionWithModeration.transcribe_and_moderate E request.

(** Clear all caches *)
Definition clear_cache : M unit :=
  fun w => (tt, set_twm ∅ ∅ ∅ w).

(** Get cache statistics *)
Definition get_cache_stats : M twm_cache_stats :=
  fun w =>
    ({| ts_transcription_cache_size := size (twm_transcription_cache w);
        ts_moderation_cache_size := size (twm_moderation_cache w);
        ts_total_cache_entries := size (twm_cache_timestamps w);
        ts_cache_enabled := TranscriptionWithModeration.ENABLE_CACHING;
        ts_fast_moderation_enabled :=
          TranscriptionWithModeration.ENABLE_FAST_MODERATION |}, w).

End TranscriptionWithModerationApi.

(** ** Notions used to state further properties *)

(** Seconds slept in a log of outside events. *)
Fixpoint slept (events : list event) : Q :=
  match events with
  | [] => 0
  | EvSleep seconds :: rest => seconds + slept rest
  | _ :: rest => slept rest
  end.

(** A timestamp the clean-up passes treat as expired: strictly older than
    the TTL. *)
Definition expired (clock timestamp : Q) : bool := Qgtb (clock - timestamp) 3600.

(** The caches of [fast_transcription] hold a value exactly for the keys
    that have a timestamp. *)
Definition ft_caches_aligned (w : World) : Prop :=
  forall key, is_Some (ft_transcription_cache w !! key)
              <-> is_Some (ft_cache_timestamps w !! key).

(** The caches of [transcription_with_moderation] are well formed: every
    cached transcription sits under a ["transcription:"] key, every cached
    verdict under a ["moderation:"] key, both have a timestamp, and every
    timestamp belongs to a cached value. *)
Definition twm_caches_wf (w : World) : Prop :=
  (forall key, is_Some (twm_transcription_cache w !! key) ->
               String.prefix "transcription:" key = true
               /\ is_Some (twm_cache_timestamps w !! key))
  /\ (forall key, is_Some (twm_moderation_cache w !! key) ->
                  String.prefix "moderation:" key = true
                  /\ is_Some (twm_cache_timestamps w !! key))
  /\ (forall key, is_Some (twm_cache_timestamps w !! key) ->
                  is_Some (twm_transcription_cache w !! key)
                  \/ is_Some (twm_moderation_cache w !! key)).

(** The keys [_cleanup_old_cache_entries] of [fast_transcription] purges. *)
Definition ft_purged (w : World) (key : string) : bool :=
  match ft_cache_timestamps w !! key with
  | Some timestamp => expired (now w) timestamp && String.prefix "transcription:" key
  | None => false
  end.

(** The keys [_cleanup_old_cache_entries] of
    [transcription_with_moderation] drops from the timestamps. *)
Definition twm_purged (w : World) (key : string) : bool :=
  match twm_cache_timestamps w !! key with
  | Some timestamp => expired (now w) timestamp
  | None => false
  end.

(** The dictionary [transcribe] and [transcribe_and_moderate] cache for a
    fresh response. *)
Definition dict_of_response (r : TranscriptionResponse) : transcription_dict :=
  {| td_transcript := rs_transcript r;
     td_file_path := rs_file_path r;
     td_language_detected := rs_language_detected r;
     td_duration := rs_duration r;
     td_response_format := rs_response_format r |}.

(** The [request_params] dictionary built from a request. *)
Definition params_of (request : TranscriptionRequest) : request_params :=
  {| rp_language := language request;
     rp_response_format := response_format request;
     rp_temperature := temperature request;
     rp_prompt := prompt request |}.

(** Close the goal of a run whose log is known. *)
Ltac logged_run :=
  eexists; split;
  [ cbn [snd trace elapse log_event]; rewrite <- ?app_assoc; reflexivity
  | split;
    [ cbn [slept app]; apply Qle_bool_iff; reflexivity
    | repeat (apply Forall_cons_2;
              [first [reflexivity | left; reflexivity | right; reflexivity]|]);
      apply Forall_nil_2 ] ].

(** Close the goal of a run whose [k]-th attempt returned. *)
Ltac found k :=
  intros [= <- <-]; exists k; eexists;
  cbn [Nat.add stt_calls elapse log_event];
  use_calls; repeat split; lia.

(** The response [transcribe_and_moderate] builds from a transcription and
    a verdict. *)
Definition moderated_response (d : transcription_dict) (v : verdict)
  : TranscriptionWithModerationResponse :=
  {| mr_success := true;
     mr_transcript := td_transcript d;
     mr_file_path := td_file_path d;
     mr_language_detected := td_language_detected d;
     mr_duration := td_duration d;
     mr_response_format := td_response_format d;
     moderation_flagged := v_flagged v;
     moderation_reason := default "No issues detected" (v_reason v);
     is_safe := negb (v_flagged v) |}.

(** The verdict of [_fast_moderate_text] on a blank text. *)
Definition empty_text_verdict (text : string) : verdict :=
  {| v_text := text;
     v_flagged := false;
     v_detection_method := None;
     v_openai_flagged := None;
     v_custom_flagged := Some false;
     v_custom_flags := ∅;
     v_reason := Some "Empty text";
     v_api_call_made := None;
     v_categories := None;
     v_category_scores := None |}.

(** The error both fast services build from a failed transcription. *)
Definition transcription_stage_error (request : TranscriptionRequest)
           (err : TranscriptionError) : StageError :=
  {| se_error_type := error_type err;
     se_error_message := "Transcription failed: " +:+ error_message err;
     se_file_path := Some (audio_file_path request);
     se_stage := "transcription" |}.

(** A classifier that is down for its first call and flags every text
    afterwards. *)
Definition moderation_recovers : nat -> string -> outcome moderation_result :=
  fun n _ =>
    match n with
    | O => Raised OtherException "Connection error."
    | S _ => Returned {| mr_flagged := true;
                         mr_categories := {[ "harassment" := true ]};
                         mr_category_scores := {[ "harassment" := (9 # 10)%Q ]} |}
    end.

(** * Properties *)

(** ** Pattern engine, worked examples *)

Example regex_ex1 : Regex.search "\b(fuck|fucking|fucked)\b" "you fucking idiot" = true.
Proof. reflexivity. Qed.
Example regex_ex2 : Regex.search "\b(horny|wet|hard|erect)\b" "a hardware store" = false.
Proof. reflexivity. Qed.
Example regex_ex3 : Regex.search "\bwithout\s+(them|clothes|clothing)\b" "better  without   clothes" = true.
Proof. reflexivity. Qed.
Example regex_ex4 : Regex.search "\bmake.*\b(love|out|you moan)\b" "make me a sandwich, get out" = true.
Proof. reflexivity. Qed.
Example regex_ex5 : Regex.search "\bcan\'t\s+imagine\s+how\s+(good|sexy|hot)\s+you\b" "I can't imagine how good you are" = true.
Proof. reflexivity. Qed.
Example regex_ex6 : Regex.search "\b(69)\b" "room 690" = false.
Proof. reflexivity. Qed.

(** ** Comparisons on the modelled floats *)

Lemma Qgtb_true (x y : Q) : Qgtb x y = true <-> (y < x)%Q.
Proof.
  unfold Qgtb. rewrite negb_true_iff, <- not_true_iff_false, Qle_bool_iff.
  split; [apply Qnot_le_lt | apply Qlt_not_le].
Qed.

Lemma Qgtb_false (x y : Q) : Qgtb x y = false <-> (x <= y)%Q.
Proof. unfold Qgtb. rewrite negb_false_iff. apply Qle_bool_iff. Qed.

Lemma Qltb_true (x y : Q) : Qltb x y = true <-> (x < y)%Q.
Proof. unfold Qltb. apply (Qgtb_true y x). Qed.

Lemma Qltb_false (x y : Q) : Qltb x y = false <-> (y <= x)%Q.
Proof. unfold Qltb. apply (Qgtb_false y x). Qed.

(** ** Strings *)

Lemma append_assoc (a b c : string) : (a +:+ b) +:+ c = a +:+ (b +:+ c).
Proof.
  induction a as [|x a IH]; [reflexivity|].
  change (String x ((a +:+ b) +:+ c) = String x (a +:+ (b +:+ c))).
  now rewrite IH.
Qed.

Lemma append_empty_r (a : string) : a +:+ "" = a.
Proof.
  induction a as [|x a IH]; [reflexivity|].
  change (String x (a +:+ "") = String x a). now rewrite IH.
Qed.

Lemma contains_refl (s : string) : PyStr.contains s s.
Proof. exists "", "". simpl. now rewrite append_empty_r. Qed.

Lemma contains_app_l (a b x : string) : PyStr.contains a x -> PyStr.contains (a +:+ b) x.
Proof.
  intros (pre & post & ->). exists pre, (post +:+ b).
  now rewrite !append_assoc.
Qed.

Lemma contains_app_r (a b x : string) : PyStr.contains b x -> PyStr.contains (a +:+ b) x.
Proof.
  intros (pre & post & ->). exists (a +:+ pre), post.
  now rewrite !append_assoc.
Qed.

Lemma contains_trans (a b c : string) :
  PyStr.contains a b -> PyStr.contains b c -> PyStr.contains a c.
Proof.
  intros (p1 & q1 & ->) (p2 & q2 & ->). exists (p1 +:+ p2), (q2 +:+ q1).
  now rewrite !append_assoc.
Qed.

(** Every joined item occurs in the joined string. *)
Lemma join_contains (sep x : string) (items : list string) :
  x ∈ items -> PyStr.contains (PyStr.join sep items) x.
Proof.
  induction items as [|y [|z rest] IH]; intros Hin.
  - inversion Hin.
  - apply list_elem_of_singleton in Hin as ->. apply contains_refl.
  - change (PyStr.join sep (y :: z :: rest))
      with (y +:+ sep +:+ PyStr.join sep (z :: rest)).
    apply elem_of_cons in Hin as [-> | Hin].
    + apply contains_app_l, contains_refl.
    + apply contains_app_r, contains_app_r, IH, Hin.
Qed.

(** [strip] leaves the empty string exactly on whitespace-only input. *)
Lemma lstrip_nil_iff (s : list ascii) :
  PyStr.lstrip s = [] <-> forallb PyStr.isspace s = true.
Proof.
  induction s as [|c s IH]; simpl; [tauto|].
  destruct (PyStr.isspace c); simpl; [exact IH | split; discriminate].
Qed.

Lemma lstrip_head (s : list ascii) c rest :
  PyStr.lstrip s = c :: rest -> PyStr.isspace c = false.
Proof.
  induction s as [|x s IH]; simpl; [discriminate|].
  destruct (PyStr.isspace x) eqn:Hx; [exact IH | now intros [= <- _]].
Qed.

Lemma whitespace_only_forallb (s : string) :
  PyStr.whitespace_only s = forallb PyStr.isspace (list_ascii_of_string s).
Proof. induction s as [|c s IH]; simpl; [reflexivity | now rewrite IH]. Qed.

Lemma string_of_list_ascii_nil (l : list ascii) :
  string_of_list_ascii l = "" <-> l = [].
Proof. destruct l; simpl; split; congruence. Qed.

Lemma strip_empty_iff (s : string) :
  PyStr.strip s = "" <-> PyStr.whitespace_only s = true.
Proof.
  unfold PyStr.strip, PyStr.rstrip.
  rewrite string_of_list_ascii_nil, whitespace_only_forallb, <- lstrip_nil_iff.
  split.
  - intros H. apply (f_equal (@rev ascii)) in H. rewrite rev_involutive in H.
    simpl in H. apply lstrip_nil_iff in H.
    destruct (PyStr.lstrip (list_ascii_of_string s)) as [|c rest] eqn:Hl; [reflexivity|].
    apply lstrip_head in Hl. simpl in H. rewrite forallb_app in H. simpl in H.
    rewrite Hl, andb_false_r in H. discriminate.
  - intros ->. reflexivity.
Qed.

(** The guard [not text or not text.strip()] of [_fast_moderate_text]. *)
Lemma blank_guard_iff (text : string) :
  negb (PyStr.truthy text) || negb (PyStr.truthy (PyStr.strip text)) = true
  <-> PyStr.whitespace_only text = true.
Proof.
  rewrite <- strip_empty_iff.
  destruct text as [|c text]; [simpl; split; reflexivity|].
  cbn [PyStr.truthy negb orb].
  destruct (PyStr.strip (String c text)); simpl; split; congruence.
Qed.

Example format_percent_ex : Demo.percent (734 # 10000) = "7.34%".
Proof. reflexivity. Qed.

Example format_percent_ex2 : Demo.percent (1 # 2) = "50.00%".
Proof. reflexivity. Qed.

Example format_fixed_ex : Demo.fixed_point 1 900 = "900.0".
Proof. reflexivity. Qed.

(** ** Pattern matcher *)

Lemma record_group_eq (key description : string) (matches : bool)
      (custom_flags : gmap string bool) (reasons : list string) :
  Moderation.record_group key description matches (custom_flags, reasons)
  = (<[key := matches]> custom_flags,
     (reasons ++ (if matches then [description] else []))%list).
Proof.
  unfold Moderation.record_group. destruct matches; [reflexivity|].
  now rewrite app_nil_r.
Qed.

Lemma matched_descriptions (results : list (string * string * bool)) :
  map (fun r : string * string * bool => r.1.2) (filter (fun r => r.2 = true) results)
  = concat (map (fun r : string * string * bool => if r.2 then [r.1.2] else []) results).
Proof.
  induction results as [|[[name description] b] rest IH]; [reflexivity|].
  rewrite filter_cons. cbn [map concat snd fst].
  case_decide as Hb; cbn in Hb; subst; [|destruct b; [congruence|]].
  - cbn [map fst snd]. now rewrite IH.
  - exact IH.
Qed.

(** The unrolled blocks of [check_custom_patterns_only] compute the
    matcher of section 4.1. *)
Lemma check_custom_patterns_only_unfold (E : Env) (text : string) :
  Moderation.check_custom_patterns_only E text = Spec.pattern_match E text.
Proof.
  unfold Moderation.check_custom_patterns_only, Spec.pattern_match.
  rewrite matched_descriptions.
  unfold Spec.group_results, Spec.rule_groups.
  cbn [map concat fst snd list_to_map foldr uncurry].
  generalize (Moderation.any_match E Moderation.INAPPROPRIATE_PATTERNS (PyStr.lower text)).
  generalize (Moderation.any_match E Moderation.suggestive_indicators (PyStr.lower text)).
  generalize (Moderation.any_match E (BODY_SHAMING_PATTERNS E) (PyStr.lower text)).
  generalize (Moderation.any_match E (EMOTIONAL_ABUSE_PATTERNS E) (PyStr.lower text)).
  generalize (Moderation.any_match E (RACISM_HATE_SPEECH_PATTERNS E) (PyStr.lower text)).
  generalize (Moderation.any_match E (TRANSACTIONAL_DATING_PATTERNS E) (PyStr.lower text)).
  generalize (Moderation.any_match E (SEXISM_MISOGYNY_TRANSPHOBIA_PATTERNS E) (PyStr.lower text)).
  intros g7 g6 g5 g4 g3 g2 g1.
  rewrite !record_group_eq.
  rewrite <- !app_assoc, app_nil_r, app_nil_l.
  reflexivity.
Qed.

(** "At least one rule group matches" is the matcher's [flagged] bit. *)
Lemma some_group_matches_iff (E : Env) (text : string) :
  existsb (fun r => r.2) (Spec.group_results E text) = true
  <-> (Moderation.check_custom_patterns_only E text).1.1 = true.
Proof. now rewrite check_custom_patterns_only_unfold. Qed.

Lemma no_group_matches_iff (E : Env) (text : string) :
  existsb (fun r => r.2) (Spec.group_results E text) = false
  <-> (Moderation.check_custom_patterns_only E text).1.1 = false.
Proof. now rewrite check_custom_patterns_only_unfold. Qed.

(** C4. For every text, [check_custom_patterns_only] returns what section
    4.1 describes: all seven groups are judged (each flag is present and is
    that group's own result, whatever the other groups found), [flagged] is
    the OR of the seven results, and [reason] is the "; "-join of the
    descriptions of the matched groups, or the fixed message when none
    matched.  The function takes the text alone and touches no state. *)
Theorem check_custom_patterns_only_spec (E : Env) (text : string) :
  let results := Spec.group_results E text in
  let '(flagged, custom_flags, reason) := Moderation.check_custom_patterns_only E text in
  length results = 7%nat
  /\ flagged = existsb (fun r => r.2) results
  /\ Forall (fun r => custom_flags !! r.1.1 = Some r.2) results
  /\ custom_flags = list_to_map (map (fun r => (r.1.1, r.2)) results)
  /\ reason =
       match map (fun r => r.1.2) (filter (fun r => r.2 = true) results) with
       | [] => "No custom pattern violations detected"
       | descriptions => PyStr.join "; " descriptions
       end.
Proof.
  intros results. rewrite check_custom_patterns_only_unfold.
  unfold Spec.pattern_match. fold results.
  split; [reflexivity|]. split; [reflexivity|]. split; [|split; [reflexivity|]].
  - apply Forall_forall. intros [[name description] matched] Hin.
    apply elem_of_list_to_map.
    + subst results. unfold Spec.group_results, Spec.rule_groups.
      cbn [map fmap list_fmap fst snd].
      repeat (apply NoDup_cons;
              split; [rewrite ?elem_of_cons, ?elem_of_nil; intuition discriminate|]).
      apply NoDup_nil_2.
    + apply list_elem_of_fmap. exists (name, description, matched). split; [reflexivity|exact Hin].
  - destruct (map _ _); reflexivity.
Qed.

(** ** Content classifier adapter and decision engine *)

(** The early return of [moderate_text]: a text flagged by the patterns
    leaves the world untouched. *)
Lemma moderate_text_pattern_path (E : Env) (text : string) (w : World) :
  (Moderation.check_custom_patterns_only E text).1.1 = true ->
  Moderation.moderate_text E text w
  = ({| v_text := text; v_flagged := true;
        v_detection_method := None; v_openai_flagged := None;
        v_custom_flagged := None;
        v_custom_flags := (Moderation.check_custom_patterns_only E text).1.2;
        v_reason := None; v_api_call_made := None;
        v_categories := None; v_category_scores := None |}, w).
Proof.
  unfold Moderation.moderate_text.
  destruct (Moderation.check_custom_patterns_only E text) as [[flagged flags] reason].
  simpl. intros ->. reflexivity.
Qed.

(** The second stage of [moderate_text], reached when no pattern matched. *)
Lemma moderate_text_classifier_path (E : Env) (text : string) (w : World) :
  (Moderation.check_custom_patterns_only E text).1.1 = false ->
  Moderation.moderate_text E text w
  = (let '(openai_flagged, data, openai_reason) :=
       (Moderation.openai_context_analysis E text w).1 in
     {| v_text := text; v_flagged := openai_flagged;
        v_detection_method :=
          Some (if openai_flagged then "openai_context_analysis" else "clean");
        v_openai_flagged :=
          Some (match data with
                | Some d => Moderation.od_openai_flagged d
                | None => false
                end);
        v_custom_flagged := Some false;
        v_custom_flags := (Moderation.check_custom_patterns_only E text).1.2;
        v_reason :=
          Some (if openai_flagged then openai_reason
                else "Content appears safe after full analysis");
        v_api_call_made := Some true;
        v_categories :=
          Some (match data with
                | Some d => Moderation.od_categories d
                | None => ∅
                end);
        v_category_scores :=
          Some (match data with
                | Some d => Moderation.od_category_scores d
                | None => ∅
                end) |},
     log_event (EvModeration text) w).
Proof.
  unfold Moderation.moderate_text.
  destruct (Moderation.check_custom_patterns_only E text) as [[flagged flags] reason].
  simpl. intros ->. unfold bind, ret, Moderation.openai_context_analysis.
  destruct (moderations_create E (moderation_calls w) text); reflexivity.
Qed.

Lemma threshold_table_sub (category : string) (threshold : Q) :
  (category, threshold) ∈ Spec.threshold_table ->
  (category, threshold) ∈ Moderation.CUSTOM_THRESHOLDS.
Proof.
  unfold Spec.threshold_table, Moderation.CUSTOM_THRESHOLDS.
  rewrite !elem_of_cons, !elem_of_nil. tauto.
Qed.

(** A category over its cut-off is listed among the violations, rendered
    as ["<category> (<percentage>)"]. *)
Lemma violation_listed (E : Env) (scores : gmap string Q)
      (category : string) (threshold : Q) :
  (category, threshold) ∈ Moderation.CUSTOM_THRESHOLDS ->
  (threshold < default 0 (scores !! category))%Q ->
  category +:+ " (" +:+ format_percent E (default 0%Q (scores !! category)) +:+ ")"
    ∈ Moderation.flagged_categories_of E scores.
Proof.
  intros Hin Hgt. unfold Moderation.flagged_categories_of.
  apply list_elem_of_omap. exists (category, threshold). split; [exact Hin|].
  cbn beta iota. apply Qgtb_true in Hgt. now rewrite Hgt.
Qed.

Lemma rendering_contains (category pct : string) :
  PyStr.contains (category +:+ " (" +:+ pct +:+ ")") category
  /\ PyStr.contains (category +:+ " (" +:+ pct +:+ ")") pct.
Proof.
  split.
  - apply contains_app_l, contains_refl.
  - apply contains_app_r, contains_app_r, contains_app_l, contains_refl.
Qed.

(** C3. For every text with zero pattern matches on which the classifier
    answers: the verdict's [flagged] is the provider's native flag OR
    "the violations list is non-empty"; and if some category of the custom
    threshold table (sexual=0.05, harassment=0.05, hate=0.05, violence=0.1,
    sexual_minors=0.01) scores strictly above its cut-off, the verdict is
    flagged and its reason contains the category name and the score
    rendered as a percentage. *)
Theorem classifier_threshold_flag (E : Env) (text : string) (w : World)
        (result : moderation_result) :
  (Moderation.check_custom_patterns_only E text).1.1 = false ->
  moderations_create E (moderation_calls w) text = Returned result ->
  let v := (Moderation.moderate_text E text w).1 in
  let violations := Moderation.flagged_categories_of E (mr_category_scores result) in
  v_flagged v = mr_flagged result || bool_decide (violations ≠ [])
  /\ forall (category : string) (threshold : Q),
      (category, threshold) ∈ Spec.threshold_table ->
      let score := default 0%Q (mr_category_scores result !! category) in
      (threshold < score)%Q ->
      v_flagged v = true
      /\ exists reason,
          v_reason v = Some reason
          /\ PyStr.contains reason category
          /\ PyStr.contains reason (format_percent E score)
          /\ PyStr.contains reason (category +:+ " (" +:+ format_percent E score +:+ ")").
Proof.
  intros Hclean Hcall v violations. subst v.
  rewrite (moderate_text_classifier_path E text w Hclean).
  unfold Moderation.openai_context_analysis. rewrite Hcall. cbn [fst].
  fold violations.
  assert (Hlen : (0 <? length violations)%nat = bool_decide (violations ≠ [])).
  { destruct violations; [reflexivity|]. symmetry. now apply bool_decide_eq_true_2. }
  cbn [v_flagged v_reason]. split; [now rewrite Hlen|].
  intros category threshold Hin Hgt.
  set (score := default 0%Q (mr_category_scores result !! category)) in *.
  apply threshold_table_sub in Hin.
  pose proof (violation_listed E _ _ _ Hin Hgt) as Hlisted.
  fold score violations in Hlisted. clear Hlen.
  destruct violations as [|x rest]; [inversion Hlisted|].
  cbn [length Nat.ltb Nat.leb]. rewrite orb_true_r. split; [reflexivity|].
  eexists. split; [reflexivity|].
  assert (Hc : PyStr.contains
                 ("OpenAI detected harmful context/intent" +:+ ": "
                  +:+ PyStr.join ", " (x :: rest))
                 (category +:+ " (" +:+ format_percent E score +:+ ")")).
  { apply contains_app_r, contains_app_r, join_contains, Hlisted. }
  destruct (rendering_contains category (format_percent E score)) as [Hc1 Hc2].
  repeat split; [eapply contains_trans; eauto .. | exact Hc].
Qed.

(** C3 at a provider that leaves its own flag off but scores harassment at
    7.34%, above the 5% cut-off. *)
Lemma classifier_threshold_flag_witness :
  let E := Demo.env Demo.moderation_harassment (Demo.stt_ok "hello there") in
  let v := (Moderation.moderate_text E "hello there" Demo.world).1 in
  v_flagged v = true
  /\ exists reason, v_reason v = Some reason
                    /\ PyStr.contains reason "harassment"
                    /\ PyStr.contains reason "7.34%".
Proof.
  intros E v.
  destruct (classifier_threshold_flag E "hello there" Demo.world
              {| mr_flagged := false;
                 mr_categories := {[ "harassment" := false ]};
                 mr_category_scores := {[ "harassment" := (734 # 10000)%Q ]} |})
    as [_ H]; [vm_compute; reflexivity | reflexivity |].
  destruct (H "harassment" (5 # 100)%Q) as (Hf & reason & Hr & Hc1 & Hc2 & _).
  - unfold Spec.threshold_table. rewrite !elem_of_cons. tauto.
  - vm_compute. reflexivity.
  - split; [exact Hf|]. exists reason. repeat split; [exact Hr | exact Hc1 | exact Hc2].
Defined.




(** ** Pattern short-circuit *)

Lemma bind_run {A B} (c : M A) (k : A -> M B) (w w' : World) (a : A) :
  c w = (a, w') -> bind c k w = k a w'.
Proof. unfold bind. now intros ->. Qed.

(** Storing a moderation verdict touches the caches only. *)
Lemma cache_moderation_outside (E : Env) (text : string) (result : verdict) (w : World) :
  let w' := (TranscriptionWithModeration._cache_moderation E text result w).2 in
  now w' = now w /\ files w' = files w
  /\ moderation_calls w' = moderation_calls w /\ stt_calls w' = stt_calls w
  /\ trace w' = trace w
  /\ ft_transcription_cache w' = ft_transcription_cache w
  /\ ft_cache_timestamps w' = ft_cache_timestamps w.
Proof.
  unfold TranscriptionWithModeration._cache_moderation.
  change (negb TranscriptionWithModeration.ENABLE_CACHING) with false.
  cbv beta iota zeta.
  destruct (_ <? _)%nat; repeat split; reflexivity.
Qed.

(** The guard of [_fast_moderate_text] is off on a text that is not blank. *)
Lemma blank_guard_false (text : string) :
  PyStr.whitespace_only text = false ->
  negb (PyStr.truthy text) || negb (PyStr.truthy (PyStr.strip text)) = false.
Proof.
  intros H. apply not_true_iff_false. rewrite blank_guard_iff. congruence.
Qed.




(** ** Empty text *)

(** C5 (as amended). For empty or whitespace-only text,
    [_fast_moderate_text] returns at once: [flagged = false], the fixed
    reason "Empty text", no pattern flags, and the world (caches, classifier
    log) exactly as it was.  The verdicts of two blank texts differ only in
    the echoed text. *)
Theorem fast_moderate_blank (E : Env) (text : string) (w : World) :
  PyStr.whitespace_only text = true ->
  TranscriptionWithModeration._fast_moderate_text E text w
  = ({| v_text := text;
        v_flagged := false;
        v_detection_method := None;
        v_openai_flagged := None;
        v_custom_flagged := Some false;
        v_custom_flags := ∅;
        v_reason := Some "Empty text";
        v_api_call_made := None;
        v_categories := None;
        v_category_scores := None |}, w).
Proof.
  intros H. apply blank_guard_iff in H.
  unfold TranscriptionWithModeration._fast_moderate_text. now rewrite H.
Qed.

Lemma fast_moderate_blank_witness :
  let E := Demo.env Demo.moderation_down (Demo.stt_ok "") in
  let '(v1, w1) := TranscriptionWithModeration._fast_moderate_text E "" Demo.world in
  let '(v2, w2) := TranscriptionWithModeration._fast_moderate_text E "   " Demo.world in
  v_flagged v1 = false /\ v_flagged v2 = false
  /\ v_reason v1 = Some "Empty text" /\ v_reason v2 = v_reason v1
  /\ w1 = Demo.world /\ w2 = Demo.world.
Proof.
  intros E.
  rewrite (fast_moderate_blank E "" Demo.world eq_refl).
  rewrite (fast_moderate_blank E "   " Demo.world eq_refl).
  repeat split.
Defined.

(** C5 as stated fails on [moderate_text], which has no such guard: on the
    empty text it runs the pattern matcher and calls the classifier, and
    its reason is not the "Empty text" message. *)
Lemma moderate_text_empty_calls_classifier :
  let E := Demo.env Demo.moderation_clean (Demo.stt_ok "") in
  let '(v, w') := Moderation.moderate_text E "" Demo.world in
  PyStr.whitespace_only "" = true
  /\ trace w' = [EvModeration ""]
  /\ moderation_calls w' = 1%nat
  /\ v_api_call_made v = Some true
  /\ v_reason v = Some "Content appears safe after full analysis"
  /\ v_reason v <> Some "Empty text".
Proof.
  intros E. vm_compute. repeat split. discriminate.
Qed.

(** ** Confidence score *)

Lemma accumulate_from (segments : list segment) (total : Q) (count : nat) :
  let '(total', count') :=
    fold_left Transcription.accumulate_step segments (total, count) in
  (total' == total + fold_right Qplus 0 (omap avg_logprob segments))%Q
  /\ count' = (count + length (omap avg_logprob segments))%nat.
Proof.
  revert total count.
  induction segments as [|[[p|]] rest IH]; intros total count;
    cbn [fold_left omap list_omap Transcription.accumulate_step avg_logprob].
  - cbn. split; [lra | lia].
  - specialize (IH (total + p)%Q (S count)).
    destruct (fold_left _ rest _) as [total' count'].
    destruct IH as [IH1 IH2]. cbn [fold_right length]. split; [lra | lia].
  - specialize (IH total count).
    destruct (fold_left _ rest _) as [total' count'].
    exact IH.
Qed.

Lemma py_clamp_range (x : Q) :
  (0 <= Transcription.py_max 0 (Transcription.py_min 1 x) <= 1)%Q.
Proof.
  unfold Transcription.py_max, Transcription.py_min.
  destruct (Qlt_le_dec x 1); destruct (Qlt_le_dec 0 _); split; lra.
Qed.

Lemma py_clamp_spec (x y : Q) :
  (x == y)%Q ->
  (Transcription.py_max 0 (Transcription.py_min 1 x) == Spec.clamp y 0 1)%Q.
Proof.
  intros Hxy. unfold Transcription.py_max, Transcription.py_min, Spec.clamp.
  destruct (Qlt_le_dec x 1); destruct (Qlt_le_dec 0 _);
    destruct (Qlt_le_dec y 0); destruct (Qlt_le_dec 1 y); lra.
Qed.

(** C6. For every provider response the confidence score lies in [0, 1];
    when the response carries segment-level average log-probabilities the
    score is clamp(mean + 1.0, 0, 1) of them, and when it carries none the
    score is the default 0.85. *)
Theorem confidence_score_spec (response : whisper_response) :
  let confidence := Transcription._calculate_confidence_score response in
  (0 <= confidence <= 1)%Q
  /\ match Spec.logprobs response with
     | [] => confidence = (85 # 100)%Q
     | (_ :: _) as ps => (confidence == Spec.clamp (Spec.mean ps + 1) 0 1)%Q
     end.
Proof.
  unfold Transcription._calculate_confidence_score, Spec.logprobs.
  destruct (wr_segments response) as [[|seg rest]|]; cbn [default from_option id];
    try (split; [split; lra | reflexivity]).
  pose proof (accumulate_from (seg :: rest) 0 0) as Hacc.
  fold (Transcription.accumulate (seg :: rest)) in Hacc.
  destruct (Transcription.accumulate (seg :: rest)) as [total count].
  destruct Hacc as [Htotal Hcount]. cbn [Nat.add] in Hcount.
  destruct (omap avg_logprob (seg :: rest)) as [|p ps].
  - cbn [length] in Hcount. subst count. cbn [Nat.ltb Nat.leb].
    split; [split; lra | reflexivity].
  - assert (Hpos : (0 <? count)%nat = true) by (apply Nat.ltb_lt; subst count; cbn; lia).
    rewrite Hpos. split; [apply py_clamp_range|].
    apply py_clamp_spec. unfold Spec.mean. rewrite Htotal, Hcount.
    apply Qplus_comp; [|reflexivity]. apply Qdiv_comp; [lra | reflexivity].
Qed.

Example confidence_ex1 :
  (Transcription._calculate_confidence_score
     {| wr_text := Some "hi"; wr_language := None; wr_str := "hi";
        wr_segments := Some [ {| avg_logprob := Some (-(1 # 4))%Q |};
                              {| avg_logprob := None |};
                              {| avg_logprob := Some (-(3 # 4))%Q |} ] |}
   == 1 # 2)%Q.
Proof. vm_compute. reflexivity. Qed.

Example confidence_ex2 :
  Transcription._calculate_confidence_score
    {| wr_text := Some "hi"; wr_language := None; wr_str := "hi";
       wr_segments := Some [ {| avg_logprob := Some (-3)%Q |} ] |}
  = 0%Q.
Proof. reflexivity. Qed.

Example confidence_ex3 :
  Transcription._calculate_confidence_score
    {| wr_text := Some "hi"; wr_language := None; wr_str := "hi";
       wr_segments := Some [ {| avg_logprob := None |} ] |}
  = (85 # 100)%Q.
Proof. reflexivity. Qed.

(** ** Result cache *)

Lemma ft_lookup_hit_iff (E : Env) (file_path : string) (params : request_params)
      (w : World) (d : transcription_dict) (ts : Q) :
  let key := FastTranscription.cache_key E file_path params w in
  ft_transcription_cache w !! key = Some d ->
  ft_cache_timestamps w !! key = Some ts ->
  FastTranscription._get_cached_transcription E file_path params w
  = (if Qltb (now w - ts) 3600 then Some d else None, w).
Proof.
  intros key Hd Hts. unfold FastTranscription._get_cached_transcription.
  change (negb FastTranscription.ENABLE_CACHING) with false. cbv beta iota zeta.
  fold key. unfold FastTranscription._is_cache_valid.
  change (negb FastTranscription.ENABLE_CACHING) with false. cbv beta iota zeta.
  rewrite Hts, Hd. unfold FastTranscription.CACHE_MAX_AGE.
  rewrite bool_decide_eq_true_2 by (now eexists). rewrite andb_true_r.
  now destruct (Qltb _ _).
Qed.

Lemma twm_lookup_hit_iff (E : Env) (file_path : string) (params : request_params)
      (w : World) (d : transcription_dict) (ts : Q) :
  let key := TranscriptionWithModeration.cache_key E file_path params w in
  twm_transcription_cache w !! key = Some d ->
  twm_cache_timestamps w !! key = Some ts ->
  TranscriptionWithModeration._get_cached_transcription E file_path params w
  = (if Qltb (now w - ts) 3600 then Some d else None, w).
Proof.
  intros key Hd Hts. unfold TranscriptionWithModeration._get_cached_transcription.
  change (negb TranscriptionWithModeration.ENABLE_CACHING) with false.
  cbv beta iota zeta.
  fold key. unfold TranscriptionWithModeration._is_cache_valid.
  change (negb TranscriptionWithModeration.ENABLE_CACHING) with false.
  cbv beta iota zeta.
  rewrite Hts, Hd. unfold TranscriptionWithModeration.CACHE_MAX_AGE.
  rewrite bool_decide_eq_true_2 by (now eexists). rewrite andb_true_r.
  now destruct (Qltb _ _).
Qed.

Lemma twm_moderation_hit_iff (E : Env) (text : string)
      (w : World) (v : verdict) (ts : Q) :
  let key := TranscriptionWithModeration.moderation_key E text in
  twm_moderation_cache w !! key = Some v ->
  twm_cache_timestamps w !! key = Some ts ->
  TranscriptionWithModeration._get_cached_moderation E text w
  = (if Qltb (now w - ts) 3600 then Some v else None, w).
Proof.
  intros key Hd Hts. unfold TranscriptionWithModeration._get_cached_moderation.
  change (negb TranscriptionWithModeration.ENABLE_CACHING) with false.
  cbv beta iota zeta.
  fold key. unfold TranscriptionWithModeration._is_cache_valid.
  change (negb TranscriptionWithModeration.ENABLE_CACHING) with false.
  cbv beta iota zeta.
  rewrite Hts, Hd. unfold TranscriptionWithModeration.CACHE_MAX_AGE.
  rewrite bool_decide_eq_true_2 by (now eexists). rewrite andb_true_r.
  now destruct (Qltb _ _).
Qed.

Lemma hit_or_miss {A} (clock ts : Q) (d : A) :
  ((if Qltb (clock - ts) 3600 then Some d else None) = Some d <-> (clock - ts < 3600)%Q)
  /\ ((ts + 3600 <= clock)%Q -> (if Qltb (clock - ts) 3600 then Some d else None) = None).
Proof.
  destruct (Qltb (clock - ts) 3600) eqn:Hv.
  - apply Qltb_true in Hv. split; [tauto | intros; lra].
  - apply Qltb_false in Hv. split; [split; [discriminate | intros; lra] | reflexivity].
Qed.

(** C7. With the TTL at its default of 3600 seconds, for every cache entry
    (a key with its insertion timestamp): [_is_cache_valid] holds if and
    only if [now - insertedAt < TTL], in both cache modules; a lookup
    returns the stored value if and only if that holds; and at any time
    [>= insertedAt + TTL] the lookup misses although the value is still
    stored. *)
Theorem cache_entry_valid_iff (E : Env) (w : World) :
  FastTranscription.CACHE_MAX_AGE = 3600%Q
  /\ TranscriptionWithModeration.CACHE_MAX_AGE = 3600%Q
  /\ (forall key ts,
        ft_cache_timestamps w !! key = Some ts ->
        (FastTranscription._is_cache_valid key w = true <-> (now w - ts < 3600)%Q)
        /\ ((ts + 3600 <= now w)%Q -> FastTranscription._is_cache_valid key w = false))
  /\ (forall key ts,
        twm_cache_timestamps w !! key = Some ts ->
        (TranscriptionWithModeration._is_cache_valid key w = true <-> (now w - ts < 3600)%Q)
        /\ ((ts + 3600 <= now w)%Q ->
            TranscriptionWithModeration._is_cache_valid key w = false))
  /\ (forall file_path params d ts,
        let key := FastTranscription.cache_key E file_path params w in
        ft_transcription_cache w !! key = Some d ->
        ft_cache_timestamps w !! key = Some ts ->
        let hit := (FastTranscription._get_cached_transcription E file_path params w).1 in
        (hit = Some d <-> (now w - ts < 3600)%Q)
        /\ ((ts + 3600 <= now w)%Q -> hit = None))
  /\ (forall file_path params d ts,
        let key := TranscriptionWithModeration.cache_key E file_path params w in
        twm_transcription_cache w !! key = Some d ->
        twm_cache_timestamps w !! key = Some ts ->
        let hit :=
          (TranscriptionWithModeration._get_cached_transcription E file_path params w).1 in
        (hit = Some d <-> (now w - ts < 3600)%Q)
        /\ ((ts + 3600 <= now w)%Q -> hit = None))
  /\ (forall text v ts,
        let key := TranscriptionWithModeration.moderation_key E text in
        twm_moderation_cache w !! key = Some v ->
        twm_cache_timestamps w !! key = Some ts ->
        let hit := (TranscriptionWithModeration._get_cached_moderation E text w).1 in
        (hit = Some v <-> (now w - ts < 3600)%Q)
        /\ ((ts + 3600 <= now w)%Q -> hit = None)).
Proof.
  split; [reflexivity|]. split; [reflexivity|].
  split; [|split]; [| |split; [|split]].
  - intros key ts Hts. unfold FastTranscription._is_cache_valid.
    change (negb FastTranscription.ENABLE_CACHING) with false. cbv beta iota zeta.
    rewrite Hts. split; [apply Qltb_true|].
    intros Hlate. apply Qltb_false. unfold FastTranscription.CACHE_MAX_AGE. lra.
  - intros key ts Hts. unfold TranscriptionWithModeration._is_cache_valid.
    change (negb TranscriptionWithModeration.ENABLE_CACHING) with false.
    cbv beta iota zeta.
    rewrite Hts. split; [apply Qltb_true|].
    intros Hlate. apply Qltb_false. unfold TranscriptionWithModeration.CACHE_MAX_AGE. lra.
  - intros file_path params d ts key Hd Hts hit. subst hit.
    rewrite (ft_lookup_hit_iff E file_path params w d ts Hd Hts). apply hit_or_miss.
  - intros file_path params d ts key Hd Hts hit. subst hit.
    rewrite (twm_lookup_hit_iff E file_path params w d ts Hd Hts). apply hit_or_miss.
  - intros text v ts key Hd Hts hit. subst hit.
    rewrite (twm_moderation_hit_iff E text w v ts Hd Hts). apply hit_or_miss.
Qed.

Lemma cache_entry_valid_iff_witness :
  let E := Demo.env Demo.moderation_down (Demo.stt_ok "hi") in
  let key := "transcription:/tmp/clip.wav:80000:900.0:None:text:0" in
  let stored := (FastTranscription.transcribe E Demo.request Demo.world).2 in
  ft_cache_timestamps stored !! key = Some 1001%Q
  /\ FastTranscription._is_cache_valid key (elapse 3599 stored) = true
  /\ FastTranscription._is_cache_valid key (elapse 3600 stored) = false
  /\ is_Some (ft_transcription_cache (elapse 3600 stored) !! key).
Proof.
  intros E key stored.
  assert (Hts : ft_cache_timestamps stored !! key = Some 1001%Q)
    by (vm_compute; reflexivity).
  split; [exact Hts|]. split; [|split].
  - destruct (cache_entry_valid_iff E (elapse 3599 stored)) as (_ & _ & Hft & _).
    apply (Hft key 1001%Q Hts). vm_compute. reflexivity.
  - destruct (cache_entry_valid_iff E (elapse 3600 stored)) as (_ & _ & Hft & _).
    apply (Hft key 1001%Q Hts). vm_compute. discriminate.
  - vm_compute. eexists. reflexivity.
Defined.

(** ** Transcription leaves the caches alone *)

Lemma same_store_refl (w : World) : same_store w w.
Proof. repeat split. Qed.

Lemma same_store_trans (w1 w2 w3 : World) :
  same_store w1 w2 -> same_store w2 w3 -> same_store w1 w3.
Proof. unfold same_store. intuition congruence. Qed.

Lemma create_transcription_same_store (E : Env) (p : string)
      (params : transcription_params) (w : World) :
  same_store w (Transcription.create_transcription E p params w).2.
Proof.
  unfold Transcription.create_transcription.
  destruct (transcriptions_create E (stt_calls w) p params). repeat split.
Qed.

Lemma retry_loop_same_store (E : Env) (p : string) (params : transcription_params)
      (attempts : list nat) (w : World) :
  same_store w (Transcription.retry_loop E p params attempts w).2.
Proof.
  revert w. induction attempts as [|attempt rest IH]; intros w; [apply same_store_refl|].
  cbn [Transcription.retry_loop]. unfold bind at 1.
  pose proof (create_transcription_same_store E p params w) as Hc.
  destruct (Transcription.create_transcription E p params w) as [[t|c msg] w1].
  - exact Hc.
  - cbn [snd] in Hc.
    destruct c; try exact Hc; destruct (attempt <? Transcription.max_retries)%nat;
      try exact Hc.
    + unfold bind, time_sleep. eapply same_store_trans; [exact Hc|].
      eapply same_store_trans; [|apply IH]. repeat split.
    + eapply same_store_trans; [exact Hc | apply IH].
Qed.

Lemma transcribe_audio_same_store (E : Env) (request : TranscriptionRequest) (w : World) :
  same_store w (Transcription.transcribe_audio E request w).2.
Proof.
  unfold Transcription.transcribe_audio, bind, get_world.
  destruct (Transcription._validate_audio_file E (audio_file_path request) w)
    as [[c msg]|]; [apply same_store_refl|].
  destruct (preprocess_audio E (audio_file_path request)) as [p duration].
  pose proof (retry_loop_same_store E p
                (Transcription.prepare_params E request
                   (if bool_decide (response_format request ∈ ["json"; "verbose_json"])
                       || String.eqb (response_format request) "text"
                    then "verbose_json" else response_format request))
                (seq 0 (Transcription.max_retries + 1)) w) as Hl.
  destruct (Transcription.retry_loop _ _ _ _ w) as [[t|c msg] w1]; cbn [snd] in Hl.
  - destruct (Transcription.extract_results _ _ _) as [[? ?] ?]. exact Hl.
  - exact Hl.
Qed.

(** ** Cache idempotence *)

Lemma pop_all_lookup_notin {V} (keys : list string) (d : gmap string V) (key : string) :
  key ∉ keys -> pop_all keys d !! key = d !! key.
Proof.
  revert d. induction keys as [|k keys IH]; intros d Hnot; [reflexivity|].
  apply not_elem_of_cons in Hnot as [Hne Hnot].
  change (pop_all (k :: keys) d) with (pop_all keys (delete k d)).
  rewrite IH by exact Hnot. now apply lookup_delete_ne.
Qed.

Lemma ft_cache_key_files (E : Env) (file_path : string) (params : request_params)
      (w w' : World) :
  files w' !! file_path = files w !! file_path ->
  FastTranscription.cache_key E file_path params w'
  = FastTranscription.cache_key E file_path params w.
Proof.
  intros H. unfold FastTranscription.cache_key, FastTranscription._get_file_info.
  now rewrite H.
Qed.

(** What [_cache_transcription] leaves behind: the entry under its key,
    stamped with the current time, whether or not the clean-up ran. *)
Lemma ft_cache_transcription_stores (E : Env) (file_path : string)
      (params : request_params) (d : transcription_dict) (w : World) :
  let key := FastTranscription.cache_key E file_path params w in
  let w' := (FastTranscription._cache_transcription E file_path params d w).2 in
  ft_transcription_cache w' !! key = Some d
  /\ ft_cache_timestamps w' !! key = Some (now w)
  /\ files w' = files w /\ stt_calls w' = stt_calls w /\ trace w' = trace w
  /\ now w' = now w.
Proof.
  intros key. unfold FastTranscription._cache_transcription.
  change (negb FastTranscription.ENABLE_CACHING) with false. cbv beta iota zeta.
  fold key.
  destruct (_ <? _)%nat.
  - unfold FastTranscription._cleanup_old_cache_entries.
    cbn [snd set_ft ft_transcription_cache ft_cache_timestamps files stt_calls trace now].
    match goal with
    | |- context [pop_all ?ks _] => set (expired_keys := ks)
    end.
    assert (Hfresh : key ∉ expired_keys).
    { subst expired_keys. intros Hin. apply list_elem_of_omap in Hin as ([k ts] & Hin & Hsome).
      apply elem_of_map_to_list in Hin.
      destruct (Qgtb _ _ && _) eqn:Hexp; [|discriminate].
      injection Hsome as ->. rewrite lookup_insert_eq in Hin. injection Hin as <-.
      apply andb_true_iff in Hexp as [Hexp _]. apply Qgtb_true in Hexp.
      unfold FastTranscription.CACHE_MAX_AGE in Hexp. lra. }
    rewrite !pop_all_lookup_notin by exact Hfresh.
    rewrite !lookup_insert_eq. repeat split.
  - cbn [snd set_ft ft_transcription_cache ft_cache_timestamps files stt_calls trace now].
    rewrite !lookup_insert_eq. repeat split.
Qed.

Lemma ft_get_cached_unfold (E : Env) (file_path : string) (params : request_params)
      (w : World) :
  let key := FastTranscription.cache_key E file_path params w in
  FastTranscription._get_cached_transcription E file_path params w
  = (if FastTranscription._is_cache_valid key w
        && bool_decide (is_Some (ft_transcription_cache w !! key))
     then ft_transcription_cache w !! key else None, w).
Proof.
  intros key. unfold FastTranscription._get_cached_transcription.
  change (negb FastTranscription.ENABLE_CACHING) with false. cbv beta iota zeta.
  fold key. now destruct (_ && _).
Qed.

(** A valid entry has a timestamp. *)
Lemma ft_valid_has_timestamp (key : string) (w : World) :
  FastTranscription._is_cache_valid key w = true ->
  exists ts, ft_cache_timestamps w !! key = Some ts.
Proof.
  unfold FastTranscription._is_cache_valid.
  change (negb FastTranscription.ENABLE_CACHING) with false. cbv beta iota zeta.
  destruct (ft_cache_timestamps w !! key) as [ts|]; [eauto | discriminate].
Qed.

(** A lookup that finds a stored, timely entry makes [transcribe] answer
    from the cache and leave the world as it is. *)
Lemma ft_transcribe_hit (E : Env) (request : TranscriptionRequest) (w : World)
      (d : transcription_dict) (ts : Q) :
  let params :=
    {| rp_language := language request;
       rp_response_format := response_format request;
       rp_temperature := temperature request;
       rp_prompt := prompt request |} in
  let key := FastTranscription.cache_key E (audio_file_path request) params w in
  ft_transcription_cache w !! key = Some d ->
  ft_cache_timestamps w !! key = Some ts ->
  (now w - ts < 3600)%Q ->
  FastTranscription.transcribe E request w = (inl (response_of_dict d), w).
Proof.
  intros params key Hd Hts Hfresh. unfold FastTranscription.transcribe.
  fold params.
  rewrite (bind_run _ _ w w (Some d)); [reflexivity|].
  rewrite (ft_lookup_hit_iff E (audio_file_path request) params w d ts Hd Hts).
  apply Qltb_true in Hfresh. now rewrite Hfresh.
Qed.

(** A first attempt that returns ends [transcribe_audio] after one
    provider call. *)
Lemma transcribe_audio_first_attempt (E : Env) (request : TranscriptionRequest)
      (w : World) (t : whisper_response) :
  Transcription._validate_audio_file E (audio_file_path request) w = None ->
  (transcriptions_create E (stt_calls w) (Spec.provider_arguments E request).1
                         (Spec.provider_arguments E request).2).1 = Returned t ->
  let w' := (Transcription.transcribe_audio E request w).2 in
  trace w' = (trace w ++ [EvTranscription (Spec.provider_arguments E request).1])%list
  /\ stt_calls w' = S (stt_calls w).
Proof.
  intros Hvalid Hfirst. unfold Transcription.transcribe_audio, bind, get_world.
  rewrite Hvalid. unfold Spec.provider_arguments in Hfirst |- *.
  cbn [fst snd] in Hfirst |- *.
  destruct (preprocess_audio E (audio_file_path request)) as [p duration].
  cbn [fst] in Hfirst |- *.
  cbn [seq Nat.add Transcription.max_retries Transcription.retry_loop].
  unfold bind, Transcription.create_transcription.
  destruct (transcriptions_create E (stt_calls w) p _) as [o seconds].
  cbn [fst] in Hfirst. subst o. unfold ret.
  destruct (Transcription.extract_results _ _ _) as [[? ?] ?].
  split; reflexivity.
Qed.

(** C8 (as amended). If a call of [transcribe] succeeds, a second call
    with the identical audio reference (same path, size and modification
    time) and parameters, made while the stored entry is younger than the
    TTL, returns a result equal to the first and leaves the world as it
    was: it issues no speech-to-text call.  When the first call missed the
    cache and the provider answered its first attempt, the two calls
    together issue exactly one provider call. *)
Theorem transcribe_twice_within_ttl (E : Env) (request : TranscriptionRequest)
        (w w1 w2 : World) (r1 : TranscriptionResponse) :
  let params :=
    {| rp_language := language request;
       rp_response_format := response_format request;
       rp_temperature := temperature request;
       rp_prompt := prompt request |} in
  let key := FastTranscription.cache_key E (audio_file_path request) params w in
  FastTranscription.transcribe E request w = (inl r1, w1) ->
  ft_transcription_cache w2 = ft_transcription_cache w1 ->
  ft_cache_timestamps w2 = ft_cache_timestamps w1 ->
  files w2 !! audio_file_path request = files w !! audio_file_path request ->
  (forall ts, ft_cache_timestamps w1 !! key = Some ts -> (now w2 - ts < 3600)%Q) ->
  FastTranscription.transcribe E request w2 = (inl r1, w2)
  /\ ((FastTranscription._get_cached_transcription E (audio_file_path request) params w).1
      = None ->
      (exists t,
          (transcriptions_create E (stt_calls w) (Spec.provider_arguments E request).1
                                 (Spec.provider_arguments E request).2).1 = Returned t) ->
      trace w1 = (trace w ++ [EvTranscription (Spec.provider_arguments E request).1])%list
      /\ stt_calls w1 = S (stt_calls w)).
Proof.
  intros params key Hfirst Hcache Hstamps Hfiles Httl.
  pose proof (ft_cache_key_files E (audio_file_path request) params w w2 Hfiles) as Hkey2.
  unfold FastTranscription.transcribe in Hfirst. fold params in Hfirst.
  unfold bind at 1 in Hfirst.
  rewrite (ft_get_cached_unfold E (audio_file_path request) params w) in Hfirst.
  fold key in Hfirst.
  rewrite (ft_get_cached_unfold E (audio_file_path request) params w). fold key.
  destruct (FastTranscription._is_cache_valid key w
            && bool_decide (is_Some (ft_transcription_cache w !! key))) eqn:Hhit.
  - (* the first call was itself answered from the cache *)
    apply andb_true_iff in Hhit as [Hvalid Hsome].
    apply bool_decide_eq_true in Hsome as [d Hd].
    rewrite Hd in Hfirst |- *. unfold ret in Hfirst. injection Hfirst as <- <-.
    destruct (ft_valid_has_timestamp key w Hvalid) as [ts Hts].
    split; [|discriminate].
    apply (ft_transcribe_hit E request w2 d ts).
    + fold params. rewrite Hkey2. fold key. now rewrite Hcache.
    + fold params. rewrite Hkey2. fold key. now rewrite Hstamps.
    + apply Httl, Hts.
  - (* the first call went to the provider *)
    unfold bind at 1 in Hfirst.
    assert (Hreq : {| audio_file_path := audio_file_path request;
                      language := language request;
                      prompt := prompt request;
                      response_format := response_format request;
                      temperature := temperature request |} = request)
      by (destruct request; reflexivity).
    rewrite Hreq in Hfirst. unfold Transcription.transcribe_audio_file in Hfirst.
    pose proof (transcribe_audio_same_store E request w) as Hsame.
    destruct (Transcription.transcribe_audio E request w) as [[resp|err] wa] eqn:Haudio;
      [|unfold ret in Hfirst; discriminate].
    cbn [snd] in Hsame. destruct Hsame as (Hfa & _ & Hca & Hsa & _).
    unfold bind at 1 in Hfirst.
    set (d := {| td_transcript := rs_transcript resp;
                 td_file_path := rs_file_path resp;
                 td_language_detected := rs_language_detected resp;
                 td_duration := rs_duration resp;
                 td_response_format := rs_response_format resp |}) in *.
    pose proof (ft_cache_transcription_stores E (audio_file_path request) params d wa)
      as (Hd & Hts & Hf1 & Hcalls & Htrace & _).
    assert (Hkeya : FastTranscription.cache_key E (audio_file_path request) params wa = key)
      by (apply ft_cache_key_files; now rewrite Hfa).
    rewrite Hkeya in Hd, Hts.
    destruct (FastTranscription._cache_transcription E (audio_file_path request) params d wa)
      as [[] wb].
    unfold ret in Hfirst. injection Hfirst as <- <-. cbn [snd] in *.
    split.
    + apply (ft_transcribe_hit E request w2 d (now wa)).
      * fold params. rewrite Hkey2. fold key. now rewrite Hcache.
      * fold params. rewrite Hkey2. fold key. now rewrite Hstamps.
      * apply Httl, Hts.
    + intros _ [t Ht].
      assert (Hvalid : Transcription._validate_audio_file E (audio_file_path request) w = None).
      { revert Haudio. unfold Transcription.transcribe_audio, bind, get_world.
        destruct (Transcription._validate_audio_file E (audio_file_path request) w)
          as [[c msg]|]; [discriminate | reflexivity]. }
      pose proof (transcribe_audio_first_attempt E request w t Hvalid Ht) as Hone.
      rewrite Haudio in Hone. cbn [snd] in Hone.
      rewrite Htrace, Hcalls. exact Hone.
Qed.

Lemma transcribe_twice_within_ttl_witness :
  let E := Demo.env Demo.moderation_down (Demo.stt_ok "hi") in
  let w1 := (FastTranscription.transcribe E Demo.request Demo.world).2 in
  let w2 := elapse 3598 w1 in
  FastTranscription.transcribe E Demo.request Demo.world = (inl demo_response, w1)
  /\ FastTranscription.transcribe E Demo.request w2 = (inl demo_response, w2)
  /\ stt_calls w2 = 1%nat.
Proof.
  intros E w1 w2.
  assert (H1 : FastTranscription.transcribe E Demo.request Demo.world
               = (inl demo_response, w1)) by (vm_compute; reflexivity).
  split; [exact H1|]. split; [|vm_compute; reflexivity].
  refine (proj1 (transcribe_twice_within_ttl E Demo.request Demo.world w1 w2
                   demo_response H1 eq_refl eq_refl eq_refl _)).
  intros ts Hts. vm_compute in Hts. injection Hts as <-. vm_compute. reflexivity.
Defined.

(** C8 as stated fails when the first call fails: nothing is cached, so
    the second call, identical and one second later, goes to the provider
    again (two provider calls) and returns a different result. *)
Lemma transcribe_twice_failed_first :
  let E := Demo.env Demo.moderation_down (Demo.stt_script [OpenAIError] "hi") in
  let first := FastTranscription.transcribe E Demo.request Demo.world in
  let second := FastTranscription.transcribe E Demo.request first.2 in
  (exists err, first.1 = inr err)
  /\ second.1 = inl demo_response
  /\ second.1 <> first.1
  /\ files first.2 !! "/tmp/clip.wav" = files Demo.world !! "/tmp/clip.wav"
  /\ (now first.2 - now Demo.world < 3600)%Q
  /\ stt_calls second.2 = 2%nat.
Proof.
  intros E first second.
  split; [eexists; vm_compute; reflexivity|].
  split; [vm_compute; reflexivity|].
  split; [intros H; vm_compute in H; discriminate|].
  split; [vm_compute; reflexivity|].
  split; vm_compute; reflexivity.
Qed.

(** ** Retry policy *)

(** C9 (as amended). Once validation has passed, [transcribe_audio] makes
    [n] provider attempts with [1 <= n <= 3], that is at most 2 retries;
    every attempt but the last failed with a rate limit or a timeout (only
    these are retried); after a rate-limited attempt number [k] it sleeps
    [2 * (k + 1)] seconds, 2 s then 4 s, while a timed-out attempt is
    followed by the next one at once; a failure of any other class ends
    the run on the spot; and a run that ends in a failure returns the typed
    error for its class. *)
Theorem retry_policy (E : Env) (request : TranscriptionRequest) (w : World) :
  Transcription._validate_audio_file E (audio_file_path request) w = None ->
  let p := (Spec.provider_arguments E request).1 in
  let params := (Spec.provider_arguments E request).2 in
  let outcome_at k := (transcriptions_create E (k + stt_calls w) p params).1 in
  let '(res, w') := Transcription.transcribe_audio E request w in
  exists n : nat,
    (1 <= n <= 3)%nat
    /\ stt_calls w' = (n + stt_calls w)%nat
    /\ trace w'
       = (trace w
          ++ flat_map
               (fun k => EvTranscription p
                         :: (if (k + 1 <? n)%nat then Spec.backoff (outcome_at k) k else []))
               (seq 0 n))%list
    /\ Forall (fun k => Spec.retried (outcome_at k) = true) (seq 0 (n - 1))
    /\ match outcome_at (n - 1)%nat with
       | Returned _ => exists response, res = inl response
       | Raised c msg =>
           res = inr (Transcription.handle_exception request c msg)
           /\ (n < 3 -> Spec.retried (outcome_at (n - 1)%nat) = false)%nat
       end.
Proof.
  intros Hvalid p params outcome_at.
  unfold Transcription.transcribe_audio, bind, get_world. rewrite Hvalid.
  subst p params outcome_at. unfold Spec.provider_arguments. cbn [fst snd].
  destruct (preprocess_audio E (audio_file_path request)) as [p duration].
  cbn [fst snd].
  match goal with
  | |- context [Transcription.prepare_params E request ?f] =>
      set (params := Transcription.prepare_params E request f);
      set (actual_format := f) in *
  end.
  unfold Transcription.max_retries.
  cbn [seq Nat.add Transcription.retry_loop].
  unfold bind, Transcription.create_transcription, time_sleep, ret,
    Transcription.max_retries.
  attempt E p params.
  1: { destruct (Transcription.extract_results _ _ _) as [[? ?] ?]. finish_run 1%nat. }
  all: try (finish_run 1%nat).
  all: attempt E p params.
  all: try (destruct (Transcription.extract_results _ _ _) as [[? ?] ?]).
  all: try (finish_run 2%nat).
  all: attempt E p params.
  all: try (destruct (Transcription.extract_results _ _ _) as [[? ?] ?]).
  all: finish_run 3%nat.
Qed.

Lemma retry_policy_witness :
  let E := Demo.env Demo.moderation_down
                    (Demo.stt_script [RateLimitError; RateLimitError] "hi") in
  let run := Transcription.transcribe_audio E Demo.request Demo.world in
  (stt_calls run.2 <= 3)%nat
  /\ trace run.2 = [ EvTranscription "/tmp/clip.wav"; EvSleep 2;
                     EvTranscription "/tmp/clip.wav"; EvSleep 4;
                     EvTranscription "/tmp/clip.wav" ].
Proof.
  intros E run. split; [|vm_compute; reflexivity].
  pose proof (retry_policy E Demo.request Demo.world
                ltac:(vm_compute; reflexivity)) as H.
  cbv zeta in H. fold run in H. destruct run as [res w'].
  destruct H as (n & [_ Hn] & Hcalls & _). cbn [snd].
  rewrite Hcalls. cbn. lia.
Defined.

(** C9 as stated fails for the timeout class: a timed-out attempt is
    retried at once, with no backoff between the two attempts. *)
Lemma timeout_retried_without_backoff :
  let E := Demo.env Demo.moderation_down (Demo.stt_script [APITimeoutError] "hi") in
  let run := Transcription.transcribe_audio E Demo.request Demo.world in
  run.1 = inl demo_response
  /\ trace run.2 = [EvTranscription "/tmp/clip.wav"; EvTranscription "/tmp/clip.wav"]
  /\ Spec.backoff_between_attempts (trace run.2) = false
  /\ (now run.2 - now Demo.world == 2)%Q.
Proof.
  intros E run.
  split; [vm_compute; reflexivity|]. split; [vm_compute; reflexivity|].
  split; vm_compute; reflexivity.
Qed.

(** ** Combined response *)

(** C10. Every successful response of [transcribe_and_moderate] has
    [is_safe] equal to the negation of [moderation_flagged]. *)
Theorem is_safe_negates_flagged (E : Env) (request : TranscriptionRequest)
        (w w' : World) (response : TranscriptionWithModerationResponse) :
  TranscriptionWithModeration.transcribe_and_moderate E request w = (inl response, w') ->
  is_safe response = negb (moderation_flagged response).
Proof.
  unfold TranscriptionWithModeration.transcribe_and_moderate, bind, ret.
  destruct (TranscriptionWithModeration._get_cached_transcription E _ _ w)
    as [[cached|] w0].
  - destruct (TranscriptionWithModeration._fast_moderate_text E _ w0) as [v w1].
    now intros [= <- _].
  - destruct (Transcription.transcribe_audio_file E _ w0) as [[r|err] w1];
      [|discriminate].
    destruct (TranscriptionWithModeration._cache_transcription E _ _ _ w1) as [[] w2].
    destruct (TranscriptionWithModeration._fast_moderate_text E _ w2) as [v w3].
    now intros [= <- _].
Qed.

Lemma is_safe_negates_flagged_witness :
  let E := Demo.env Demo.moderation_down (Demo.stt_ok "you fucking idiot") in
  let run := TranscriptionWithModeration.transcribe_and_moderate E Demo.request Demo.world in
  exists response,
    run.1 = inl response
    /\ moderation_flagged response = true
    /\ is_safe response = false.
Proof.
  intros E run.
  destruct run as [[response|err] w'] eqn:Hrun; [|vm_compute in Hrun; discriminate].
  exists response. split; [reflexivity|].
  assert (Hflag : moderation_flagged response = true).
  { vm_compute in Hrun. now injection Hrun as <- _. }
  split; [exact Hflag|].
  rewrite (is_safe_negates_flagged E Demo.request Demo.world w' response Hrun).
  now rewrite Hflag.
Defined.

(** * Further properties *)

(** * Further properties of the code *)

(** ** Decision engine *)

(** X1. When no pattern matches and the classifier answers, the verdict of
    [moderate_text] is flagged exactly when the provider's own flag is set
    or some category of [CUSTOM_THRESHOLDS] scores strictly above its
    cut-off (a score equal to the cut-off, or a category the provider did
    not score, does not flag).  The detection method is
    ["openai_context_analysis"] when flagged and ["clean"] otherwise; an
    unflagged verdict carries the fixed safe message; a verdict flagged by
    the provider alone carries the bare message; and the provider's flag
    and scores are passed through. *)
Theorem moderate_text_classifier_verdict (E : Env) (text : string) (w : World)
        (result : moderation_result) :
  existsb (fun r => r.2) (Spec.group_results E text) = false ->
  moderations_create E (moderation_calls w) text = Returned result ->
  let v := (Moderation.moderate_text E text w).1 in
  let over :=
    Exists (fun ct : string * Q =>
              (ct.2 < default 0 (mr_category_scores result !! ct.1))%Q)
           Moderation.CUSTOM_THRESHOLDS in
  (v_flagged v = true <-> mr_flagged result = true \/ over)
  /\ v_detection_method v
     = Some (if v_flagged v then "openai_context_analysis" else "clean")
  /\ (v_flagged v = false ->
      v_reason v = Some "Content appears safe after full analysis")
  /\ (mr_flagged result = true -> ~ over ->
      v_reason v = Some "OpenAI detected harmful context/intent")
  /\ v_openai_flagged v = Some (mr_flagged result)
  /\ v_category_scores v = Some (mr_category_scores result)
  /\ v_categories v = Some (mr_categories result).
Proof.
  intros Hclean Hcall v over. subst v. apply no_group_matches_iff in Hclean.
  rewrite (moderate_text_classifier_path E text w Hclean).
  unfold Moderation.openai_context_analysis. rewrite Hcall. cbn [fst].
  assert (Hover : over <-> Moderation.flagged_categories_of E (mr_category_scores result) <> []).
  { subst over. rewrite Exists_exists. split.
    - intros ([c t] & Hin & Hgt) Hempty. cbn [fst snd] in Hgt.
      pose proof (violation_listed E _ c t Hin Hgt) as Hlisted.
      rewrite Hempty in Hlisted. inversion Hlisted.
    - intros Hne.
      destruct (Moderation.flagged_categories_of E (mr_category_scores result))
        as [|x rest] eqn:Hl; [congruence|].
      assert (Hx : x ∈ Moderation.flagged_categories_of E (mr_category_scores result))
        by (rewrite Hl; apply list_elem_of_here).
      apply list_elem_of_omap in Hx as ([c t] & Hin & Hsome).
      exists (c, t). split; [exact Hin|]. cbn [fst snd].
      cbv zeta in Hsome.
      destruct (Qgtb (default 0%Q (mr_category_scores result !! c)) t) eqn:Hgt;
        [now apply Qgtb_true | discriminate]. }
  destruct (Moderation.flagged_categories_of E (mr_category_scores result))
    as [|x rest]; cbn [length Nat.ltb Nat.leb v_flagged v_detection_method v_reason
                       v_openai_flagged v_category_scores v_categories
                       Moderation.od_openai_flagged Moderation.od_category_scores
                       Moderation.od_categories].
  - rewrite orb_false_r. repeat split; try reflexivity.
    + intros ->. now left.
    + intros [H|H]; [exact H | apply Hover in H; congruence].
    + intros ->. reflexivity.
    + intros -> _. reflexivity.
  - rewrite orb_true_r. repeat split; try reflexivity.
    + intros _. right. apply Hover. discriminate.
    + discriminate.
    + intros _ Hno. destruct Hno. apply Hover. discriminate.
Qed.

Lemma moderate_text_classifier_verdict_witness :
  let E := Demo.env Demo.moderation_harassment (Demo.stt_ok "hello there") in
  let v := (Moderation.moderate_text E "hello there" Demo.world).1 in
  v_flagged v = true
  /\ v_detection_method v = Some "openai_context_analysis"
  /\ v_openai_flagged v = Some false.
Proof.
  intros E v.
  destruct (moderate_text_classifier_verdict E "hello there" Demo.world
              {| mr_flagged := false;
                 mr_categories := {[ "harassment" := false ]};
                 mr_category_scores := {[ "harassment" := (734 # 10000)%Q ]} |}
              ltac:(vm_compute; reflexivity) eq_refl)
    as (Hflag & Hmethod & _ & _ & Hopenai & _).
  fold v in Hflag, Hmethod, Hopenai.
  assert (Hf : v_flagged v = true).
  { apply Hflag. right. apply Exists_exists. exists ("harassment", (5 # 100)%Q).
    split; [unfold Moderation.CUSTOM_THRESHOLDS; rewrite !elem_of_cons; tauto|].
    vm_compute. reflexivity. }
  rewrite Hf in Hmethod. repeat split; assumption.
Defined.

(** X2. [moderate_text] calls the classifier exactly once, with the input
    text itself, when no rule group matches, and not at all when one does;
    apart from that log entry it leaves the clock, the files, the caches
    and the speech-to-text count as they were, and the verdict echoes the
    text and records whether the call was made. *)
Theorem moderate_text_call_accounting (E : Env) (text : string) (w : World) :
  let matched := existsb (fun r => r.2) (Spec.group_results E text) in
  let '(v, w') := Moderation.moderate_text E text w in
  trace w' = (trace w ++ (if matched then [] else [EvModeration text]))%list
  /\ moderation_calls w' = ((if matched then 0 else 1) + moderation_calls w)%nat
  /\ now w' = now w /\ stt_calls w' = stt_calls w /\ files w' = files w
  /\ ft_transcription_cache w' = ft_transcription_cache w
  /\ ft_cache_timestamps w' = ft_cache_timestamps w
  /\ twm_transcription_cache w' = twm_transcription_cache w
  /\ twm_moderation_cache w' = twm_moderation_cache w
  /\ twm_cache_timestamps w' = twm_cache_timestamps w
  /\ v_text v = text
  /\ (matched = true -> v_flagged v = true)
  /\ v_api_call_made v = (if matched then None else Some true).
Proof.
  intros matched.
  destruct matched eqn:Hm; subst matched.
  - apply some_group_matches_iff in Hm.
    rewrite (moderate_text_pattern_path E text w Hm). cbn.
    rewrite app_nil_r. repeat split.
  - apply no_group_matches_iff in Hm.
    rewrite (moderate_text_classifier_path E text w Hm).
    destruct (Moderation.openai_context_analysis E text w).1 as [[flagged data] reason].
    cbn. repeat split. discriminate.
Qed.

(** ** Validation of the audio file *)

(** The class of the exception [_validate_audio_file] raises. *)
Lemma validate_audio_file_class (E : Env) (file_path : string) (w : World) :
  match Transcription._validate_audio_file E file_path w, files w !! file_path with
  | None, _ => True
  | Some (c, msg), None =>
      c = FileNotFoundError /\ msg = "Audio file not found: " +:+ file_path
  | Some (c, _), Some _ => c = ValueError
  end.
Proof.
  unfold Transcription._validate_audio_file.
  destruct (files w !! file_path) as [st|]; [|split; reflexivity].
  destruct (negb _); [reflexivity|]. now destruct (_ <? _)%Z.
Qed.


(** X4. A request that fails validation never reaches preprocessing or the
    provider: [transcribe_audio] returns the typed error for the exception
    ("FileNotFoundError" for a missing file, "ValidationError" for a bad
    format or size) naming the request's path, and the world is exactly as
    before. *)
Theorem transcribe_audio_rejects_invalid (E : Env) (request : TranscriptionRequest)
        (w : World) (c : exn_class) (msg : string) :
  Transcription._validate_audio_file E (audio_file_path request) w = Some (c, msg) ->
  Transcription.transcribe_audio E request w
  = (inr {| error_type :=
              (match files w !! audio_file_path request with
               | None => "FileNotFoundError"
               | Some _ => "ValidationError"
               end);
            error_message := msg;
            er_file_path := Some (audio_file_path request);
            er_stage := None |}, w).
Proof.
  intros Hv.
  pose proof (validate_audio_file_class E (audio_file_path request) w) as Hclass.
  unfold Transcription.transcribe_audio, bind, get_world, ret. rewrite Hv in Hclass |- *.
  destruct (files w !! audio_file_path request); [subst c | destruct Hclass as [-> _]];
    reflexivity.
Qed.

Lemma transcribe_audio_rejects_invalid_witness :
  let E := Demo.env Demo.moderation_down (Demo.stt_ok "hi") in
  let missing :=
    {| audio_file_path := "/tmp/gone.wav"; language := None; prompt := None;
       response_format := "text"; temperature := PyInt 0 |} in
  exists err,
    Transcription.transcribe_audio E missing Demo.world = (inr err, Demo.world)
    /\ error_type err = "FileNotFoundError"
    /\ error_message err = "Audio file not found: /tmp/gone.wav".
Proof.
  intros E missing. eexists. split.
  - apply (transcribe_audio_rejects_invalid E missing Demo.world FileNotFoundError
             "Audio file not found: /tmp/gone.wav").
    vm_compute. reflexivity.
  - split; vm_compute; reflexivity.
Defined.

(** ** The retry loop and the response *)

(** A loop that returns did so at one of its three attempts. *)
Lemma retry_loop_returns (E : Env) (p : string) (params : transcription_params)
      (w w' : World) (o : option whisper_response) :
  Transcription.retry_loop E p params (seq 0 (Transcription.max_retries + 1)) w
  = (Returned o, w') ->
  exists k t,
    (k < 3)%nat /\ o = Some t
    /\ (transcriptions_create E (k + stt_calls w) p params).1 = Returned t
    /\ stt_calls w' = (S k + stt_calls w)%nat.
Proof.
  unfold Transcription.max_retries.
  cbn [seq Nat.add Transcription.retry_loop].
  unfold bind, Transcription.create_transcription, time_sleep, ret,
    Transcription.max_retries.
  attempt E p params; try discriminate; [found 0%nat| |].
  all: attempt E p params; try discriminate; [found 1%nat| |].
  all: attempt E p params; try discriminate; found 2%nat.
Qed.

(** What [extract_results] reads off a provider answer, by requested
    format. *)
Lemma extract_results_formats (request : TranscriptionRequest) (t : whisper_response) :
  let actual_format :=
    if bool_decide (response_format request ∈ ["json"; "verbose_json"])
       || String.eqb (response_format request) "text"
    then "verbose_json" else response_format request in
  let r := Transcription.extract_results request actual_format (Some t) in
  (response_format request ∈ ["text"; "json"; "verbose_json"] ->
   r.1.1 = default (wr_str t) (wr_text t)
   /\ r.1.2 = match wr_text t with Some _ => wr_language t | None => None end)
  /\ (response_format request ∈ ["srt"; "vtt"] ->
      r.1.1 = wr_str t /\ r.1.2 = None).
Proof.
  intros actual_format r. subst r actual_format.
  unfold Transcription.extract_results. cbn [mbind option_bind].
  split; intros Hin.
  - assert (Hv : bool_decide (response_format request ∈ ["json"; "verbose_json"])
                 || String.eqb (response_format request) "text" = true).
    { rewrite !elem_of_cons, elem_of_nil in Hin.
      destruct Hin as [-> | [-> | [-> | []]]]; reflexivity. }
    rewrite Hv. cbn [String.eqb Ascii.eqb Bool.eqb].
    destruct (wr_text t); split; reflexivity.
  - rewrite !elem_of_cons, elem_of_nil in Hin.
    destruct Hin as [-> | [-> | []]]; split; reflexivity.
Qed.

(** X5. A successful [transcribe_audio] answers for the request it was
    given: the response carries [success = True], the request's own path
    and requested format (not the [verbose_json] asked of the provider) and
    the duration measured by preprocessing; its transcript comes from a
    provider answer obtained at one of at most three attempts, the [text]
    attribute (or the printed object when there is none) for the formats
    text, json and verbose_json, with the provider's language, and the
    printed object with no language for srt and vtt. *)
Theorem transcribe_audio_success_shape (E : Env) (request : TranscriptionRequest)
        (w w' : World) (response : TranscriptionResponse) :
  Transcription.transcribe_audio E request w = (inl response, w') ->
  let p := (Spec.provider_arguments E request).1 in
  let params := (Spec.provider_arguments E request).2 in
  rs_success response = true
  /\ rs_file_path response = audio_file_path request
  /\ rs_response_format response = response_format request
  /\ rs_duration response = Some (preprocess_audio E (audio_file_path request)).2
  /\ exists k t,
      (k < 3)%nat
      /\ (transcriptions_create E (k + stt_calls w) p params).1 = Returned t
      /\ stt_calls w' = (S k + stt_calls w)%nat
      /\ (response_format request ∈ ["text"; "json"; "verbose_json"] ->
          rs_transcript response = Some (default (wr_str t) (wr_text t))
          /\ rs_language_detected response
             = match wr_text t with Some _ => wr_language t | None => None end)
      /\ (response_format request ∈ ["srt"; "vtt"] ->
          rs_transcript response = Some (wr_str t)
          /\ rs_language_detected response = None).
Proof.
  intros Hrun p params. subst p params. unfold Spec.provider_arguments. cbn [fst snd].
  revert Hrun. unfold Transcription.transcribe_audio, bind, get_world, ret.
  destruct (Transcription._validate_audio_file E (audio_file_path request) w)
    as [[c msg]|]; [discriminate|].
  destruct (preprocess_audio E (audio_file_path request)) as [p duration]. cbn [fst snd].
  match goal with
  | |- context [Transcription.prepare_params E request ?f] =>
      set (params := Transcription.prepare_params E request f)
  end.
  destruct (Transcription.retry_loop E p params _ w) as [[o|c msg] w1] eqn:Hloop;
    [|discriminate].
  apply retry_loop_returns in Hloop as (k & t & Hk & -> & Hcall & Hcalls).
  pose proof (extract_results_formats request t) as Hfmt. cbv zeta in Hfmt.
  destruct (Transcription.extract_results request _ (Some t)) as [[text lang] conf].
  cbn [fst snd] in Hfmt. destruct Hfmt as [Hverbose Hraw]. intros [= <- <-].
  cbn [rs_success rs_file_path rs_response_format rs_duration rs_transcript
       rs_language_detected].
  do 4 (split; [reflexivity|]). exists k, t.
  do 3 (split; [assumption|]). split.
  - intros Hin. destruct (Hverbose Hin) as [-> ->]. split; reflexivity.
  - intros Hin. destruct (Hraw Hin) as [-> ->]. split; reflexivity.
Qed.

Lemma transcribe_audio_success_shape_witness :
  let E := Demo.env Demo.moderation_down (Demo.stt_script [RateLimitError] "hi") in
  let run := Transcription.transcribe_audio E Demo.request Demo.world in
  run.1 = inl demo_response
  /\ exists k, (k < 3)%nat /\ stt_calls run.2 = S k.
Proof.
  intros E run.
  assert (Hrun : Transcription.transcribe_audio E Demo.request Demo.world
                 = (inl demo_response, run.2)) by (vm_compute; reflexivity).
  split; [vm_compute; reflexivity|].
  destruct (transcribe_audio_success_shape E Demo.request Demo.world run.2
              demo_response Hrun) as (_ & _ & _ & _ & k & t & Hk & _ & Hcalls & _).
  exists k. split; [exact Hk|]. rewrite Hcalls. cbn [stt_calls Demo.world]. lia.
Defined.





(** X7. The pauses of one [transcribe_audio] add up to at most 6 seconds:
    what it appends to the event log consists of provider attempts on the
    preprocessed file and of sleeps of 2 or 4 seconds, and it never calls
    the classifier. *)
Theorem transcribe_audio_backoff_bound (E : Env) (request : TranscriptionRequest)
        (w : World) :
  exists new,
    trace (Transcription.transcribe_audio E request w).2 = (trace w ++ new)%list
    /\ (slept new <= 6)%Q
    /\ Forall (fun e => match e with
                        | EvTranscription q => q = (Spec.provider_arguments E request).1
                        | EvSleep seconds => seconds = 2%Q \/ seconds = 4%Q
                        | EvModeration _ => False
                        end) new.
Proof.
  unfold Transcription.transcribe_audio, bind, get_world, ret.
  destruct (Transcription._validate_audio_file E (audio_file_path request) w)
    as [[c msg]|].
  { exists []. cbn. rewrite app_nil_r. repeat split; [lra | constructor]. }
  unfold Spec.provider_arguments. cbn [fst snd].
  destruct (preprocess_audio E (audio_file_path request)) as [p duration]. cbn [fst].
  match goal with
  | |- context [Transcription.prepare_params E request ?f] =>
      set (params := Transcription.prepare_params E request f)
  end.
  unfold Transcription.max_retries.
  cbn [seq Nat.add Transcription.retry_loop].
  unfold bind, Transcription.create_transcription, time_sleep, ret,
    Transcription.max_retries.
  attempt E p params.
  all: try (destruct (Transcription.extract_results _ _ _) as [[? ?] ?]).
  all: try (logged_run).
  all: attempt E p params.
  all: try (destruct (Transcription.extract_results _ _ _) as [[? ?] ?]).
  all: try (logged_run).
  all: attempt E p params.
  all: try (destruct (Transcription.extract_results _ _ _) as [[? ?] ?]).
  all: logged_run.
Qed.

(** X8. The parameters sent to the provider: the configured model, the
    given format and temperature; the language only when it is a non-empty
    string; and as prompt the default dating-app prompt when the request
    has none (or an empty one), nothing at all when the request's prompt is
    only whitespace, and the stripped prompt otherwise. *)
Theorem prepare_params_spec (E : Env) (request : TranscriptionRequest)
        (actual_format : string) :
  let params := Transcription.prepare_params E request actual_format in
  tp_model params = WHISPER_MODEL_NAME E
  /\ tp_response_format params = actual_format
  /\ tp_temperature params = temperature request
  /\ tp_language params
     = match language request with
       | Some l => if PyStr.truthy l then Some l else None
       | None => None
       end
  /\ tp_prompt params
     = match prompt request with
       | Some p =>
           if PyStr.truthy p
           then if PyStr.whitespace_only p then None else Some (PyStr.strip p)
           else Some "This is a conversation from a dating app. Include proper punctuation and capitalization."
       | None =>
           Some "This is a conversation from a dating app. Include proper punctuation and capitalization."
       end.
Proof.
  intros params. subst params. unfold Transcription.prepare_params.
  cbn [tp_model tp_response_format tp_temperature tp_language tp_prompt].
  do 3 (split; [reflexivity|]). split.
  - destruct (language request) as [l|]; [|reflexivity]. cbn [PyStr.truthy_opt].
    now destruct (PyStr.truthy l).
  - destruct (prompt request) as [p|]; [|reflexivity].
    cbn [PyStr.truthy_opt default from_option id].
    destruct (PyStr.truthy p); [|reflexivity].
    destruct (PyStr.whitespace_only p) eqn:Hws.
    + apply strip_empty_iff in Hws. now rewrite Hws.
    + destruct (PyStr.strip p) as [|c rest] eqn:Hs; [|reflexivity].
      apply strip_empty_iff in Hs. congruence.
Qed.

(** ** The caches of [fast_transcription] *)

Lemma pop_all_lookup {V} (keys : list string) (d : gmap string V) (key : string) :
  pop_all keys d !! key = if bool_decide (key ∈ keys) then None else d !! key.
Proof.
  revert d. induction keys as [|k keys IH]; intros d; [reflexivity|].
  change (pop_all (k :: keys) d) with (pop_all keys (delete k d)).
  rewrite IH. destruct (decide (key = k)) as [->|Hne].
  - rewrite lookup_delete_eq, (bool_decide_eq_true_2 (k ∈ k :: keys)) by (left).
    now destruct (bool_decide _).
  - rewrite lookup_delete_ne by congruence.
    destruct (bool_decide (key ∈ keys)) eqn:Hin.
    + apply bool_decide_eq_true in Hin.
      now rewrite bool_decide_eq_true_2 by (now right).
    + apply bool_decide_eq_false in Hin.
      rewrite bool_decide_eq_false_2; [reflexivity|].
      rewrite elem_of_cons. tauto.
Qed.

Lemma ft_expired_keys_elem (w : World) (key : string) :
  key ∈ omap (fun '(key, timestamp) =>
                if Qgtb (now w - timestamp) FastTranscription.CACHE_MAX_AGE
                   && String.prefix "transcription:" key
                then Some key else None)
             (map_to_list (ft_cache_timestamps w))
  <-> ft_purged w key = true.
Proof.
  unfold ft_purged, expired, FastTranscription.CACHE_MAX_AGE.
  rewrite list_elem_of_omap. split.
  - intros ([k ts] & Hin & Hsome). apply elem_of_map_to_list in Hin.
    destruct (Qgtb (now w - ts) 3600 && String.prefix "transcription:" k) eqn:Hexp;
      [|discriminate].
    injection Hsome as ->. now rewrite Hin.
  - destruct (ft_cache_timestamps w !! key) as [ts|] eqn:Hts; [|discriminate].
    intros Hexp. exists (key, ts). split; [now apply elem_of_map_to_list|].
    now rewrite Hexp.
Qed.

Lemma ft_cleanup_lookup (w : World) :
  let w' := (FastTranscription._cleanup_old_cache_entries w).2 in
  (forall key,
      ft_cache_timestamps w' !! key
      = if ft_purged w key then None else ft_cache_timestamps w !! key)
  /\ (forall key,
        ft_transcription_cache w' !! key
        = if ft_purged w key then None else ft_transcription_cache w !! key).
Proof.
  intros w'. subst w'. unfold FastTranscription._cleanup_old_cache_entries.
  cbn [snd set_ft ft_cache_timestamps ft_transcription_cache].
  split; intros key; rewrite pop_all_lookup; destruct (ft_purged w key) eqn:Hp.
  - now rewrite bool_decide_eq_true_2 by (now apply ft_expired_keys_elem).
  - rewrite bool_decide_eq_false_2; [reflexivity|].
    rewrite ft_expired_keys_elem. congruence.
  - now rewrite bool_decide_eq_true_2 by (now apply ft_expired_keys_elem).
  - rewrite bool_decide_eq_false_2; [reflexivity|].
    rewrite ft_expired_keys_elem. congruence.
Qed.

(** X9. [_cleanup_old_cache_entries] of [fast_transcription] removes, from
    the cache and from the timestamps alike, exactly the keys whose
    timestamp is strictly older than the TTL (and that start with
    ["transcription:"]); every other entry and the rest of the world stay
    as they are.  An entry exactly TTL old is therefore kept, although
    [_is_cache_valid] already rejects it. *)
Theorem ft_cleanup_exact (w : World) :
  let w' := (FastTranscription._cleanup_old_cache_entries w).2 in
  (forall key,
      ft_cache_timestamps w' !! key
      = if ft_purged w key then None else ft_cache_timestamps w !! key)
  /\ (forall key,
        ft_transcription_cache w' !! key
        = if ft_purged w key then None else ft_transcription_cache w !! key)
  /\ (forall key ts,
        ft_cache_timestamps w !! key = Some ts -> (now w - ts == 3600)%Q ->
        ft_cache_timestamps w' !! key = Some ts
        /\ FastTranscription._is_cache_valid key w' = false)
  /\ now w' = now w /\ files w' = files w /\ trace w' = trace w
  /\ stt_calls w' = stt_calls w /\ moderation_calls w' = moderation_calls w
  /\ twm_transcription_cache w' = twm_transcription_cache w
  /\ twm_moderation_cache w' = twm_moderation_cache w
  /\ twm_cache_timestamps w' = twm_cache_timestamps w.
Proof.
  intros w'. destruct (ft_cleanup_lookup w) as [Hstamps Hcache]. fold w' in Hstamps, Hcache.
  split; [exact Hstamps|]. split; [exact Hcache|]. split; [|repeat split].
  intros key ts Hts Hage.
  assert (Hp : ft_purged w key = false).
  { unfold ft_purged, expired. rewrite Hts.
    assert (Qgtb (now w - ts) 3600 = false) as -> by (apply Qgtb_false; lra).
    reflexivity. }
  assert (Hkept : ft_cache_timestamps w' !! key = Some ts)
    by (now rewrite Hstamps, Hp).
  split; [exact Hkept|].
  unfold FastTranscription._is_cache_valid.
  change (negb FastTranscription.ENABLE_CACHING) with false. cbv beta iota zeta.
  rewrite Hkept. change (now w') with (now w).
  apply Qltb_false. unfold FastTranscription.CACHE_MAX_AGE. lra.
Qed.

(** The world [transcribe] leaves behind: the one it found (cache hit), the
    one [transcribe_audio] left (failure), or that one with the fresh
    result stored. *)
Lemma ft_transcribe_world (E : Env) (request : TranscriptionRequest) (w w' : World)
      (r : TranscriptionResponse + StageError) :
  let params :=
    {| rp_language := language request;
       rp_response_format := response_format request;
       rp_temperature := temperature request;
       rp_prompt := prompt request |} in
  let wa := (Transcription.transcribe_audio E request w).2 in
  FastTranscription.transcribe E request w = (r, w') ->
  w' = w
  \/ w' = wa
  \/ exists d,
      w' = (FastTranscription._cache_transcription E (audio_file_path request) params d wa).2.
Proof.
  intros params wa. subst wa. unfold FastTranscription.transcribe. fold params.
  assert (Hreq : {| audio_file_path := audio_file_path request;
                    language := language request;
                    prompt := prompt request;
                    response_format := response_format request;
                    temperature := temperature request |} = request)
    by (destruct request; reflexivity).
  rewrite Hreq. unfold Transcription.transcribe_audio_file.
  unfold bind at 1.
  rewrite (ft_get_cached_unfold E (audio_file_path request) params w).
  destruct (_ && _); [destruct (ft_transcription_cache w !! _)|];
    cbv beta iota; [intros [= _ <-]; left; reflexivity| |];
    unfold bind;
    (destruct (Transcription.transcribe_audio E request w) as [[resp|err] w1];
     [destruct (FastTranscription._cache_transcription _ _ _ _ w1) as [[] wb] eqn:Hc;
      intros [= _ <-]; right; right; eexists; cbn [snd]; rewrite Hc; reflexivity
     |intros [= _ <-]; right; left; reflexivity]).
Qed.

Lemma ft_cleanup_aligned (w : World) :
  ft_caches_aligned w ->
  ft_caches_aligned (FastTranscription._cleanup_old_cache_entries w).2.
Proof.
  intros Hal key. destruct (ft_cleanup_lookup w) as [Hstamps Hcache].
  rewrite Hstamps, Hcache. destruct (ft_purged w key); [|apply Hal].
  split; intros [? ?]; discriminate.
Qed.

Lemma ft_cache_transcription_aligned (E : Env) (file_path : string)
      (params : request_params) (d : transcription_dict) (w : World) :
  ft_caches_aligned w ->
  ft_caches_aligned (FastTranscription._cache_transcription E file_path params d w).2.
Proof.
  intros Hal. unfold FastTranscription._cache_transcription.
  change (negb FastTranscription.ENABLE_CACHING) with false. cbv beta iota zeta.
  set (key := FastTranscription.cache_key E file_path params w).
  assert (Hins : ft_caches_aligned
                   (set_ft (<[key:=d]> (ft_transcription_cache w))
                           (<[key:=now w]> (ft_cache_timestamps w)) w)).
  { intros k. cbn [set_ft ft_transcription_cache ft_cache_timestamps].
    destruct (decide (k = key)) as [->|Hne].
    - rewrite !lookup_insert_eq. split; eauto.
    - rewrite !lookup_insert_ne by congruence. apply Hal. }
  destruct (_ <? _)%nat; [now apply ft_cleanup_aligned | exact Hins].
Qed.

Lemma aligned_same_store (w w' : World) :
  same_store w w' -> ft_caches_aligned w -> ft_caches_aligned w'.
Proof.
  intros (_ & _ & Hc & Hs & _) Hal key. rewrite Hc, Hs. apply Hal.
Qed.

(** X10. The two dictionaries of [fast_transcription] stay aligned: if
    every key has a cached value exactly when it has a timestamp, this
    still holds after [transcribe], after the clean-up and after
    [clear_cache]; and in such a state the two sizes that
    [get_cache_stats] reports are equal. *)
Theorem ft_caches_stay_aligned (E : Env) (request : TranscriptionRequest) (w : World) :
  ft_caches_aligned w ->
  ft_caches_aligned (FastTranscription.transcribe E request w).2
  /\ ft_caches_aligned (FastTranscription._cleanup_old_cache_entries w).2
  /\ ft_caches_aligned (FastTranscriptionApi.clear_cache w).2
  /\ fs_transcription_cache_size (FastTranscriptionApi.get_cache_stats w).1
     = fs_total_cache_entries (FastTranscriptionApi.get_cache_stats w).1.
Proof.
  intros Hal. split; [|split; [now apply ft_cleanup_aligned|split]].
  - pose proof (transcribe_audio_same_store E request w) as Hsame.
    destruct (FastTranscription.transcribe E request w) as [r w'] eqn:Hrun.
    cbn [snd].
    destruct (ft_transcribe_world E request w w' r Hrun) as [-> | [-> | [d ->]]].
    + exact Hal.
    + exact (aligned_same_store _ _ Hsame Hal).
    + apply ft_cache_transcription_aligned. exact (aligned_same_store _ _ Hsame Hal).
  - intros key. cbn [FastTranscriptionApi.clear_cache snd set_ft
                     ft_transcription_cache ft_cache_timestamps].
    rewrite !lookup_empty. split; intros [? ?]; discriminate.
  - cbn [FastTranscriptionApi.get_cache_stats fst fs_transcription_cache_size
         fs_total_cache_entries].
    rewrite <- !size_dom. f_equal. apply set_eq. intros key.
    rewrite !elem_of_dom. apply Hal.
Qed.

Lemma ft_caches_stay_aligned_witness :
  let E := Demo.env Demo.moderation_down (Demo.stt_ok "hi") in
  let w' := (FastTranscription.transcribe E Demo.request Demo.world).2 in
  ft_caches_aligned w'
  /\ size (ft_transcription_cache w') = 1%nat
  /\ size (ft_cache_timestamps w') = 1%nat.
Proof.
  intros E w'. split; [|split; vm_compute; reflexivity].
  refine (proj1 (ft_caches_stay_aligned E Demo.request Demo.world _)).
  intros key. change (ft_transcription_cache Demo.world) with (∅ : gmap string transcription_dict).
  change (ft_cache_timestamps Demo.world) with (∅ : gmap string Q).
  rewrite !lookup_empty. split; intros [? ?]; discriminate.
Defined.



(** ** The caches of [transcription_with_moderation] *)

Lemma prefix_append (a b : string) : String.prefix a (a +:+ b) = true.
Proof.
  induction a as [|c a IH]; [now destruct b|].
  change (String c a +:+ b) with (String c (a +:+ b)).
  cbn [String.prefix]. destruct (ascii_dec c c); [exact IH | congruence].
Qed.

Lemma moderation_not_transcription (key : string) :
  String.prefix "moderation:" key = true -> String.prefix "transcription:" key = false.
Proof.
  destruct key as [|c key]; [discriminate|]. cbn [String.prefix].
  destruct (ascii_dec "m" c) as [<-|]; [reflexivity | discriminate].
Qed.

Lemma twm_cache_key_prefix (E : Env) (file_path : string) (params : request_params)
      (w : World) :
  String.prefix "transcription:"
    (TranscriptionWithModeration.cache_key E file_path params w) = true.
Proof.
  unfold TranscriptionWithModeration.cache_key.
  destruct (TranscriptionWithModeration._get_file_info file_path w).
  apply prefix_append.
Qed.

Lemma moderation_key_prefix (E : Env) (text : string) :
  String.prefix "moderation:" (TranscriptionWithModeration.moderation_key E text) = true.
Proof. apply prefix_append. Qed.

Lemma bool_decide_bool (P : Prop) `{Decision P} (b : bool) :
  (P <-> b = true) -> bool_decide P = b.
Proof.
  intros HP. destruct b.
  - apply bool_decide_eq_true. now apply HP.
  - apply bool_decide_eq_false. intros HP'. apply HP in HP'. discriminate.
Qed.

Lemma twm_expired_keys_elem (w : World) (key : string) :
  key ∈ omap (fun '(key, timestamp) =>
                if Qgtb (now w - timestamp) TranscriptionWithModeration.CACHE_MAX_AGE
                then Some key else None)
             (map_to_list (twm_cache_timestamps w))
  <-> twm_purged w key = true.
Proof.
  unfold twm_purged, expired, TranscriptionWithModeration.CACHE_MAX_AGE.
  rewrite list_elem_of_omap. split.
  - intros ([k ts] & Hin & Hsome). apply elem_of_map_to_list in Hin.
    destruct (Qgtb (now w - ts) 3600) eqn:Hexp; [|discriminate].
    injection Hsome as ->. now rewrite Hin.
  - destruct (twm_cache_timestamps w !! key) as [ts|] eqn:Hts; [|discriminate].
    intros Hexp. exists (key, ts). split; [now apply elem_of_map_to_list|].
    now rewrite Hexp.
Qed.

(** What the clean-up of [transcription_with_moderation] leaves in each
    dictionary. *)
Lemma twm_cleanup_lookup (w : World) :
  let w' := (TranscriptionWithModeration._cleanup_old_cache_entries w).2 in
  (forall key,
      twm_cache_timestamps w' !! key
      = if twm_purged w key then None else twm_cache_timestamps w !! key)
  /\ (forall key,
        twm_transcription_cache w' !! key
        = if twm_purged w key && String.prefix "transcription:" key
          then None else twm_transcription_cache w !! key)
  /\ (forall key,
        twm_moderation_cache w' !! key
        = if twm_purged w key && negb (String.prefix "transcription:" key)
             && String.prefix "moderation:" key
          then None else twm_moderation_cache w !! key).
Proof.
  intros w'. subst w'. unfold TranscriptionWithModeration._cleanup_old_cache_entries.
  cbn [snd set_twm twm_cache_timestamps twm_transcription_cache twm_moderation_cache].
  split; [|split]; intros key; rewrite pop_all_lookup.
  - now rewrite (bool_decide_bool _ (twm_purged w key)) by apply twm_expired_keys_elem.
  - rewrite (bool_decide_bool _ (twm_purged w key && String.prefix "transcription:" key));
      [reflexivity|].
    rewrite list_elem_of_filter, twm_expired_keys_elem, andb_true_iff. tauto.
  - rewrite (bool_decide_bool _ (twm_purged w key
                                 && negb (String.prefix "transcription:" key)
                                 && String.prefix "moderation:" key));
      [reflexivity|].
    rewrite list_elem_of_filter, twm_expired_keys_elem, !andb_true_iff, negb_true_iff.
    tauto.
Qed.

Lemma twm_cleanup_wf (w : World) :
  twm_caches_wf w ->
  twm_caches_wf (TranscriptionWithModeration._cleanup_old_cache_entries w).2.
Proof.
  intros (Ht & Hm & Hs). destruct (twm_cleanup_lookup w) as (Hstamps & Htc & Hmc).
  split; [|split]; intros key.
  - rewrite Htc, Hstamps. destruct (twm_purged w key) eqn:Hp.
    + cbn [andb]. intros Hsome.
      destruct (String.prefix "transcription:" key) eqn:Hpre;
        [destruct Hsome; discriminate|].
      apply Ht in Hsome as [Hpre' _]. congruence.
    + cbn [andb]. apply Ht.
  - rewrite Hmc, Hstamps. destruct (twm_purged w key) eqn:Hp.
    + cbn [andb]. intros Hsome.
      destruct (negb (String.prefix "transcription:" key)
                && String.prefix "moderation:" key) eqn:Hpre;
        [destruct Hsome; discriminate|].
      apply Hm in Hsome as [Hpre' _].
      rewrite Hpre', (moderation_not_transcription key Hpre') in Hpre. discriminate.
    + cbn [andb]. apply Hm.
  - rewrite Hstamps, Htc, Hmc. destruct (twm_purged w key).
    + intros [? ?]; discriminate.
    + cbn [andb]. apply Hs.
Qed.

Lemma twm_store_transcription_wf (key : string) (d : transcription_dict) (ts : Q)
      (w : World) :
  String.prefix "transcription:" key = true ->
  twm_caches_wf w ->
  twm_caches_wf (set_twm (<[key := d]> (twm_transcription_cache w))
                         (twm_moderation_cache w)
                         (<[key := ts]> (twm_cache_timestamps w)) w).
Proof.
  intros Hpre (Ht & Hm & Hs).
  split; [|split]; intros k;
    cbn [set_twm twm_cache_timestamps twm_transcription_cache twm_moderation_cache];
    destruct (decide (k = key)) as [->|Hne];
    rewrite ?lookup_insert_eq, ?lookup_insert_ne by congruence; eauto.
  intros Hsome. apply Hm in Hsome as [? _]. eauto.
Qed.

Lemma twm_store_moderation_wf (key : string) (v : verdict) (ts : Q) (w : World) :
  String.prefix "moderation:" key = true ->
  twm_caches_wf w ->
  twm_caches_wf (set_twm (twm_transcription_cache w)
                         (<[key := v]> (twm_moderation_cache w))
                         (<[key := ts]> (twm_cache_timestamps w)) w).
Proof.
  intros Hpre (Ht & Hm & Hs).
  split; [|split]; intros k;
    cbn [set_twm twm_cache_timestamps twm_transcription_cache twm_moderation_cache];
    destruct (decide (k = key)) as [->|Hne];
    rewrite ?lookup_insert_eq, ?lookup_insert_ne by congruence; eauto.
  intros Hsome. apply Ht in Hsome as [? _]. eauto.
Qed.

Lemma twm_cache_transcription_wf (E : Env) (file_path : string)
      (params : request_params) (d : transcription_dict) (w : World) :
  twm_caches_wf w ->
  twm_caches_wf (TranscriptionWithModeration._cache_transcription E file_path params d w).2.
Proof.
  intros Hwf. unfold TranscriptionWithModeration._cache_transcription.
  change (negb TranscriptionWithModeration.ENABLE_CACHING) with false.
  cbv beta iota zeta.
  pose proof (twm_store_transcription_wf _ d (now w) w
                (twm_cache_key_prefix E file_path params w) Hwf) as Hins.
  destruct (_ <? _)%nat; [now apply twm_cleanup_wf | exact Hins].
Qed.

Lemma twm_cache_moderation_wf (E : Env) (text : string) (v : verdict) (w : World) :
  twm_caches_wf w ->
  twm_caches_wf (TranscriptionWithModeration._cache_moderation E text v w).2.
Proof.
  intros Hwf. unfold TranscriptionWithModeration._cache_moderation.
  change (negb TranscriptionWithModeration.ENABLE_CACHING) with false.
  cbv beta iota zeta.
  pose proof (twm_store_moderation_wf _ v (now w) w (moderation_key_prefix E text) Hwf)
    as Hins.
  destruct (_ <? _)%nat; [now apply twm_cleanup_wf | exact Hins].
Qed.

Lemma wf_same_store (w w' : World) :
  same_store w w' -> twm_caches_wf w -> twm_caches_wf w'.
Proof.
  intros (_ & _ & _ & _ & Ht & Hm & Hs). unfold twm_caches_wf.
  now rewrite Ht, Hm, Hs.
Qed.

Lemma twm_get_cached_transcription_unfold (E : Env) (file_path : string)
      (params : request_params) (w : World) :
  let key := TranscriptionWithModeration.cache_key E file_path params w in
  TranscriptionWithModeration._get_cached_transcription E file_path params w
  = (if TranscriptionWithModeration._is_cache_valid key w
        && bool_decide (is_Some (twm_transcription_cache w !! key))
     then twm_transcription_cache w !! key else None, w).
Proof.
  intros key. unfold TranscriptionWithModeration._get_cached_transcription.
  change (negb TranscriptionWithModeration.ENABLE_CACHING) with false.
  cbv beta iota zeta. fold key. now destruct (_ && _).
Qed.

Lemma twm_get_cached_moderation_unfold (E : Env) (text : string) (w : World) :
  let key := TranscriptionWithModeration.moderation_key E text in
  TranscriptionWithModeration._get_cached_moderation E text w
  = (if TranscriptionWithModeration._is_cache_valid key w
        && bool_decide (is_Some (twm_moderation_cache w !! key))
     then twm_moderation_cache w !! key else None, w).
Proof.
  intros key. unfold TranscriptionWithModeration._get_cached_moderation.
  change (negb TranscriptionWithModeration.ENABLE_CACHING) with false.
  cbv beta iota zeta. fold key. now destruct (_ && _).
Qed.

Lemma moderate_text_world (E : Env) (text : string) (w : World) :
  (Moderation.moderate_text E text w).2 = w
  \/ (Moderation.moderate_text E text w).2 = log_event (EvModeration text) w.
Proof.
  destruct (Moderation.check_custom_patterns_only E text).1.1 eqn:Hm.
  - left. now rewrite (moderate_text_pattern_path E text w Hm).
  - right. rewrite (moderate_text_classifier_path E text w Hm).
    now destruct (Moderation.openai_context_analysis E text w).1 as [[? ?] ?].
Qed.

(** The three ways [_fast_moderate_text] ends: the blank guard, a cache
    hit, or a fresh verdict that is stored. *)
Lemma fast_moderate_run (E : Env) (text : string) (w w' : World) (v : verdict) :
  TranscriptionWithModeration._fast_moderate_text E text w = (v, w') ->
  (PyStr.whitespace_only text = true /\ w' = w /\ v = empty_text_verdict text)
  \/ (PyStr.whitespace_only text = false
      /\ TranscriptionWithModeration._get_cached_moderation E text w = (Some v, w)
      /\ w' = w)
  \/ (PyStr.whitespace_only text = false
      /\ (TranscriptionWithModeration._get_cached_moderation E text w).1 = None
      /\ exists wm,
          (wm = w \/ wm = log_event (EvModeration text) w)
          /\ w' = (TranscriptionWithModeration._cache_moderation E text v wm).2).
Proof.
  unfold TranscriptionWithModeration._fast_moderate_text.
  destruct (PyStr.whitespace_only text) eqn:Hws.
  - assert (Hg : negb (PyStr.truthy text) || negb (PyStr.truthy (PyStr.strip text)) = true)
      by (now apply blank_guard_iff).
    rewrite Hg. intros [= <- <-]. left. repeat split.
  - rewrite (blank_guard_false text Hws). right. revert H.
    unfold bind at 1.
    destruct (TranscriptionWithModeration._get_cached_moderation E text w)
      as [cached w0] eqn:Hlookup.
    assert (Hw0 : w0 = w).
    { rewrite twm_get_cached_moderation_unfold in Hlookup. now injection Hlookup. }
    subst w0. destruct cached as [cached|].
    + intros [= <- <-]. left. repeat split.
    + right. split; [reflexivity|]. split; [reflexivity|]. revert H.
      change TranscriptionWithModeration.ENABLE_FAST_MODERATION with true.
      cbv beta iota.
      destruct (Moderation.check_custom_patterns_only E text) as [[[] flags] reason].
      * unfold bind, ret.
        destruct (TranscriptionWithModeration._cache_moderation E text _ w) as [[] wb] eqn:Hc.
        intros [= <- <-]. exists w. split; [now left|]. now rewrite Hc.
      * unfold bind at 1.
        pose proof (moderate_text_world E text w) as Hworld.
        destruct (Moderation.moderate_text E text w) as [v1 w1]. cbn [snd] in Hworld.
        unfold bind, ret.
        destruct (TranscriptionWithModeration._cache_moderation E text v1 w1)
          as [[] wb] eqn:Hc.
        intros [= <- <-]. exists w1. split; [exact Hworld|]. now rewrite Hc.
Qed.

(** The ways [transcribe_and_moderate] ends: a failed transcription, or a
    transcription (cached, or fresh and then stored) followed by
    [_fast_moderate_text] on its transcript. *)
Lemma twm_run (E : Env) (request : TranscriptionRequest) (w w' : World)
      (r : TranscriptionWithModerationResponse + StageError) :
  let lookup :=
    TranscriptionWithModeration._get_cached_transcription
      E (audio_file_path request) (params_of request) w in
  TranscriptionWithModeration.transcribe_and_moderate E request w = (r, w') ->
  (exists err,
      lookup.1 = None
      /\ Transcription.transcribe_audio E request w = (inr err, w')
      /\ r = inr (transcription_stage_error request err))
  \/ (exists d wt v,
        (lookup = (Some d, w) /\ wt = w
         \/ exists resp wa,
             lookup.1 = None
             /\ Transcription.transcribe_audio E request w = (inl resp, wa)
             /\ d = dict_of_response resp
             /\ wt = (TranscriptionWithModeration._cache_transcription
                        E (audio_file_path request) (params_of request) d wa).2)
        /\ TranscriptionWithModeration._fast_moderate_text
             E (default "" (td_transcript d)) wt = (v, w')
        /\ r = inl (moderated_response d v)).
Proof.
  intros lookup. subst lookup.
  unfold TranscriptionWithModeration.transcribe_and_moderate.
  change {| rp_language := language request;
            rp_response_format := response_format request;
            rp_temperature := temperature request;
            rp_prompt := prompt request |} with (params_of request).
  assert (Hreq : {| audio_file_path := audio_file_path request;
                    language := language request;
                    prompt := prompt request;
                    response_format := response_format request;
                    temperature := temperature request |} = request)
    by (destruct request; reflexivity).
  rewrite Hreq. unfold Transcription.transcribe_audio_file.
  unfold bind at 1.
  destruct (TranscriptionWithModeration._get_cached_transcription
              E (audio_file_path request) (params_of request) w)
    as [cached w0] eqn:Hlookup.
  assert (Hw0 : w0 = w).
  { rewrite twm_get_cached_transcription_unfold in Hlookup. now injection Hlookup. }
  subst w0. destruct cached as [d|].
  - unfold bind at 1. unfold ret at 1. intros Hrun. right.
    unfold bind in Hrun.
    destruct (TranscriptionWithModeration._fast_moderate_text
                E (default "" (td_transcript d)) w) as [v w1] eqn:Hmod.
    injection Hrun as <- <-. exists d, w, v. split; [now left|]. split; [exact Hmod|].
    reflexivity.
  - unfold bind at 1. unfold bind at 1.
    destruct (Transcription.transcribe_audio E request w) as [[resp|err] wa] eqn:Haudio.
    + unfold bind at 1.
      destruct (TranscriptionWithModeration._cache_transcription
                  E (audio_file_path request) (params_of request) _ wa)
        as [[] wb] eqn:Hc.
      unfold ret at 1. intros Hrun. right. unfold bind in Hrun.
      destruct (TranscriptionWithModeration._fast_moderate_text
                  E (default "" (rs_transcript resp)) wb) as [v w1] eqn:Hmod.
      injection Hrun as <- <-.
      exists (dict_of_response resp), wb, v. split; [|split; [exact Hmod|reflexivity]].
      right. exists resp, wa. repeat split.
      change (dict_of_response resp) with
        {| td_transcript := rs_transcript resp;
           td_file_path := rs_file_path resp;
           td_language_detected := rs_language_detected resp;
           td_duration := rs_duration resp;
           td_response_format := rs_response_format resp |}.
      now rewrite Hc.
    + unfold ret. intros [= <- <-]. left. exists err. repeat split.
Qed.

(** X12. The clean-up of [transcription_with_moderation] drops every
    timestamp strictly older than the TTL; the matching value is dropped
    from the transcription cache when the key starts with
    ["transcription:"], and from the moderation cache when it starts with
    ["moderation:"].  Everything else is kept, and on well-formed caches an
    expired key is gone from all three dictionaries. *)
Theorem twm_cleanup_exact (w : World) :
  let w' := (TranscriptionWithModeration._cleanup_old_cache_entries w).2 in
  (forall key,
      twm_cache_timestamps w' !! key
      = if twm_purged w key then None else twm_cache_timestamps w !! key)
  /\ (forall key,
        twm_transcription_cache w' !! key
        = if twm_purged w key && String.prefix "transcription:" key
          then None else twm_transcription_cache w !! key)
  /\ (forall key,
        twm_moderation_cache w' !! key
        = if twm_purged w key && negb (String.prefix "transcription:" key)
             && String.prefix "moderation:" key
          then None else twm_moderation_cache w !! key)
  /\ (twm_caches_wf w ->
      forall key, twm_purged w key = true ->
                  twm_cache_timestamps w' !! key = None
                  /\ twm_transcription_cache w' !! key = None
                  /\ twm_moderation_cache w' !! key = None)
  /\ now w' = now w /\ files w' = files w /\ trace w' = trace w
  /\ stt_calls w' = stt_calls w /\ moderation_calls w' = moderation_calls w
  /\ ft_transcription_cache w' = ft_transcription_cache w
  /\ ft_cache_timestamps w' = ft_cache_timestamps w.
Proof.
  intros w'. destruct (twm_cleanup_lookup w) as (Hstamps & Htc & Hmc).
  fold w' in Hstamps, Htc, Hmc.
  split; [exact Hstamps|]. split; [exact Htc|]. split; [exact Hmc|].
  split; [|repeat split].
  intros (Ht & Hm & _) key Hp. rewrite Hstamps, Htc, Hmc, Hp. cbn [andb].
  split; [reflexivity|]. split.
  - destruct (String.prefix "transcription:" key) eqn:Hpre; [reflexivity|].
    destruct (twm_transcription_cache w !! key) eqn:Hv; [|reflexivity].
    destruct (Ht key) as [Hpre' _]; [eauto | congruence].
  - destruct (twm_moderation_cache w !! key) eqn:Hv;
      [|now destruct (negb _ && _)].
    destruct (Hm key) as [Hpre _]; [eauto|].
    now rewrite Hpre, (moderation_not_transcription key Hpre).
Qed.

Lemma fast_moderate_wf (E : Env) (text : string) (w : World) :
  twm_caches_wf w ->
  twm_caches_wf (TranscriptionWithModeration._fast_moderate_text E text w).2.
Proof.
  intros Hwf.
  destruct (TranscriptionWithModeration._fast_moderate_text E text w) as [v w'] eqn:Hrun.
  cbn [snd].
  destruct (fast_moderate_run E text w w' v Hrun)
    as [(_ & -> & _) | [(_ & _ & ->) | (_ & _ & wm & Hwm & ->)]];
    [exact Hwf | exact Hwf |].
  apply twm_cache_moderation_wf. destruct Hwm as [-> | ->]; exact Hwf.
Qed.

(** X13. The caches of [transcription_with_moderation] stay well formed:
    if every cached transcription sits under a ["transcription:"] key,
    every cached verdict under a ["moderation:"] key, and the timestamps
    are exactly the keys of the two, then the same holds after
    [transcribe_and_moderate], after [_fast_moderate_text], after the
    clean-up and after [clear_cache]; and in such a state the total that
    [get_cache_stats] reports is the sum of the two cache sizes. *)
Theorem twm_caches_stay_wf (E : Env) (request : TranscriptionRequest) (text : string)
        (w : World) :
  twm_caches_wf w ->
  twm_caches_wf (TranscriptionWithModeration.transcribe_and_moderate E request w).2
  /\ twm_caches_wf (TranscriptionWithModeration._fast_moderate_text E text w).2
  /\ twm_caches_wf (TranscriptionWithModeration._cleanup_old_cache_entries w).2
  /\ twm_caches_wf (TranscriptionWithModerationApi.clear_cache w).2
  /\ ts_total_cache_entries (TranscriptionWithModerationApi.get_cache_stats w).1
     = (ts_transcription_cache_size (TranscriptionWithModerationApi.get_cache_stats w).1
        + ts_moderation_cache_size (TranscriptionWithModerationApi.get_cache_stats w).1)%nat.
Proof.
  intros Hwf.
  split; [|split; [now apply fast_moderate_wf|split; [now apply twm_cleanup_wf|split]]].
  - destruct (TranscriptionWithModeration.transcribe_and_moderate E request w)
      as [r w'] eqn:Hrun.
    cbn [snd].
    destruct (twm_run E request w w' r Hrun)
      as [(err & _ & Haudio & _) | (d & wt & v & Hfirst & Hmod & _)].
    + pose proof (transcribe_audio_same_store E request w) as Hsame.
      rewrite Haudio in Hsame. exact (wf_same_store _ _ Hsame Hwf).
    + assert (Hwt : twm_caches_wf wt).
      { destruct Hfirst as [[_ ->] | (resp & wa & _ & Haudio & _ & ->)]; [exact Hwf|].
        apply twm_cache_transcription_wf.
        pose proof (transcribe_audio_same_store E request w) as Hsame.
        rewrite Haudio in Hsame. exact (wf_same_store _ _ Hsame Hwf). }
      pose proof (fast_moderate_wf E (default "" (td_transcript d)) wt Hwt) as Hend.
      now rewrite Hmod in Hend.
  - split; [|split]; intros key;
      cbn [TranscriptionWithModerationApi.clear_cache snd set_twm
           twm_transcription_cache twm_moderation_cache twm_cache_timestamps];
      rewrite lookup_empty; intros [? ?]; discriminate.
  - destruct Hwf as (Ht & Hm & Hs).
    cbn [TranscriptionWithModerationApi.get_cache_stats fst ts_total_cache_entries
         ts_transcription_cache_size ts_moderation_cache_size].
    rewrite <- !size_dom.
    rewrite <- size_union.
    + f_equal. apply set_eq. intros key. rewrite elem_of_union, !elem_of_dom.
      split; [apply Hs|]. intros [Hk | Hk]; [now apply Ht | now apply Hm].
    + intros key. rewrite !elem_of_dom. intros Hk1 Hk2.
      apply Ht in Hk1 as [Hp1 _]. apply Hm in Hk2 as [Hp2 _].
      rewrite (moderation_not_transcription key Hp2) in Hp1. discriminate.
Qed.

Lemma twm_caches_stay_wf_witness :
  let E := Demo.env Demo.moderation_clean (Demo.stt_ok "hi") in
  let w' := (TranscriptionWithModeration.transcribe_and_moderate
               E Demo.request Demo.world).2 in
  twm_caches_wf w'
  /\ size (twm_transcription_cache w') = 1%nat
  /\ size (twm_moderation_cache w') = 1%nat
  /\ size (twm_cache_timestamps w') = 2%nat.
Proof.
  intros E w'. split; [|repeat split; vm_compute; reflexivity].
  refine (proj1 (twm_caches_stay_wf E Demo.request "" Demo.world _)).
  split; [|split]; intros key;
    change (twm_transcription_cache Demo.world) with (∅ : gmap string transcription_dict);
    change (twm_moderation_cache Demo.world) with (∅ : gmap string verdict);
    change (twm_cache_timestamps Demo.world) with (∅ : gmap string Q);
    rewrite lookup_empty; intros [? ?]; discriminate.
Defined.

(** ** Lookups after a store *)

Lemma twm_cleanup_valid (w : World) (k : string) :
  let w' := (TranscriptionWithModeration._cleanup_old_cache_entries w).2 in
  TranscriptionWithModeration._is_cache_valid k w'
  = TranscriptionWithModeration._is_cache_valid k w
  /\ (TranscriptionWithModeration._is_cache_valid k w = true ->
      twm_transcription_cache w' !! k = twm_transcription_cache w !! k
      /\ twm_moderation_cache w' !! k = twm_moderation_cache w !! k).
Proof.
  intros w'. destruct (twm_cleanup_lookup w) as (Hstamps & Htc & Hmc).
  fold w' in Hstamps, Htc, Hmc.
  unfold TranscriptionWithModeration._is_cache_valid.
  change (negb TranscriptionWithModeration.ENABLE_CACHING) with false.
  cbv beta iota zeta. rewrite Hstamps, Htc, Hmc. change (now w') with (now w).
  unfold twm_purged, expired, TranscriptionWithModeration.CACHE_MAX_AGE.
  destruct (twm_cache_timestamps w !! k) as [ts|]; [|split; [reflexivity|discriminate]].
  destruct (Qgtb (now w - ts) 3600) eqn:Hexp.
  - apply Qgtb_true in Hexp.
    assert (Hlt : Qltb (now w - ts) 3600 = false) by (apply Qltb_false; lra).
    rewrite Hlt. split; [reflexivity|discriminate].
  - cbn [andb]. repeat split.
Qed.

Lemma twm_cache_moderation_other (E : Env) (text : string) (v : verdict) (w : World)
      (k : string) :
  k <> TranscriptionWithModeration.moderation_key E text ->
  let w' := (TranscriptionWithModeration._cache_moderation E text v w).2 in
  TranscriptionWithModeration._is_cache_valid k w'
  = TranscriptionWithModeration._is_cache_valid k w
  /\ (TranscriptionWithModeration._is_cache_valid k w = true ->
      twm_transcription_cache w' !! k = twm_transcription_cache w !! k
      /\ twm_moderation_cache w' !! k = twm_moderation_cache w !! k).
Proof.
  intros Hne w'. subst w'. unfold TranscriptionWithModeration._cache_moderation.
  change (negb TranscriptionWithModeration.ENABLE_CACHING) with false.
  cbv beta iota zeta.
  set (key := TranscriptionWithModeration.moderation_key E text) in *.
  set (wi := set_twm (twm_transcription_cache w) (<[key:=v]> (twm_moderation_cache w))
                     (<[key:=now w]> (twm_cache_timestamps w)) w).
  assert (Hi : TranscriptionWithModeration._is_cache_valid k wi
               = TranscriptionWithModeration._is_cache_valid k w
               /\ twm_transcription_cache wi !! k = twm_transcription_cache w !! k
               /\ twm_moderation_cache wi !! k = twm_moderation_cache w !! k).
  { unfold TranscriptionWithModeration._is_cache_valid. subst wi.
    cbn [set_twm twm_cache_timestamps twm_transcription_cache twm_moderation_cache now].
    now rewrite !lookup_insert_ne by congruence. }
  destruct Hi as (Hv & Ht & Hm).
  destruct (_ <? _)%nat; cbn [snd].
  - destruct (twm_cleanup_valid wi k) as [Hv' Hc']. rewrite Hv', Hv. split; [reflexivity|].
    intros Hvalid. rewrite <- Hv in Hvalid. destruct (Hc' Hvalid) as [-> ->]. now split.
  - split; [exact Hv|]. intros _. now split.
Qed.

Lemma twm_cache_transcription_other (E : Env) (file_path : string)
      (params : request_params) (d : transcription_dict) (w : World) (k : string) :
  k <> TranscriptionWithModeration.cache_key E file_path params w ->
  let w' := (TranscriptionWithModeration._cache_transcription E file_path params d w).2 in
  TranscriptionWithModeration._is_cache_valid k w'
  = TranscriptionWithModeration._is_cache_valid k w
  /\ (TranscriptionWithModeration._is_cache_valid k w = true ->
      twm_transcription_cache w' !! k = twm_transcription_cache w !! k
      /\ twm_moderation_cache w' !! k = twm_moderation_cache w !! k).
Proof.
  intros Hne w'. subst w'. unfold TranscriptionWithModeration._cache_transcription.
  change (negb TranscriptionWithModeration.ENABLE_CACHING) with false.
  cbv beta iota zeta.
  set (key := TranscriptionWithModeration.cache_key E file_path params w) in *.
  set (wi := set_twm (<[key:=d]> (twm_transcription_cache w)) (twm_moderation_cache w)
                     (<[key:=now w]> (twm_cache_timestamps w)) w).
  assert (Hi : TranscriptionWithModeration._is_cache_valid k wi
               = TranscriptionWithModeration._is_cache_valid k w
               /\ twm_transcription_cache wi !! k = twm_transcription_cache w !! k
               /\ twm_moderation_cache wi !! k = twm_moderation_cache w !! k).
  { unfold TranscriptionWithModeration._is_cache_valid. subst wi.
    cbn [set_twm twm_cache_timestamps twm_transcription_cache twm_moderation_cache now].
    now rewrite !lookup_insert_ne by congruence. }
  destruct Hi as (Hv & Ht & Hm).
  destruct (_ <? _)%nat; cbn [snd].
  - destruct (twm_cleanup_valid wi k) as [Hv' Hc']. rewrite Hv', Hv. split; [reflexivity|].
    intros Hvalid. rewrite <- Hv in Hvalid. destruct (Hc' Hvalid) as [-> ->]. now split.
  - split; [exact Hv|]. intros _. now split.
Qed.

(** What [_cache_moderation] leaves under its own key. *)
Lemma twm_cache_moderation_stores (E : Env) (text : string) (v : verdict) (w : World) :
  let key := TranscriptionWithModeration.moderation_key E text in
  let w' := (TranscriptionWithModeration._cache_moderation E text v w).2 in
  twm_moderation_cache w' !! key = Some v
  /\ twm_cache_timestamps w' !! key = Some (now w).
Proof.
  intros key w'. subst w'. unfold TranscriptionWithModeration._cache_moderation.
  change (negb TranscriptionWithModeration.ENABLE_CACHING) with false.
  cbv beta iota zeta. fold key.
  set (wi := set_twm (twm_transcription_cache w) (<[key:=v]> (twm_moderation_cache w))
                     (<[key:=now w]> (twm_cache_timestamps w)) w).
  assert (Hi : twm_moderation_cache wi !! key = Some v
               /\ twm_cache_timestamps wi !! key = Some (now w))
    by (subst wi; cbn [set_twm twm_cache_timestamps twm_moderation_cache];
        now rewrite !lookup_insert_eq).
  destruct (_ <? _)%nat; [|exact Hi].
  destruct (twm_cleanup_lookup wi) as (Hstamps & _ & Hmc).
  rewrite Hstamps, Hmc. destruct Hi as [Hm Hs].
  assert (Hp : twm_purged wi key = false).
  { unfold twm_purged, expired. rewrite Hs. change (now wi) with (now w).
    apply Qgtb_false. lra. }
  rewrite Hp. cbn [andb]. now split.
Qed.

(** What [_cache_transcription] leaves under its own key. *)
Lemma twm_cache_transcription_stores (E : Env) (file_path : string)
      (params : request_params) (d : transcription_dict) (w : World) :
  let key := TranscriptionWithModeration.cache_key E file_path params w in
  let w' := (TranscriptionWithModeration._cache_transcription E file_path params d w).2 in
  twm_transcription_cache w' !! key = Some d
  /\ twm_cache_timestamps w' !! key = Some (now w).
Proof.
  intros key w'. subst w'. unfold TranscriptionWithModeration._cache_transcription.
  change (negb TranscriptionWithModeration.ENABLE_CACHING) with false.
  cbv beta iota zeta. fold key.
  set (wi := set_twm (<[key:=d]> (twm_transcription_cache w)) (twm_moderation_cache w)
                     (<[key:=now w]> (twm_cache_timestamps w)) w).
  assert (Hi : twm_transcription_cache wi !! key = Some d
               /\ twm_cache_timestamps wi !! key = Some (now w))
    by (subst wi; cbn [set_twm twm_cache_timestamps twm_transcription_cache];
        now rewrite !lookup_insert_eq).
  destruct (_ <? _)%nat; [|exact Hi].
  destruct (twm_cleanup_lookup wi) as (Hstamps & Htc & _).
  rewrite Hstamps, Htc. destruct Hi as [Hm Hs].
  assert (Hp : twm_purged wi key = false).
  { unfold twm_purged, expired. rewrite Hs. change (now wi) with (now w).
    apply Qgtb_false. lra. }
  rewrite Hp. cbn [andb]. now split.
Qed.

(** Storing touches the caches of [transcription_with_moderation] only. *)
Lemma cache_transcription_outside (E : Env) (file_path : string)
      (params : request_params) (d : transcription_dict) (w : World) :
  let w' := (TranscriptionWithModeration._cache_transcription E file_path params d w).2 in
  now w' = now w /\ files w' = files w
  /\ moderation_calls w' = moderation_calls w /\ stt_calls w' = stt_calls w
  /\ trace w' = trace w
  /\ ft_transcription_cache w' = ft_transcription_cache w
  /\ ft_cache_timestamps w' = ft_cache_timestamps w.
Proof.
  unfold TranscriptionWithModeration._cache_transcription.
  change (negb TranscriptionWithModeration.ENABLE_CACHING) with false.
  cbv beta iota zeta.
  destruct (_ <? _)%nat; repeat split; reflexivity.
Qed.

Lemma twm_cache_key_files (E : Env) (file_path : string) (params : request_params)
      (w w' : World) :
  files w' !! file_path = files w !! file_path ->
  TranscriptionWithModeration.cache_key E file_path params w'
  = TranscriptionWithModeration.cache_key E file_path params w.
Proof.
  intros H. unfold TranscriptionWithModeration.cache_key,
              TranscriptionWithModeration._get_file_info.
  now rewrite H.
Qed.

Lemma twm_valid_has_timestamp (key : string) (w : World) :
  TranscriptionWithModeration._is_cache_valid key w = true ->
  exists ts, twm_cache_timestamps w !! key = Some ts /\ (now w - ts < 3600)%Q.
Proof.
  unfold TranscriptionWithModeration._is_cache_valid.
  change (negb TranscriptionWithModeration.ENABLE_CACHING) with false.
  cbv beta iota zeta.
  destruct (twm_cache_timestamps w !! key) as [ts|]; [|discriminate].
  intros H. apply Qltb_true in H. eauto.
Qed.

Lemma twm_keys_differ (E : Env) (file_path : string) (params : request_params)
      (w : World) (text : string) :
  TranscriptionWithModeration.cache_key E file_path params w
  <> TranscriptionWithModeration.moderation_key E text.
Proof.
  intros Heq. pose proof (twm_cache_key_prefix E file_path params w) as Hp.
  rewrite Heq, (moderation_not_transcription _ (moderation_key_prefix E text)) in Hp.
  discriminate.
Qed.

(** X14. Storing an entry never changes what a lookup under another key
    answers, whether or not the store ran the clean-up: caching a verdict
    leaves every transcription lookup and the lookup of every verdict
    under a different key as they were, and caching a transcription leaves
    every verdict lookup as it was. *)
Theorem twm_store_keeps_other_lookups (E : Env) (w : World) :
  (forall text v file_path params,
      (TranscriptionWithModeration._get_cached_transcription E file_path params
         (TranscriptionWithModeration._cache_moderation E text v w).2).1
      = (TranscriptionWithModeration._get_cached_transcription E file_path params w).1)
  /\ (forall text v text',
        TranscriptionWithModeration.moderation_key E text'
        <> TranscriptionWithModeration.moderation_key E text ->
        (TranscriptionWithModeration._get_cached_moderation E text'
           (TranscriptionWithModeration._cache_moderation E text v w).2).1
        = (TranscriptionWithModeration._get_cached_moderation E text' w).1)
  /\ (forall file_path params d text,
        (TranscriptionWithModeration._get_cached_moderation E text
           (TranscriptionWithModeration._cache_transcription E file_path params d w).2).1
        = (TranscriptionWithModeration._get_cached_moderation E text w).1).
Proof.
  split; [|split].
  - intros text v file_path params.
    rewrite !twm_get_cached_transcription_unfold. cbn [fst].
    destruct (cache_moderation_outside E text v w) as (_ & Hfiles & _).
    rewrite (twm_cache_key_files E file_path params w _) by (now rewrite Hfiles).
    destruct (twm_cache_moderation_other E text v w _
                (twm_keys_differ E file_path params w text)) as [Hv Hc].
    rewrite Hv.
    destruct (TranscriptionWithModeration._is_cache_valid _ w); [|reflexivity].
    destruct (Hc eq_refl) as [-> _]. reflexivity.
  - intros text v text' Hne.
    rewrite !twm_get_cached_moderation_unfold. cbn [fst].
    destruct (twm_cache_moderation_other E text v w _ Hne) as [Hv Hc].
    rewrite Hv.
    destruct (TranscriptionWithModeration._is_cache_valid _ w); [|reflexivity].
    destruct (Hc eq_refl) as [_ ->]. reflexivity.
  - intros file_path params d text.
    rewrite !twm_get_cached_moderation_unfold. cbn [fst].
    assert (Hne : TranscriptionWithModeration.moderation_key E text
                  <> TranscriptionWithModeration.cache_key E file_path params w)
      by (intros Heq; exact (twm_keys_differ E file_path params w text (eq_sym Heq))).
    destruct (twm_cache_transcription_other E file_path params d w _ Hne) as [Hv Hc].
    rewrite Hv.
    destruct (TranscriptionWithModeration._is_cache_valid _ w); [|reflexivity].
    destruct (Hc eq_refl) as [_ ->]. reflexivity.
Qed.

Lemma fast_moderate_hit (E : Env) (text : string) (w : World) (v : verdict) (ts : Q) :
  PyStr.whitespace_only text = false ->
  twm_moderation_cache w !! TranscriptionWithModeration.moderation_key E text = Some v ->
  twm_cache_timestamps w !! TranscriptionWithModeration.moderation_key E text = Some ts ->
  (now w - ts < 3600)%Q ->
  TranscriptionWithModeration._fast_moderate_text E text w = (v, w).
Proof.
  intros Hws Hv Hts Hfresh. unfold TranscriptionWithModeration._fast_moderate_text.
  rewrite (blank_guard_false text Hws).
  rewrite (bind_run _ _ w w (Some v)); [reflexivity|].
  rewrite (twm_moderation_hit_iff E text w v ts Hv Hts).
  apply Qltb_true in Hfresh. now rewrite Hfresh.
Qed.

Lemma fast_moderate_again (E : Env) (text : string) (w w1 w2 : World) (v : verdict) :
  let key := TranscriptionWithModeration.moderation_key E text in
  TranscriptionWithModeration._fast_moderate_text E text w = (v, w1) ->
  twm_moderation_cache w2 !! key = twm_moderation_cache w1 !! key ->
  twm_cache_timestamps w2 !! key = twm_cache_timestamps w1 !! key ->
  (forall ts, twm_cache_timestamps w1 !! key = Some ts -> (now w2 - ts < 3600)%Q) ->
  TranscriptionWithModeration._fast_moderate_text E text w2 = (v, w2).
Proof.
  intros key Hrun Hc Hs Httl.
  destruct (fast_moderate_run E text w w1 v Hrun)
    as [(Hws & -> & ->) | [(Hws & Hhit & ->) | (Hws & _ & wm & _ & ->)]].
  - unfold TranscriptionWithModeration._fast_moderate_text.
    assert (Hg : negb (PyStr.truthy text) || negb (PyStr.truthy (PyStr.strip text)) = true)
      by (now apply blank_guard_iff).
    now rewrite Hg.
  - rewrite twm_get_cached_moderation_unfold in Hhit. fold key in Hhit.
    destruct (TranscriptionWithModeration._is_cache_valid key w) eqn:Hvalid;
      [|discriminate].
    destruct (bool_decide _); [|discriminate]. cbn [andb] in Hhit.
    injection Hhit as Hv.
    destruct (twm_valid_has_timestamp key w Hvalid) as (ts & Hts & _).
    apply (fast_moderate_hit E text w2 v ts Hws).
    + fold key. now rewrite Hc.
    + fold key. now rewrite Hs.
    + apply Httl, Hts.
  - destruct (twm_cache_moderation_stores E text v wm) as [Hv Hts]. fold key in Hv, Hts.
    apply (fast_moderate_hit E text w2 v (now wm) Hws).
    + fold key. now rewrite Hc.
    + fold key. now rewrite Hs.
    + apply Httl, Hts.
Qed.

(** X15. Moderating the same text again while its entry is younger than
    the TTL returns the verdict of the first call and leaves the world as
    it is: nothing is stored again and the classifier is not called.  This holds for every verdict, so a verdict obtained while
    the classifier was failing (flagged = false) is served for the whole
    TTL. *)
Theorem fast_moderate_twice (E : Env) (text : string) (w w1 w2 : World) (v : verdict) :
  let key := TranscriptionWithModeration.moderation_key E text in
  TranscriptionWithModeration._fast_moderate_text E text w = (v, w1) ->
  twm_moderation_cache w2 !! key = twm_moderation_cache w1 !! key ->
  twm_cache_timestamps w2 !! key = twm_cache_timestamps w1 !! key ->
  (forall ts, twm_cache_timestamps w1 !! key = Some ts -> (now w2 - ts < 3600)%Q) ->
  TranscriptionWithModeration._fast_moderate_text E text w2 = (v, w2).
Proof. exact (fast_moderate_again E text w w1 w2 v). Qed.

Lemma fast_moderate_twice_witness :
  let E := Demo.env moderation_recovers (Demo.stt_ok "hi") in
  let first := TranscriptionWithModeration._fast_moderate_text E "see you at noon" Demo.world in
  let w2 := elapse 3598 first.2 in
  TranscriptionWithModeration._fast_moderate_text E "see you at noon" w2 = (first.1, w2)
  /\ v_flagged first.1 = false
  /\ moderation_calls w2 = 1%nat
  /\ (exists result, moderations_create E (moderation_calls w2) "see you at noon"
                     = Returned result /\ mr_flagged result = true).
Proof.
  intros E first w2.
  split; [|split; [vm_compute; reflexivity|split; [vm_compute; reflexivity|]]].
  - refine (fast_moderate_twice E "see you at noon" Demo.world first.2 w2 first.1
              _ eq_refl eq_refl _).
    + apply surjective_pairing.
    + intros ts Hts. vm_compute in Hts. injection Hts as <-. vm_compute. reflexivity.
  - eexists. split; [vm_compute; reflexivity|reflexivity].
Defined.

(** ** The two services end to end *)

Lemma request_eta (request : TranscriptionRequest) :
  {| audio_file_path := audio_file_path request;
     language := language request;
     prompt := prompt request;
     response_format := response_format request;
     temperature := temperature request |} = request.
Proof. now destruct request. Qed.

Lemma ft_lookup_world (E : Env) (file_path : string) (params : request_params) (w : World) :
  FastTranscription._get_cached_transcription E file_path params w
  = ((FastTranscription._get_cached_transcription E file_path params w).1, w).
Proof. now rewrite ft_get_cached_unfold. Qed.

Lemma twm_lookup_world (E : Env) (file_path : string) (params : request_params)
      (w : World) :
  TranscriptionWithModeration._get_cached_transcription E file_path params w
  = ((TranscriptionWithModeration._get_cached_transcription E file_path params w).1, w).
Proof. now rewrite twm_get_cached_transcription_unfold. Qed.

(** X16. When the transcription cache misses and [transcribe_audio] fails,
    both fast services stop there: they return the error of the
    transcription with stage ["transcription"], the message prefixed by
    ["Transcription failed: "] and the request's path; the classifier is
    not called and no cache is written. *)
Theorem transcription_failure_stops (E : Env) (request : TranscriptionRequest)
        (w wa : World) (err : TranscriptionError) :
  Transcription.transcribe_audio E request w = (inr err, wa) ->
  ((FastTranscription._get_cached_transcription
      E (audio_file_path request) (params_of request) w).1 = None ->
   FastTranscription.transcribe E request w
   = (inr (transcription_stage_error request err), wa))
  /\ ((TranscriptionWithModeration._get_cached_transcription
         E (audio_file_path request) (params_of request) w).1 = None ->
      TranscriptionWithModeration.transcribe_and_moderate E request w
      = (inr (transcription_stage_error request err), wa))
  /\ same_store w wa.
Proof.
  intros Haudio. split; [|split].
  - intros Hmiss. unfold FastTranscription.transcribe.
    change {| rp_language := language request;
              rp_response_format := response_format request;
              rp_temperature := temperature request;
              rp_prompt := prompt request |} with (params_of request).
    rewrite request_eta. unfold Transcription.transcribe_audio_file.
    rewrite (bind_run _ _ w w None) by (now rewrite ft_lookup_world, Hmiss).
    now rewrite (bind_run _ _ w wa (inr err) Haudio).
  - intros Hmiss. unfold TranscriptionWithModeration.transcribe_and_moderate.
    change {| rp_language := language request;
              rp_response_format := response_format request;
              rp_temperature := temperature request;
              rp_prompt := prompt request |} with (params_of request).
    rewrite request_eta. unfold Transcription.transcribe_audio_file.
    rewrite (bind_run _ _ w w None) by (now rewrite twm_lookup_world, Hmiss).
    unfold bind at 1.
    now rewrite (bind_run _ _ w wa (inr err) Haudio).
  - pose proof (transcribe_audio_same_store E request w) as Hsame.
    now rewrite Haudio in Hsame.
Qed.

Lemma transcription_failure_stops_witness :
  let E := Demo.env Demo.moderation_clean (Demo.stt_ok "hi") in
  let request := {| audio_file_path := "/tmp/gone.wav"; language := None;
                    prompt := None; response_format := "text";
                    temperature := PyInt 0 |} in
  TranscriptionWithModeration.transcribe_and_moderate E request Demo.world
  = (inr {| se_error_type := "FileNotFoundError";
            se_error_message :=
              "Transcription failed: Audio file not found: /tmp/gone.wav";
            se_file_path := Some "/tmp/gone.wav";
            se_stage := "transcription" |}, Demo.world).
Proof.
  intros E request.
  refine (proj1 (proj2 (transcription_failure_stops E request Demo.world Demo.world
                          {| error_type := "FileNotFoundError";
                             error_message := "Audio file not found: /tmp/gone.wav";
                             er_file_path := Some "/tmp/gone.wav";
                             er_stage := None |} _)) _);
    vm_compute; reflexivity.
Defined.




(** X19. An audio whose transcript is missing, empty or only whitespace
    comes back from [transcribe_and_moderate] as safe, with the reason
    ["Empty text"], and the classifier is not called for it. *)
Theorem blank_transcript_is_safe (E : Env) (request : TranscriptionRequest)
        (w w' : World) (response : TranscriptionWithModerationResponse) :
  TranscriptionWithModeration.transcribe_and_moderate E request w = (inl response, w') ->
  PyStr.whitespace_only (default "" (mr_transcript response)) = true ->
  moderation_flagged response = false
  /\ moderation_reason response = "Empty text"
  /\ is_safe response = true
  /\ moderation_calls w' = moderation_calls w.
Proof.
  intros Hrun Hblank.
  destruct (twm_run E request w w' _ Hrun)
    as [(err & _ & _ & [=]) | (d & wt & v & Hfirst & Hmod & [= ->])].
  cbn [moderated_response mr_transcript] in Hblank.
  destruct (fast_moderate_run E _ wt w' v Hmod)
    as [(_ & -> & ->) | [(Hws & _) | (Hws & _)]]; [|congruence|congruence].
  split; [reflexivity|]. split; [reflexivity|]. split; [reflexivity|].
  destruct Hfirst as [[_ ->] | (resp & wa & _ & Haudio & _ & ->)]; [reflexivity|].
  destruct (cache_transcription_outside E (audio_file_path request) (params_of request)
              d wa) as (_ & _ & -> & _).
  pose proof (transcribe_audio_same_store E request w) as (_ & Hmc & _).
  now rewrite Haudio in Hmc.
Qed.

Lemma blank_transcript_is_safe_witness :
  let E := Demo.env Demo.moderation_harassment (Demo.stt_ok "  ") in
  let run := TranscriptionWithModeration.transcribe_and_moderate E Demo.request Demo.world in
  exists response,
    run.1 = inl response
    /\ mr_transcript response = Some "  "
    /\ is_safe response = true
    /\ moderation_reason response = "Empty text"
    /\ moderation_calls run.2 = 0%nat.
Proof.
  intros E run.
  destruct run as [[response|err] w'] eqn:Hrun; [|vm_compute in Hrun; discriminate].
  exists response. split; [reflexivity|].
  assert (Htext : mr_transcript response = Some "  ")
    by (vm_compute in Hrun; now injection Hrun as <- _).
  split; [exact Htext|].
  destruct (blank_transcript_is_safe E Demo.request Demo.world w' response Hrun)
    as (_ & Hreason & Hsafe & Hcalls); [now rewrite Htext|].
  repeat split; assumption.
Defined.

(** X20. After [clear_cache] every lookup of that service misses and its
    statistics are all zero, while the clock, the files and the caches of
    the other service are untouched. *)
Theorem clear_cache_forgets (E : Env) (w : World) :
  let wf := (FastTranscriptionApi.clear_cache w).2 in
  let wt := (TranscriptionWithModerationApi.clear_cache w).2 in
  (forall file_path params,
      FastTranscription._get_cached_transcription E file_path params wf = (None, wf))
  /\ (FastTranscriptionApi.get_cache_stats wf).1
     = {| fs_transcription_cache_size := 0; fs_total_cache_entries := 0;
          fs_cache_enabled := true |}
  /\ (forall file_path params,
        TranscriptionWithModeration._get_cached_transcription E file_path params wt
        = (None, wt))
  /\ (forall text,
        TranscriptionWithModeration._get_cached_moderation E text wt = (None, wt))
  /\ (TranscriptionWithModerationApi.get_cache_stats wt).1
     = {| ts_transcription_cache_size := 0; ts_moderation_cache_size := 0;
          ts_total_cache_entries := 0; ts_cache_enabled := true;
          ts_fast_moderation_enabled := true |}
  /\ twm_transcription_cache wf = twm_transcription_cache w
  /\ twm_moderation_cache wf = twm_moderation_cache w
  /\ twm_cache_timestamps wf = twm_cache_timestamps w
  /\ ft_transcription_cache wt = ft_transcription_cache w
  /\ ft_cache_timestamps wt = ft_cache_timestamps w
  /\ now wf = now w /\ files wf = files w /\ now wt = now w /\ files wt = files w.
Proof.
  intros wf wt.
  split; [|split; [reflexivity|split; [|split; [|split; [reflexivity|repeat split]]]]].
  - intros file_path params. rewrite ft_get_cached_unfold.
    unfold FastTranscription._is_cache_valid.
    change (ft_cache_timestamps wf) with (∅ : gmap string Q).
    now rewrite lookup_empty.
  - intros file_path params. rewrite twm_get_cached_transcription_unfold.
    unfold TranscriptionWithModeration._is_cache_valid.
    change (twm_cache_timestamps wt) with (∅ : gmap string Q).
    now rewrite lookup_empty.
  - intros text. rewrite twm_get_cached_moderation_unfold.
    unfold TranscriptionWithModeration._is_cache_valid.
    change (twm_cache_timestamps wt) with (∅ : gmap string Q).
    now rewrite lookup_empty.
Qed.

Lemma twm_transcribe_hit (E : Env) (request : TranscriptionRequest) (w w' : World)
      (d : transcription_dict) (v : verdict) :
  TranscriptionWithModeration._get_cached_transcription
    E (audio_file_path request) (params_of request) w = (Some d, w) ->
  TranscriptionWithModeration._fast_moderate_text E (default "" (td_transcript d)) w
  = (v, w') ->
  TranscriptionWithModeration.transcribe_and_moderate E request w
  = (inl (moderated_response d v), w').
Proof.
  intros Hlookup Hmod. unfold TranscriptionWithModeration.transcribe_and_moderate.
  change {| rp_language := language request;
            rp_response_format := response_format request;
            rp_temperature := temperature request;
            rp_prompt := prompt request |} with (params_of request).
  rewrite (bind_run _ _ w w (Some d) Hlookup).
  unfold bind at 1. unfold ret at 1.
  now rewrite (bind_run _ _ w w' v Hmod).
Qed.

(** X21. If [transcribe_and_moderate] succeeds, the same request for the
    same file (same path, size and modification time), made while the two
    entries it relies on are younger than the TTL, returns an equal
    response and leaves the world as it is: neither the speech-to-text
    provider nor the classifier is called again. *)
Theorem transcribe_and_moderate_twice (E : Env) (request : TranscriptionRequest)
        (w w1 w2 : World) (response : TranscriptionWithModerationResponse) :
  let tkey :=
    TranscriptionWithModeration.cache_key E (audio_file_path request) (params_of request) w in
  let mkey :=
    TranscriptionWithModeration.moderation_key E (default "" (mr_transcript response)) in
  TranscriptionWithModeration.transcribe_and_moderate E request w = (inl response, w1) ->
  twm_transcription_cache w2 = twm_transcription_cache w1 ->
  twm_moderation_cache w2 = twm_moderation_cache w1 ->
  twm_cache_timestamps w2 = twm_cache_timestamps w1 ->
  files w2 !! audio_file_path request = files w !! audio_file_path request ->
  (forall key ts, key = tkey \/ key = mkey ->
                  twm_cache_timestamps w1 !! key = Some ts -> (now w2 - ts < 3600)%Q) ->
  TranscriptionWithModeration.transcribe_and_moderate E request w2 = (inl response, w2).
Proof.
  intros tkey mkey Hrun Htc Hmc Hsc Hfiles Httl.
  destruct (twm_run E request w w1 _ Hrun)
    as [(err & _ & _ & [=]) | (d & wt & v & Hfirst & Hmod & [= ->])].
  cbn [moderated_response mr_transcript] in mkey.
  (* the transcription entry is in place, and valid, before moderation *)
  assert (Hstored : twm_transcription_cache wt !! tkey = Some d
                    /\ TranscriptionWithModeration._is_cache_valid tkey wt = true).
  { destruct Hfirst as [[Hhit ->] | (resp & wa & _ & Haudio & -> & ->)].
    - rewrite twm_get_cached_transcription_unfold in Hhit. fold tkey in Hhit.
      destruct (TranscriptionWithModeration._is_cache_valid tkey w); [|discriminate].
      destruct (bool_decide _); [|discriminate]. cbn [andb] in Hhit.
      injection Hhit as Hd. now split.
    - pose proof (transcribe_audio_same_store E request w) as (Hf & _).
      rewrite Haudio in Hf. cbn [snd] in Hf.
      assert (Hkey : TranscriptionWithModeration.cache_key
                       E (audio_file_path request) (params_of request) wa = tkey)
        by (apply twm_cache_key_files; now rewrite Hf).
      destruct (twm_cache_transcription_stores E (audio_file_path request)
                  (params_of request) (dict_of_response resp) wa) as [Hd Hts].
      destruct (cache_transcription_outside E (audio_file_path request)
                  (params_of request) (dict_of_response resp) wa) as (Hnow & _).
      rewrite Hkey in Hd, Hts. split; [exact Hd|].
      unfold TranscriptionWithModeration._is_cache_valid.
      change (negb TranscriptionWithModeration.ENABLE_CACHING) with false.
      cbv beta iota zeta. rewrite Hts, Hnow. apply Qltb_true.
      unfold TranscriptionWithModeration.CACHE_MAX_AGE. lra. }
  destruct Hstored as [Hd Hvalid].
  (* moderation keeps it *)
  assert (Hkept : twm_transcription_cache w1 !! tkey = Some d
                  /\ TranscriptionWithModeration._is_cache_valid tkey w1 = true).
  { destruct (fast_moderate_run E _ wt w1 v Hmod)
      as [(_ & -> & _) | [(_ & _ & ->) | (_ & _ & wm & Hwm & ->)]];
      [now split | now split |].
    assert (Hwm' : twm_transcription_cache wm !! tkey = Some d
                   /\ TranscriptionWithModeration._is_cache_valid tkey wm = true)
      by (destruct Hwm as [-> | ->]; now split).
    destruct Hwm' as [Hd' Hvalid'].
    destruct (twm_cache_moderation_other E (default "" (td_transcript d)) v wm tkey
                (twm_keys_differ E _ _ w _)) as [Hv Hc].
    rewrite Hv. split; [|exact Hvalid'].
    destruct (Hc Hvalid') as [-> _]. exact Hd'. }
  destruct Hkept as [Hd1 Hvalid1].
  destruct (twm_valid_has_timestamp tkey w1 Hvalid1) as (ts & Hts & _).
  assert (Hkey2 : TranscriptionWithModeration.cache_key
                    E (audio_file_path request) (params_of request) w2 = tkey)
    by (now apply twm_cache_key_files).
  apply twm_transcribe_hit.
  - rewrite (twm_lookup_hit_iff E (audio_file_path request) (params_of request) w2 d ts).
    + assert (Hfresh : (now w2 - ts < 3600)%Q) by (apply (Httl tkey); [now left|exact Hts]).
      apply Qltb_true in Hfresh. now rewrite Hfresh.
    + rewrite Hkey2, Htc. exact Hd1.
    + rewrite Hkey2, Hsc. exact Hts.
  - apply (fast_moderate_again E _ wt w1 w2 v Hmod).
    + now rewrite Hmc.
    + now rewrite Hsc.
    + intros ts' Hts'. apply (Httl mkey); [now right|exact Hts'].
Qed.

Lemma transcribe_and_moderate_twice_witness :
  let E := Demo.env moderation_recovers (Demo.stt_ok "see you at noon") in
  let first := TranscriptionWithModeration.transcribe_and_moderate E Demo.request Demo.world in
  let w2 := elapse 3598 first.2 in
  let response :=
    {| mr_success := true;
       mr_transcript := Some "see you at noon";
       mr_file_path := "/tmp/clip.wav";
       mr_language_detected := Some "english";
       mr_duration := Some 5%Q;
       mr_response_format := "text";
       moderation_flagged := false;
       moderation_reason := "Content appears safe after full analysis";
       is_safe := true |} in
  first.1 = inl response
  /\ TranscriptionWithModeration.transcribe_and_moderate E Demo.request w2
     = (inl response, w2)
  /\ stt_calls w2 = 1%nat /\ moderation_calls w2 = 1%nat.
Proof.
  intros E first w2 response.
  assert (Hfirst : first.1 = inl response) by (vm_compute; reflexivity).
  split; [exact Hfirst|]. split; [|split; vm_compute; reflexivity].
  refine (transcribe_and_moderate_twice E Demo.request Demo.world first.2 w2 response
            _ eq_refl eq_refl eq_refl _ _).
  - transitivity (first.1, first.2); [apply surjective_pairing|].
    exact (f_equal (fun r => (r, first.2)) Hfirst).
  - vm_compute. reflexivity.
  - intros key ts [-> | ->] Hts; vm_compute in Hts;
      injection Hts as <-; vm_compute; reflexivity.
Defined.

(** ** Request validation *)

Lemma lstrip_idem (l : list ascii) : PyStr.lstrip (PyStr.lstrip l) = PyStr.lstrip l.
Proof.
  induction l as [|c l IH]; [reflexivity|]. cbn [PyStr.lstrip].
  destruct (PyStr.isspace c) eqn:Hc; [exact IH|].
  cbn [PyStr.lstrip]. now rewrite Hc.
Qed.

Lemma lstrip_snoc (l : list ascii) (c : ascii) :
  PyStr.isspace c = false -> PyStr.lstrip (l ++ [c])%list = (PyStr.lstrip l ++ [c])%list.
Proof.
  intros Hc. induction l as [|d l IH]; cbn [app PyStr.lstrip].
  - now rewrite Hc.
  - now destruct (PyStr.isspace d).
Qed.

Lemma rstrip_idem (l : list ascii) : PyStr.rstrip (PyStr.rstrip l) = PyStr.rstrip l.
Proof. unfold PyStr.rstrip. now rewrite rev_involutive, lstrip_idem. Qed.

Lemma lstrip_rstrip_lstrip (l : list ascii) :
  PyStr.lstrip (PyStr.rstrip (PyStr.lstrip l)) = PyStr.rstrip (PyStr.lstrip l).
Proof.
  induction l as [|c l IH]; [reflexivity|]. cbn [PyStr.lstrip].
  destruct (PyStr.isspace c) eqn:Hc; [exact IH|].
  unfold PyStr.rstrip. cbn [rev]. rewrite (lstrip_snoc _ c Hc), rev_app_distr.
  cbn [rev app PyStr.lstrip]. now rewrite Hc.
Qed.

Lemma strip_idem (s : string) : PyStr.strip (PyStr.strip s) = PyStr.strip s.
Proof.
  unfold PyStr.strip. rewrite list_ascii_of_string_of_list_ascii.
  now rewrite lstrip_rstrip_lstrip, rstrip_idem.
Qed.








Lemma strip_blank (s : string) :
  PyStr.whitespace_only (PyStr.strip s) = PyStr.whitespace_only s.
Proof.
  destruct (PyStr.whitespace_only s) eqn:Hws.
  - apply strip_empty_iff in Hws. now rewrite Hws.
  - apply not_true_iff_false. rewrite <- strip_empty_iff, strip_idem, strip_empty_iff.
    congruence.
Qed.

(** X22. The path validator rejects, with a [ValueError], exactly the
    paths that are empty or only whitespace; every other path is accepted
    with its surrounding whitespace removed, and the accepted value is not
    empty and passes the validator unchanged. *)
Theorem validate_audio_file_path_spec (v : string) :
  match FastTranscriptionSchema.validate_audio_file_path v with
  | Raised c _ => c = ValueError /\ PyStr.whitespace_only v = true
  | Returned p =>
      PyStr.whitespace_only v = false
      /\ p = PyStr.strip v
      /\ p <> ""
      /\ FastTranscriptionSchema.validate_audio_file_path p = Returned p
  end.
Proof.
  unfold FastTranscriptionSchema.validate_audio_file_path.
  destruct (PyStr.whitespace_only v) eqn:Hws.
  - assert (Hg : negb (PyStr.truthy v) || negb (PyStr.truthy (PyStr.strip v)) = true)
      by (now apply blank_guard_iff).
    rewrite Hg. now split.
  - rewrite (blank_guard_false v Hws).
    split; [reflexivity|]. split; [reflexivity|]. split.
    + rewrite strip_empty_iff. congruence.
    + rewrite blank_guard_false by (now rewrite strip_blank).
      now rewrite strip_idem.
Qed.


(** X24. The prompt validator passes [None] through and accepts a string
    exactly when it has at most 224 characters once stripped, so a prompt
    of exactly 224 characters is accepted; what it returns is the stripped
    string, which passes the validator unchanged. *)
Theorem validate_prompt_spec (v : option string) :
  match FastTranscriptionSchema.validate_prompt v with
  | Raised c _ =>
      c = ValueError /\ exists s, v = Some s /\ (224 < String.length (PyStr.strip s))%nat
  | Returned None => v = None
  | Returned (Some p) =>
      (exists s, v = Some s /\ p = PyStr.strip s)
      /\ (String.length p <= 224)%nat
      /\ FastTranscriptionSchema.validate_prompt (Some p) = Returned (Some p)
  end.
Proof.
  destruct v as [s|]; [|reflexivity]. cbn [FastTranscriptionSchema.validate_prompt].
  destruct (224 <? String.length (PyStr.strip s))%nat eqn:Hlen.
  - apply Nat.ltb_lt in Hlen. split; eauto.
  - split; [eauto|]. split; [now apply Nat.ltb_ge in Hlen|].
    now rewrite strip_idem, Hlen.
Qed.

Lemma request_for_path_blank (path : string) :
  PyStr.whitespace_only path = true ->
  exists msg, FastTranscriptionSchema.request_for_path path = Raised ValueError msg.
Proof.
  intros Hws. unfold FastTranscriptionSchema.request_for_path,
                FastTranscriptionSchema.validate_audio_file_path.
  assert (Hg : negb (PyStr.truthy path) || negb (PyStr.truthy (PyStr.strip path)) = true)
    by (now apply blank_guard_iff).
  rewrite Hg. eauto.
Qed.

Lemma request_for_path_strip (path : string) :
  FastTranscriptionSchema.request_for_path (PyStr.strip path)
  = FastTranscriptionSchema.request_for_path path.
Proof.
  unfold FastTranscriptionSchema.request_for_path,
    FastTranscriptionSchema.validate_audio_file_path.
  destruct (PyStr.whitespace_only path) eqn:Hws.
  - assert (Hg : negb (PyStr.truthy path) || negb (PyStr.truthy (PyStr.strip path)) = true)
      by (now apply blank_guard_iff).
    assert (Hg' : negb (PyStr.truthy (PyStr.strip path))
                  || negb (PyStr.truthy (PyStr.strip (PyStr.strip path))) = true)
      by (apply blank_guard_iff; now rewrite strip_blank).
    now rewrite Hg, Hg'.
  - rewrite (blank_guard_false path Hws).
    rewrite blank_guard_false by (now rewrite strip_blank).
    now rewrite strip_idem.
Qed.

(** X25. [transcribe_simple] of [fast_transcription]: a path that is empty
    or only whitespace raises a [ValueError] before anything else happens
    (no provider call, nothing cached); whitespace around the path is
    ignored; and when the cache misses and the transcription fails, the
    exception raised carries ["<type>: Transcription failed: <message>"]. *)
Theorem transcribe_simple_spec (E : Env) (path : string) (w : World) :
  (PyStr.whitespace_only path = true ->
   exists msg, FastTranscriptionApi.transcribe_simple E path w = (Raised ValueError msg, w))
  /\ FastTranscriptionApi.transcribe_simple E (PyStr.strip path) w
     = FastTranscriptionApi.transcribe_simple E path w
  /\ (forall request err wa,
        FastTranscriptionSchema.request_for_path path = Returned request ->
        (FastTranscription._get_cached_transcription
           E (audio_file_path request) (params_of request) w).1 = None ->
        Transcription.transcribe_audio E request w = (inr err, wa) ->
        audio_file_path request = PyStr.strip path
        /\ FastTranscriptionApi.transcribe_simple E path w
           = (Raised OtherException
                (error_type err +:+ ": " +:+ ("Transcription failed: " +:+ error_message err)),
              wa)).
Proof.
  split; [|split].
  - intros Hws. destruct (request_for_path_blank path Hws) as [msg Hmsg].
    exists msg. unfold FastTranscriptionApi.transcribe_simple. now rewrite Hmsg.
  - unfold FastTranscriptionApi.transcribe_simple. now rewrite request_for_path_strip.
  - intros request err wa Hreq Hmiss Haudio. split.
    + revert Hreq. unfold FastTranscriptionSchema.request_for_path,
        FastTranscriptionSchema.validate_audio_file_path.
      destruct (_ || _); [discriminate|]. now intros [= <-].
    + unfold FastTranscriptionApi.transcribe_simple. rewrite Hreq.
      assert (Hrun : FastTranscription.transcribe E request w
                     = (inr (transcription_stage_error request err), wa)).
      { unfold FastTranscription.transcribe.
        change {| rp_language := language request;
                  rp_response_format := response_format request;
                  rp_temperature := temperature request;
                  rp_prompt := prompt request |} with (params_of request).
        rewrite request_eta. unfold Transcription.transcribe_audio_file.
        rewrite (bind_run _ _ w w None) by (now rewrite ft_lookup_world, Hmiss).
        now rewrite (bind_run _ _ w wa (inr err) Haudio). }
      now rewrite (bind_run _ _ w wa _ Hrun).
Qed.

(** ** Threshold levels *)

Lemma moderation_levels_other (level : string) :
  level <> "strict" -> level <> "moderate" -> level <> "lenient" ->
  ModerationUtils.MODERATION_LEVELS !! level = None.
Proof.
  intros H1 H2 H3. unfold ModerationUtils.MODERATION_LEVELS.
  rewrite !lookup_insert_ne by congruence. now apply lookup_singleton_ne.
Qed.

(** X26. [get_thresholds] always answers with one of the three tables:
    the table of the level for ["strict"], ["moderate"] and ["lenient"],
    and the moderate table when the level is missing or unknown.  The
    table has the four categories sexual, harassment, hate and violence,
    and each of its thresholds lies between the strict and the lenient
    one. *)
Theorem get_thresholds_spec (level : option string) :
  let table := ModerationUtils.get_thresholds level in
  let strict := ModerationUtils.get_thresholds (Some "strict") in
  let moderate := ModerationUtils.get_thresholds (Some "moderate") in
  let lenient := ModerationUtils.get_thresholds (Some "lenient") in
  table = match level with
          | Some level =>
              if String.eqb level "strict" then strict
              else if String.eqb level "lenient" then lenient
              else moderate
          | None => moderate
          end
  /\ ModerationUtils.MODERATION_LEVELS !! "moderate" = Some moderate
  /\ ModerationUtils.MODERATION_LEVELS !! "strict" = Some strict
  /\ ModerationUtils.MODERATION_LEVELS !! "lenient" = Some lenient
  /\ dom table = ({[ "sexual"; "harassment"; "hate"; "violence" ]} : gset string)
  /\ (forall category x,
        table !! category = Some x ->
        exists lo hi,
          strict !! category = Some lo /\ lenient !! category = Some hi
          /\ (lo <= x <= hi)%Q).
Proof.
  intros table strict moderate lenient.
  assert (Hs : ModerationUtils.MODERATION_LEVELS !! "strict"
               = Some {[ "sexual" := 0.05%Q; "harassment" := 0.03%Q;
                         "hate" := 0.03%Q; "violence" := 0.05%Q ]})
    by (unfold ModerationUtils.MODERATION_LEVELS; now rewrite lookup_insert_eq).
  assert (Hm : ModerationUtils.MODERATION_LEVELS !! "moderate"
               = Some {[ "sexual" := 0.1%Q; "harassment" := 0.05%Q;
                         "hate" := 0.05%Q; "violence" := 0.1%Q ]})
    by (unfold ModerationUtils.MODERATION_LEVELS;
        now rewrite lookup_insert_ne, lookup_insert_eq by discriminate).
  assert (Hl : ModerationUtils.MODERATION_LEVELS !! "lenient"
               = Some {[ "sexual" := 0.2%Q; "harassment" := 0.1%Q;
                         "hate" := 0.1%Q; "violence" := 0.15%Q ]})
    by (unfold ModerationUtils.MODERATION_LEVELS;
        now rewrite !lookup_insert_ne, lookup_singleton_eq by discriminate).
  assert (Hstrict : strict = {[ "sexual" := 0.05%Q; "harassment" := 0.03%Q;
                                "hate" := 0.03%Q; "violence" := 0.05%Q ]}).
  { subst strict. unfold ModerationUtils.get_thresholds.
    cbn [default from_option id]. now rewrite Hs. }
  assert (Hmoderate : moderate = {[ "sexual" := 0.1%Q; "harassment" := 0.05%Q;
                                    "hate" := 0.05%Q; "violence" := 0.1%Q ]}).
  { subst moderate. unfold ModerationUtils.get_thresholds.
    cbn [default from_option id]. now rewrite Hm. }
  assert (Hlenient : lenient = {[ "sexual" := 0.2%Q; "harassment" := 0.1%Q;
                                  "hate" := 0.1%Q; "violence" := 0.15%Q ]}).
  { subst lenient. unfold ModerationUtils.get_thresholds.
    cbn [default from_option id]. now rewrite Hl. }
  rewrite <- Hstrict in Hs. rewrite <- Hmoderate in Hm. rewrite <- Hlenient in Hl.
  assert (Htable : table = match level with
                           | Some level =>
                               if String.eqb level "strict" then strict
                               else if String.eqb level "lenient" then lenient
                               else moderate
                           | None => moderate
                           end).
  { subst table. destruct level as [level|]; [|reflexivity].
    destruct (String.eqb_spec level "strict") as [->|H1]; [reflexivity|].
    destruct (String.eqb_spec level "lenient") as [->|H3]; [reflexivity|].
    destruct (String.eqb_spec level "moderate") as [->|H2]; [reflexivity|].
    unfold ModerationUtils.get_thresholds. cbn [default from_option id].
    now rewrite (moderation_levels_other level H1 H2 H3). }
  split; [exact Htable|]. split; [exact Hm|]. split; [exact Hs|]. split; [exact Hl|].
  assert (Hcases : table = strict \/ table = moderate \/ table = lenient).
  { rewrite Htable. destruct level as [level|]; [|now right; left].
    destruct (String.eqb level "strict"); [now left|].
    destruct (String.eqb level "lenient"); [now right; right | now right; left]. }
  assert (Hdom : dom table = ({[ "sexual"; "harassment"; "hate"; "violence" ]} : gset string)).
  { destruct Hcases as [-> | [-> | ->]];
      rewrite ?Hstrict, ?Hmoderate, ?Hlenient, !dom_insert_L, dom_singleton_L;
      apply set_eq; intros k; rewrite !elem_of_union, !elem_of_singleton; tauto. }
  assert (Hin : forall category x,
             table !! category = Some x ->
             category ∈ ["sexual"; "harassment"; "hate"; "violence"]).
  { intros category x Hx.
    assert (Hd : category ∈ dom table) by (apply elem_of_dom; eauto).
    rewrite Hdom, !elem_of_union, !elem_of_singleton in Hd.
    rewrite !elem_of_cons. tauto. }
  split; [exact Hdom|].
  intros category x Hx. pose proof (Hin category x Hx) as Hc.
  rewrite !elem_of_cons, elem_of_nil in Hc.
  destruct Hc as [-> | [-> | [-> | [-> | []]]]];
    destruct Hcases as [Ht | [Ht | Ht]]; rewrite Ht in Hx;
    clear -Hx; vm_compute in Hx; injection Hx as <-;
    eexists; eexists; (split; [vm_compute; reflexivity|]);
    (split; [vm_compute; reflexivity|]); split; vm_compute; discriminate.
Qed.

(** ** What the cache key leaves out *)

Lemma ft_cache_key_same (E : Env) (file_path : string) (params params' : request_params)
      (w w' : World) :
  files w' !! file_path = files w !! file_path ->
  rp_language params' = rp_language params ->
  rp_response_format params' = rp_response_format params ->
  rp_temperature params' = rp_temperature params ->
  FastTranscription.cache_key E file_path params' w'
  = FastTranscription.cache_key E file_path params w.
Proof.
  intros Hf Hl Hr Ht.
  unfold FastTranscription.cache_key, FastTranscription._get_file_info.
  now rewrite Hf, Hl, Hr, Ht.
Qed.

(** After a successful [transcribe] the result sits in the cache under the
    request's key, with a timestamp. *)
Lemma ft_transcribe_stored (E : Env) (request : TranscriptionRequest) (w w1 : World)
      (r1 : TranscriptionResponse) :
  let key := FastTranscription.cache_key E (audio_file_path request) (params_of request) w in
  FastTranscription.transcribe E request w = (inl r1, w1) ->
  exists d ts,
    r1 = response_of_dict d
    /\ ft_transcription_cache w1 !! key = Some d
    /\ ft_cache_timestamps w1 !! key = Some ts.
Proof.
  intros key. unfold FastTranscription.transcribe.
  change {| rp_language := language request;
            rp_response_format := response_format request;
            rp_temperature := temperature request;
            rp_prompt := prompt request |} with (params_of request).
  rewrite request_eta. unfold Transcription.transcribe_audio_file.
  unfold bind at 1.
  rewrite (ft_get_cached_unfold E (audio_file_path request) (params_of request) w).
  fold key.
  assert (Hmiss : forall r w',
             bind (Transcription.transcribe_audio E request)
               (fun transcription_result =>
                  match transcription_result with
                  | inl r =>
                      bind (FastTranscription._cache_transcription
                              E (audio_file_path request) (params_of request)
                              {| td_transcript := rs_transcript r;
                                 td_file_path := rs_file_path r;
                                 td_language_detected := rs_language_detected r;
                                 td_duration := rs_duration r;
                                 td_response_format := rs_response_format r |})
                           (fun _ =>
                              ret (inl {| rs_success := true;
                                          rs_transcript := rs_transcript r;
                                          rs_file_path := rs_file_path r;
                                          rs_language_detected := rs_language_detected r;
                                          rs_duration := rs_duration r;
                                          rs_response_format := rs_response_format r |}))
                  | inr err =>
                      ret (inr {| se_error_type := error_type err;
                                  se_error_message :=
                                    "Transcription failed: " +:+ error_message err;
                                  se_file_path := Some (audio_file_path request);
                                  se_stage := "transcription" |})
                  end) w = (inl r, w') ->
             exists d ts,
               r = response_of_dict d
               /\ ft_transcription_cache w' !! key = Some d
               /\ ft_cache_timestamps w' !! key = Some ts).
  { intros r w'. unfold bind at 1.
    pose proof (transcribe_audio_same_store E request w) as (Hf & _).
    destruct (Transcription.transcribe_audio E request w) as [[resp|err] wa];
      [|unfold ret; discriminate].
    cbn [snd] in Hf. unfold bind.
    pose proof (ft_cache_transcription_stores E (audio_file_path request)
                  (params_of request) (dict_of_response resp) wa) as (Hd & Hts & _).
    assert (Hkey : FastTranscription.cache_key
                     E (audio_file_path request) (params_of request) wa = key)
      by (apply ft_cache_key_files; now rewrite Hf).
    rewrite Hkey in Hd, Hts.
    change {| td_transcript := rs_transcript resp;
              td_file_path := rs_file_path resp;
              td_language_detected := rs_language_detected resp;
              td_duration := rs_duration resp;
              td_response_format := rs_response_format resp |}
      with (dict_of_response resp).
    destruct (FastTranscription._cache_transcription _ _ _ _ wa) as [[] wb].
    unfold ret. intros [= <- <-]. exists (dict_of_response resp), (now wa).
    cbn [snd] in Hd, Hts. now repeat split. }
  destruct (FastTranscription._is_cache_valid key w) eqn:Hvalid; cbn [andb];
    [|apply Hmiss].
  destruct (bool_decide _); [|apply Hmiss].
  destruct (ft_transcription_cache w !! key) as [d|] eqn:Hd; [|apply Hmiss].
  unfold ret. intros [= <- <-].
  destruct (ft_valid_has_timestamp key w Hvalid) as [ts Hts].
  exists d, ts. now repeat split.
Qed.

(** X27. The prompt is not part of the cache key: after a successful
    [transcribe], a request for the same file with the same language,
    format and temperature but any other prompt, made while the entry is
    younger than the TTL, is answered from the cache with the first
    result, and the provider never sees the new prompt. *)
Theorem cache_ignores_prompt (E : Env) (request request' : TranscriptionRequest)
        (w w1 w2 : World) (r1 : TranscriptionResponse) :
  let key := FastTranscription.cache_key E (audio_file_path request) (params_of request) w in
  audio_file_path request' = audio_file_path request ->
  language request' = language request ->
  response_format request' = response_format request ->
  temperature request' = temperature request ->
  FastTranscription.transcribe E request w = (inl r1, w1) ->
  ft_transcription_cache w2 = ft_transcription_cache w1 ->
  ft_cache_timestamps w2 = ft_cache_timestamps w1 ->
  files w2 !! audio_file_path request = files w !! audio_file_path request ->
  (forall ts, ft_cache_timestamps w1 !! key = Some ts -> (now w2 - ts < 3600)%Q) ->
  FastTranscription.transcribe E request' w2 = (inl r1, w2).
Proof.
  intros key Hpath Hlang Hformat Htemp Hrun Hc Hs Hfiles Httl.
  destruct (ft_transcribe_stored E request w w1 r1 Hrun) as (d & ts & -> & Hd & Hts).
  fold key in Hd, Hts.
  assert (Hkey : FastTranscription.cache_key
                   E (audio_file_path request') (params_of request') w2 = key).
  { rewrite Hpath. apply ft_cache_key_same; assumption. }
  apply (ft_transcribe_hit E request' w2 d ts).
  - change {| rp_language := language request';
              rp_response_format := response_format request';
              rp_temperature := temperature request';
              rp_prompt := prompt request' |} with (params_of request').
    rewrite Hkey, Hc. exact Hd.
  - change {| rp_language := language request';
              rp_response_format := response_format request';
              rp_temperature := temperature request';
              rp_prompt := prompt request' |} with (params_of request').
    rewrite Hkey, Hs. exact Hts.
  - apply Httl, Hts.
Qed.

Lemma cache_ignores_prompt_witness :
  let E := Demo.env Demo.moderation_down (Demo.stt_ok "hi") in
  let request' := {| audio_file_path := "/tmp/clip.wav"; language := None;
                     prompt := Some "Names: Ana, Bo";
                     response_format := "text"; temperature := PyInt 0 |} in
  let first := FastTranscription.transcribe E Demo.request Demo.world in
  let w2 := elapse 60 first.2 in
  FastTranscription.transcribe E request' w2 = (inl demo_response, w2)
  /\ stt_calls w2 = 1%nat
  /\ trace w2 = [EvTranscription "/tmp/clip.wav"].
Proof.
  intros E request' first w2.
  split; [|split; vm_compute; reflexivity].
  refine (cache_ignores_prompt E Demo.request request' Demo.world first.2 w2 demo_response
            eq_refl eq_refl eq_refl eq_refl _ eq_refl eq_refl _ _).
  - vm_compute. reflexivity.
  - vm_compute. reflexivity.
  - intros ts Hts. vm_compute in Hts. injection Hts as <-. vm_compute. reflexivity.
Defined.

(** ** Letter case *)

(** X28. The pattern stage looks at the lower-cased text only: two texts
    that differ in letter case alone get the same flags and the same
    reason, so when a rule group matches one of them, [moderate_text]
    flags the other as well, without calling the classifier. *)
Theorem pattern_stage_ignores_case (E : Env) (text text' : string) (w : World) :
  PyStr.lower text' = PyStr.lower text ->
  Moderation.check_custom_patterns_only E text'
  = Moderation.check_custom_patterns_only E text
  /\ (existsb (fun r => r.2) (Spec.group_results E text) = true ->
      v_flagged (Moderation.moderate_text E text' w).1 = true
      /\ (Moderation.moderate_text E text' w).2 = w).
Proof.
  intros Hlower.
  assert (Hsame : Moderation.check_custom_patterns_only E text'
                  = Moderation.check_custom_patterns_only E text)
    by (unfold Moderation.check_custom_patterns_only; now rewrite Hlower).
  split; [exact Hsame|]. intros Hmatch.
  apply some_group_matches_iff in Hmatch. rewrite <- Hsame in Hmatch.
  rewrite (moderate_text_pattern_path E text' w Hmatch). now split.
Qed.

Lemma pattern_stage_ignores_case_witness :
  let E := Demo.env Demo.moderation_clean (Demo.stt_ok "hi") in
  let run := Moderation.moderate_text E "You FUCKING Idiot" Demo.world in
  v_flagged run.1 = true /\ run.2 = Demo.world.
Proof.
  intros E run.
  refine (proj2 (pattern_stage_ignores_case E "you fucking idiot" "You FUCKING Idiot"
                   Demo.world _) _);
    vm_compute; reflexivity.
Defined.

(** ** Errors of [transcribe_audio] *)



